(** * Dock2Tauri launcher: a shallow embedding of [scripts/dock2tauri.py]

    The launcher is a sequential script: it probes the host, reclaims a
    port, starts a container, polls it over HTTP, writes a Tauri
    configuration file, runs the packaging tool and tears everything
    down.  Every interaction with the outside world (subprocesses, HTTP,
    the file system, the terminal) is modelled as an event appended to a
    trace; what the outside world answers is read from an oracle.  Python
    exceptions and [try]/[except]/[finally] are modelled by a small
    state-and-exception monad. *)

From Stdlib Require Import ZArith List String Ascii Bool Lia DecimalString.
Import ListNotations.
Local Open Scope string_scope.
Local Open Scope Z_scope.

Set Implicit Arguments.
Set Warnings "-register-all".

(** ** Python strings

    A Python [str] is modelled as a Rocq [string]; each character stands
    for the code point of the same number (code points below 256). *)

Module PyStr.

(** [str(n)] and the [{n}] of an f-string, for an [int]. *)
Definition str (n : Z) : string := NilZero.string_of_int (Z.to_int n).

(** [s.replace(a, b)] for one-character [a] and [b]. *)
Fixpoint replace (a b : ascii) (s : string) : string :=
  match s with
  | EmptyString => EmptyString
  | String c r => String (if Ascii.eqb c a then b else c) (replace a b r)
  end.

(** [c in chars] for a character [c]. *)
Fixpoint mem (c : ascii) (chars : string) : bool :=
  match chars with
  | EmptyString => false
  | String d r => Ascii.eqb c d || mem c r
  end.

(** [''.join(c for c in s if keep(c))]. *)
Fixpoint filter (keep : ascii -> bool) (s : string) : string :=
  match s with
  | EmptyString => EmptyString
  | String c r => if keep c then String c (filter keep r) else filter keep r
  end.

(** [s.split(sep)[0]]: the text before the first [sep]. *)
Fixpoint before (sep : ascii) (s : string) : string :=
  match s with
  | EmptyString => EmptyString
  | String c r => if Ascii.eqb c sep then EmptyString else String c (before sep r)
  end.

(** [s.split(sep)] for a one-character separator; never empty. *)
Fixpoint split (sep : ascii) (s : string) : list string :=
  match s with
  | EmptyString => [EmptyString]
  | String c r =>
      if Ascii.eqb c sep then EmptyString :: split sep r
      else match split sep r with
           | [] => [String c EmptyString]
           | w :: ws => String c w :: ws
           end
  end.

(** [c.isspace()] on code points below 256. *)
Definition isspace (c : ascii) : bool :=
  let n := N_of_ascii c in
  ((9 <=? n) && (n <=? 13) || (28 <=? n) && (n <=? 32)
   || (n =? 133) || (n =? 160))%N.

(** [c.isalnum()] on code points below 256. *)
Definition isalnum (c : ascii) : bool :=
  let n := N_of_ascii c in
  ((48 <=? n) && (n <=? 57) || (65 <=? n) && (n <=? 90)
   || (97 <=? n) && (n <=? 122)
   || (n =? 170) || (n =? 178) || (n =? 179) || (n =? 181)
   || (n =? 185) || (n =? 186) || (188 <=? n) && (n <=? 190)
   || (192 <=? n) && (n <=? 214) || (216 <=? n) && (n <=? 246)
   || (248 <=? n))%N.

Fixpoint lstrip (s : string) : string :=
  match s with
  | EmptyString => EmptyString
  | String c r => if isspace c then lstrip r else s
  end.

Fixpoint rstrip (s : string) : string :=
  match s with
  | EmptyString => EmptyString
  | String c r =>
      match rstrip r with
      | EmptyString => if isspace c then EmptyString else String c EmptyString
      | r' => String c r'
      end
  end.

(** [s.strip()]. *)
Definition strip (s : string) : string := rstrip (lstrip s).

(** [bool(s)]: a string is true when it is not empty. *)
Definition truthy (s : string) : bool :=
  match s with EmptyString => false | _ => true end.

Fixpoint prefixb (p s : string) : bool :=
  match p, s with
  | EmptyString, _ => true
  | String a p', String b s' => Ascii.eqb a b && prefixb p' s'
  | _, EmptyString => false
  end.

(** [p in s] for strings. *)
Fixpoint contains (p s : string) : bool :=
  prefixb p s ||
  match s with
  | EmptyString => false
  | String _ r => contains p r
  end.

End PyStr.

(** ** The controller object *)

(** [Dock2Tauri]: the fields set by [__init__] that never change.  The
    one field that is assigned later, [container_id], lives in the world
    state below.  [config_file] is a fixed path and is modelled by the
    file-system slot of the same name. *)
Record Dock2Tauri := {
  image : string;
  host_port : string;
  container_port : string;
  container_name : string;
  build_release : bool;
  build_target : option string
}.

Definition Dock2Tauri_init (img : string) (hp cp : Z)
    (release : bool) (target : option string) : Dock2Tauri :=
  {| image := img;
     host_port := PyStr.str hp;
     container_port := PyStr.str cp;
     container_name :=
       "dock2tauri-" ++ PyStr.replace "/" "-" (PyStr.replace ":" "-" img)
                     ++ "-" ++ PyStr.str hp;
     build_release := release;
     build_target := target |}.

(** ** JSON documents and [json.dump(config, f, indent=2)] *)

Inductive json :=
| JNull
| JBool (b : bool)
| JInt (n : Z)
| JStr (s : string)
| JList (items : list json)
| JDict (fields : list (string * json)).

Module Json.

Definition hex_digit (n : N) : ascii :=
  ascii_of_N (if (n <? 10)%N then 48 + n else 87 + n)%N.

Definition quote : ascii := ascii_of_nat 34.
Definition backslash : ascii := ascii_of_nat 92.

(** The escape of one character under [ensure_ascii=True]. *)
Definition escape (c : ascii) : string :=
  let n := N_of_ascii c in
  if (n =? 34)%N then String backslash (String quote EmptyString)
  else if (n =? 92)%N then String backslash (String backslash EmptyString)
  else if (n =? 8)%N then String backslash "b"
  else if (n =? 12)%N then String backslash "f"
  else if (n =? 10)%N then String backslash "n"
  else if (n =? 13)%N then String backslash "r"
  else if (n =? 9)%N then String backslash "t"
  else if ((32 <=? n) && (n <=? 126))%N then String c EmptyString
  else String backslash
         ("u00" ++ String (hex_digit (n / 16)) (String (hex_digit (n mod 16)) EmptyString)).

Fixpoint escape_all (s : string) : string :=
  match s with
  | EmptyString => EmptyString
  | String c r => escape c ++ escape_all r
  end.

Definition encode_string (s : string) : string :=
  String quote (escape_all s ++ String quote EmptyString).

Fixpoint spaces (n : nat) : string :=
  match n with O => EmptyString | S k => String " " (spaces k) end.

Definition newline_indent (level : nat) : string :=
  String (ascii_of_nat 10) (spaces (2 * level)).

Fixpoint join (sep : string) (l : list string) : string :=
  match l with
  | [] => EmptyString
  | [x] => x
  | x :: r => x ++ sep ++ join sep r
  end.

(** The text of a document at nesting depth [level], with [indent=2]. *)
Fixpoint dumps (level : nat) (j : json) : string :=
  match j with
  | JNull => "null"
  | JBool true => "true"
  | JBool false => "false"
  | JInt n => PyStr.str n
  | JStr s => encode_string s
  | JList [] => "[]"
  | JList items =>
      "[" ++ newline_indent (S level)
          ++ join ("," ++ newline_indent (S level)) (map (dumps (S level)) items)
          ++ newline_indent level ++ "]"
  | JDict [] => "{}"
  | JDict fields =>
      "{" ++ newline_indent (S level)
          ++ join ("," ++ newline_indent (S level))
               (map (fun kv => match kv with
                               | (k, v) => encode_string k ++ ": " ++ dumps (S level) v
                               end) fields)
          ++ newline_indent level ++ "}"
  end.

(** [d[k]] on a document, [None] when [d] is not a dict or has no [k]. *)
Definition get (k : string) (d : json) : option json :=
  match d with
  | JDict fields =>
      option_map snd (find (fun kv => String.eqb (fst kv) k) fields)
  | _ => None
  end.

End Json.

(** The [config] dictionary of [update_tauri_config]. *)
Definition tauri_config (self : Dock2Tauri) : json :=
  let forbidden :=
    "/" ++ String Json.backslash (":*?" ++ String Json.quote "<>|") in
  JDict [
    ("$schema", JStr "../node_modules/@tauri-apps/cli/schema.json");
    ("productName",
       JStr ("Dock2Tauri - " ++
             PyStr.filter (fun c => negb (PyStr.mem c forbidden))
                          (PyStr.before ":" (image self))));
    ("version", JStr "1.0.0");
    ("identifier",
       JStr ("com.dock2tauri." ++ PyStr.filter PyStr.isalnum (image self)));
    ("build", JDict [
       ("beforeBuildCommand", JStr EmptyString);
       ("beforeDevCommand", JStr EmptyString);
       ("devUrl", JStr ("http://localhost:" ++ host_port self));
       ("frontendDist", JStr "../app") ]);
    ("app", JDict [
       ("security", JDict [ ("csp", JNull) ]);
       ("windows", JList [ JDict [
          ("title", JStr ("Dock2Tauri - " ++ image self));
          ("width", JInt 1200);
          ("height", JInt 800);
          ("minWidth", JInt 600);
          ("minHeight", JInt 400);
          ("resizable", JBool true);
          ("fullscreen", JBool false) ] ]) ]);
    ("bundle", JDict [
       ("active", JBool true);
       ("targets", JList [ JStr "appimage"; JStr "deb"; JStr "rpm" ]);
       ("icon", JList []);
       ("resources", JList []);
       ("externalBin", JList []);
       ("copyright", JStr EmptyString);
       ("category", JStr "DeveloperTool");
       ("shortDescription", JStr "Docker App in Tauri");
       ("longDescription",
          JStr ("Running " ++ image self ++ " as desktop application")) ]);
    ("plugins", JDict [])
  ].

(** The text that [json.dump(config, f, indent=2)] writes. *)
Definition tauri_config_text (self : Dock2Tauri) : string :=
  Json.dumps 0 (tauri_config self).

(** ** Exceptions, events and the outside world *)

(** The exceptions the script can meet.  [KeyboardInterrupt] is the only
    one that is not a subclass of [Exception]; [Error cls msg] stands for
    any other subclass of [Exception] ([OSError], [URLError], ...). *)
Inductive exn :=
| KeyboardInterrupt
| CalledProcessError (cmd : list string) (returncode : Z) (stdout stderr : string)
| Error (cls msg : string).

(** [isinstance(e, Exception)]. *)
Definition is_Exception (e : exn) : bool :=
  match e with KeyboardInterrupt => false | _ => true end.

Inductive level := LInfo | LSuccess | LError | LWarning.

(** What the script does to the outside world, in order.  [Log] is a call
    of [Logger.info/success/error/warning]; [LogExn l p e] is such a call
    with the message [f"{p}{e}"].  [Print] records text printed without
    the logger (colour codes and pictographs left out).  The file-system
    events name the operation; the paths are fixed: [Copy2] copies
    [config_file] to the backup path, [OpenWrite] opens [config_file] for
    writing and dumps the text, [Rename] renames the backup to
    [config_file], [Chdir] enters the [src-tauri] directory. *)
Inductive event :=
| Print (text : string)
| Log (lvl : level) (msg : string)
| LogExn (lvl : level) (prefix : string) (e : exn)
| Run (argv : list string)
| UrlOpen (url : string)
| Sleep (seconds : Z)
| Chdir
| Copy2
| OpenWrite (text : string)
| Rename.

Inductive run_reply :=
| Completed (returncode : Z) (stdout stderr : string)
| RunRaises (e : exn).

Inductive http_reply :=
| Response (status : Z)
| UrlRaises (e : exn).

(** [WriteRaises msg left]: writing failed with [OSError(msg)]; [left] is
    [None] when [open] itself failed (the file is as before) and
    [Some t] when the file was opened, hence truncated, and holds [t]. *)
Inductive write_reply :=
| Written
| WriteRaises (msg : string) (left : option string).

(** [CopyRaises msg left]: the copy failed with [OSError(msg)]; [left] is
    [None] when the destination was not touched (the source could not be
    read, or the destination could not be opened) and [Some t] when the
    destination was created or truncated and holds [t]: a part of the
    source when the copy broke off, all of it when only the copy of the
    metadata failed. *)
Inductive copy_reply :=
| Copied
| CopyRaises (msg : string) (left : option string).

(** The oracle: what each call gets as an answer.  The [nat] is the number
    of events that happened before the call.  A user interrupt can be
    delivered at the blocking calls ([subprocess.run], [urlopen],
    [time.sleep]); a file-system call succeeds or raises [OSError] with
    the given message, and a copy or a write that fails says what it
    left in the file. *)
Record Env := {
  on_run : nat -> list string -> run_reply;
  on_urlopen : nat -> string -> http_reply;
  on_sleep : nat -> option exn;
  on_chdir : nat -> option string;
  on_copy2 : nat -> copy_reply;
  on_write : nat -> write_reply;
  on_rename : nat -> option string
}.

(** The state the script can change: its own [container_id] field, the
    two files it touches ([None]: the file does not exist), and the
    events so far, newest first. *)
Record world := {
  container_id : option string;
  config_file : option string;
  backup_file : option string;
  history : list event
}.

(** The events of a run in the order they happened. *)
Definition events (w : world) : list event := rev (history w).

Definition now (w : world) : nat := List.length (history w).

(** ** A monad for state and exceptions *)

Inductive result (A : Type) :=
| Return (a : A)
| Raise (e : exn).
Arguments Raise {A} e.

Definition M (A : Type) : Type := world -> result A * world.

Definition ret {A} (a : A) : M A := fun w => (Return a, w).

Definition raise {A} (e : exn) : M A := fun w => (Raise e, w).

Definition bind {A B} (m : M A) (k : A -> M B) : M B :=
  fun w =>
    match m w with
    | (Return a, w') => k a w'
    | (Raise e, w') => (Raise e, w')
    end.

Declare Scope py_scope.
Delimit Scope py_scope with py.
Notation "x <- m ;; k" := (bind m (fun x => k))
  (at level 61, m at next level, right associativity) : py_scope.
Notation "m ;; k" := (bind m (fun _ => k))
  (at level 61, right associativity) : py_scope.
Local Open Scope py_scope.

(** [try: body except ...: handler].  [handler e] is [None] when no
    [except] clause matches [e]. *)
Definition try_except {A} (body : M A) (handler : exn -> option (M A)) : M A :=
  fun w =>
    match body w with
    | (Return a, w') => (Return a, w')
    | (Raise e, w') =>
        match handler e with
        | Some h => h w'
        | None => (Raise e, w')
        end
    end.

(** [try: body finally: final].  The [finally] block runs whatever the
    body did; when it raises, its exception replaces the body's result. *)
Definition try_finally {A} (body : M A) (final : M unit) : M A :=
  fun w =>
    match body w with
    | (r, w') =>
        match final w' with
        | (Return _, w'') => (r, w'')
        | (Raise e, w'') => (Raise e, w'')
        end
    end.

(** [for x in xs: body(x)]. *)
Fixpoint for_each {A} (xs : list A) (body : A -> M unit) : M unit :=
  match xs with
  | [] => ret tt
  | x :: r => body x ;; for_each r body
  end.

Definition emit (e : event) : M unit :=
  fun w => (Return tt,
            {| container_id := container_id w;
               config_file := config_file w;
               backup_file := backup_file w;
               history := e :: history w |}).

Definition get {A} (f : world -> A) : M A := fun w => (Return (f w), w).

Definition set_container_id (id : string) : M unit :=
  fun w => (Return tt,
            {| container_id := Some id;
               config_file := config_file w;
               backup_file := backup_file w;
               history := history w |}).

Definition set_files (config backup : option string) : M unit :=
  fun w => (Return tt,
            {| container_id := container_id w;
               config_file := config;
               backup_file := backup;
               history := history w |}).

Module Logger.
Definition info (msg : string) : M unit := emit (Log LInfo msg).
Definition success (msg : string) : M unit := emit (Log LSuccess msg).
Definition error (msg : string) : M unit := emit (Log LError msg).
Definition warning (msg : string) : M unit := emit (Log LWarning msg).
End Logger.

Definition print (text : string) : M unit := emit (Print text).

Record CompletedProcess := {
  returncode : Z;
  stdout : string;
  stderr : string
}.

(** [str(x)] for a field that is a string or [None]. *)
Definition str_opt (o : option string) : string :=
  match o with Some s => s | None => "None" end.

Definition newline : string := String (ascii_of_nat 10) EmptyString.

(** ** The launcher *)

Section Launcher.

Variable E : Env.

(** [subprocess.run(argv, check=check, ...)]. *)
Definition subprocess_run (argv : list string) (check : bool) : M CompletedProcess :=
  fun w =>
    let w' := snd (emit (Run argv) w) in
    match on_run E (now w) argv with
    | RunRaises e => (Raise e, w')
    | Completed rc out err =>
        if check && negb (rc =? 0)
        then (Raise (CalledProcessError argv rc out err), w')
        else (Return {| returncode := rc; stdout := out; stderr := err |}, w')
    end.

(** [urllib.request.urlopen(url, timeout=1)]; the value is the status. *)
Definition urlopen (url : string) : M Z :=
  fun w =>
    let w' := snd (emit (UrlOpen url) w) in
    match on_urlopen E (now w) url with
    | UrlRaises e => (Raise e, w')
    | Response status => (Return status, w')
    end.

(** [time.sleep(seconds)]. *)
Definition sleep (seconds : Z) : M unit :=
  fun w =>
    let w' := snd (emit (Sleep seconds) w) in
    match on_sleep E (now w) with
    | Some e => (Raise e, w')
    | None => (Return tt, w')
    end.

(** [os.chdir(tauri_dir)]. *)
Definition chdir : M unit :=
  fun w =>
    let w' := snd (emit Chdir w) in
    match on_chdir E (now w) with
    | Some msg => (Raise (Error "OSError" msg), w')
    | None => (Return tt, w')
    end.

(** [shutil.copy2(self.config_file, backup_file)]. *)
Definition copy2 : M unit :=
  fun w =>
    let w' := snd (emit Copy2 w) in
    match on_copy2 E (now w) with
    | Copied => set_files (config_file w') (config_file w') w'
    | CopyRaises msg None => (Raise (Error "OSError" msg), w')
    | CopyRaises msg (Some t) =>
        (Raise (Error "OSError" msg), snd (set_files (config_file w') (Some t) w'))
    end.

(** [with open(self.config_file, 'w') as f: json.dump(config, f, indent=2)]. *)
Definition write_config (text : string) : M unit :=
  fun w =>
    let w' := snd (emit (OpenWrite text) w) in
    match on_write E (now w) with
    | Written => set_files (Some text) (backup_file w') w'
    | WriteRaises msg None => (Raise (Error "OSError" msg), w')
    | WriteRaises msg (Some t) =>
        (Raise (Error "OSError" msg), snd (set_files (Some t) (backup_file w') w'))
    end.

(** [backup_file.rename(self.config_file)]. *)
Definition rename : M unit :=
  fun w =>
    let w' := snd (emit Rename w) in
    match on_rename E (now w) with
    | Some msg => (Raise (Error "OSError" msg), w')
    | None => set_files (backup_file w') None w'
    end.

Variable self : Dock2Tauri.

Definition _command_exists (command : string) : M bool :=
  p <- subprocess_run ["which"; command] false ;;
  ret (returncode p =? 0).

Definition check_dependencies : M bool :=
  Logger.info "Checking dependencies..." ;;
  docker <- _command_exists "docker" ;;
  if negb docker then
    Logger.error "Docker not found. Please install Docker first." ;;
    ret false
  else
    cargo <- _command_exists "cargo" ;;
    (if negb cargo
     then Logger.warning "Rust/Cargo not found. Some features may not work."
     else ret tt) ;;
    returned <-
      try_except
        (subprocess_run ["docker"; "info"] true ;; ret None)
        (fun e =>
           match e with
           | CalledProcessError _ _ _ _ =>
               Some (Logger.error "Docker daemon not running. Please start Docker." ;;
                     ret (Some false))
           | _ => None
           end) ;;
    match returned with
    | Some b => ret b
    | None => Logger.success "Dependencies check passed" ;; ret true
    end.

Definition stop_existing_containers : M unit :=
  Logger.info ("Stopping existing containers on port " ++ host_port self ++ "...") ;;
  try_except
    (result <- subprocess_run
                 ["docker"; "ps"; "-q"; "--filter"; "publish=" ++ host_port self] false ;;
     (if PyStr.truthy (PyStr.strip (stdout result)) then
        for_each (PyStr.split (ascii_of_nat 10) (PyStr.strip (stdout result)))
          (fun container_id =>
             subprocess_run ["docker"; "stop"; container_id] false ;; ret tt) ;;
        Logger.success "Stopped existing containers"
      else ret tt) ;;
     result <- subprocess_run
                 ["docker"; "ps"; "-a"; "--filter"; "name=" ++ container_name self] false ;;
     if PyStr.contains (container_name self) (stdout result) then
       subprocess_run ["docker"; "rm"; container_name self] false ;;
       Logger.success ("Removed old container: " ++ container_name self)
     else ret tt)
    (fun e =>
       if is_Exception e
       then Some (emit (LogExn LWarning "Error during cleanup: " e))
       else None).

Definition launch_container : M bool :=
  Logger.info "Launching Docker container..." ;;
  Logger.info ("Image: " ++ image self) ;;
  Logger.info ("Host Port: " ++ host_port self) ;;
  Logger.info ("Container Port: " ++ container_port self) ;;
  try_except
    (result <- subprocess_run
                 ["docker"; "run"; "-d";
                  "-p"; host_port self ++ ":" ++ container_port self;
                  "--name"; container_name self;
                  "--restart"; "unless-stopped";
                  image self] true ;;
     set_container_id (PyStr.strip (stdout result)) ;;
     Logger.success ("Container launched: " ++ PyStr.strip (stdout result)) ;;
     Logger.success ("Access at: http://localhost:" ++ host_port self) ;;
     ret true)
    (fun e =>
       match e with
       | CalledProcessError _ _ _ err =>
           Some (Logger.error "Failed to launch container" ;;
                 Logger.error ("Error: " ++ err) ;;
                 ret false)
       | _ => None
       end).

(** The loop [for i in range(30)] of [wait_for_service], with [n]
    iterations left, and the lines after it. *)
Fixpoint poll (n : nat) : M bool :=
  match n with
  | O =>
      print newline ;;
      Logger.warning "Service might not be ready yet, but continuing..." ;;
      ret false
  | S n' =>
      returned <-
        try_except
          (status <- urlopen ("http://localhost:" ++ host_port self) ;;
           if status =? 200 then
             Logger.success "Service is ready!" ;; ret (Some true)
           else ret None)
          (fun _ => Some (print "." ;; sleep 1 ;; ret None)) ;;
      match returned with
      | Some b => ret b
      | None => poll n'
      end
  end.

Definition wait_for_service : M bool :=
  Logger.info "Waiting for service to be ready..." ;;
  poll 30.

Definition update_tauri_config : M bool :=
  Logger.info "Updating Tauri configuration..." ;;
  present <- get config_file ;;
  (match present with
   | Some _ => copy2
   | None => ret tt
   end) ;;
  try_except
    (write_config (tauri_config_text self) ;;
     Logger.success "Tauri configuration updated" ;;
     ret true)
    (fun e =>
       if is_Exception e
       then Some (emit (LogExn LError "Failed to update Tauri config: " e) ;;
                  ret false)
       else None).

(** The command line built by [launch_tauri]. *)
Definition tauri_cmd : list string :=
  if build_release self then
    match build_target self with
    | Some t =>
        if PyStr.truthy t
        then ["cargo"; "tauri"; "build"; "--target"; t]
        else ["cargo"; "tauri"; "build"]
    | None => ["cargo"; "tauri"; "build"]
    end
  else ["cargo"; "tauri"; "dev"].

Definition launch_tauri : M bool :=
  (if build_release self
   then Logger.info "Building Tauri release bundles (cargo tauri build)..."
   else Logger.info "Launching Tauri application (dev)...") ;;
  returned <-
    try_except
      (chdir ;;
       cargo <- _command_exists "cargo" ;;
       if cargo then
         subprocess_run tauri_cmd true ;; ret None
       else
         Logger.error "Cargo not found. Please install Rust and Tauri CLI." ;;
         Logger.info ("Container is running at: http://localhost:" ++ host_port self) ;;
         id <- get container_id ;;
         Logger.info ("Container ID: " ++ str_opt id) ;;
         ret (Some false))
      (fun e =>
         match e with
         | CalledProcessError _ _ _ _ =>
             Some (emit (LogExn LError "Failed to launch Tauri: " e) ;;
                   ret (Some false))
         | KeyboardInterrupt =>
             Some (Logger.info "Application interrupted by user" ;;
                   ret (Some true))
         | _ => None
         end) ;;
  match returned with
  | Some b => ret b
  | None => ret true
  end.

(** The lines of [cleanup] after its first log call: stop and remove the
    container, then restore the configuration backup. *)
Definition cleanup_steps : M unit :=
  id <- get container_id ;;
  (match id with
   | Some cid =>
       if PyStr.truthy cid then
         try_except
           (subprocess_run ["docker"; "stop"; cid] false ;;
            subprocess_run ["docker"; "rm"; cid] false ;;
            Logger.success "Container stopped and removed")
           (fun e =>
              if is_Exception e
              then Some (emit (LogExn LWarning "Error during container cleanup: " e))
              else None)
       else ret tt
   | None => ret tt
   end) ;;
  backup <- get backup_file ;;
  match backup with
  | Some _ =>
      rename ;;
      Logger.success "Tauri configuration restored"
  | None => ret tt
  end.

Definition cleanup : M unit :=
  Logger.info "Cleaning up..." ;;
  cleanup_steps.

(** The body of the [try] block of [run]: [Some b] when it executed
    [return b], [None] when it ran to its end. *)
Definition run_try : M (option bool) :=
  ok <- check_dependencies ;;
  if negb ok then ret (Some false) else
  stop_existing_containers ;;
  ok <- launch_container ;;
  if negb ok then ret (Some false) else
  wait_for_service ;;
  update_tauri_config ;;
  launch_tauri ;;
  ret None.

(** The [try] block of [run] with its two [except] clauses. *)
Definition run_guarded : M (option bool) :=
  try_except run_try
    (fun e =>
       match e with
       | KeyboardInterrupt =>
           Some (Logger.info "Interrupted by user" ;; ret None)
       | _ =>
           Some (emit (LogExn LError "Unexpected error: " e) ;; ret (Some false))
       end).

(** The two [print] calls that open [run]. *)
Definition banner : M unit :=
  print "Dock2Tauri - Docker to Desktop Bridge" ;;
  print "==================================================".

Definition run : M bool :=
  banner ;;
  returned <- try_finally run_guarded cleanup ;;
  match returned with
  | Some b => ret b
  | None => ret true
  end.

End Launcher.

(** ** The program *)

(** The parsed command line. *)
Record Args := {
  arg_image : string;
  arg_host_port : Z;
  arg_container_port : Z;
  arg_build : bool;
  arg_target : option string;
  arg_debug : bool
}.

(** The defaults of the argument parser. *)
Definition default_args : Args :=
  {| arg_image := "nginx:alpine";
     arg_host_port := 8088;
     arg_container_port := 80;
     arg_build := false;
     arg_target := None;
     arg_debug := false |}.

(** How the process ends: [sys.exit(code)], or an exception that nobody
    caught. *)
Inductive termination :=
| SysExit (code : Z)
| Uncaught (e : exn).

(** The exit code of the process.  An uncaught [Exception] prints a
    traceback and exits with 1; an uncaught [KeyboardInterrupt] ends the
    process by the interrupt signal, without an exit code of its own. *)
Definition exit_code (t : termination) : option Z :=
  match t with
  | SysExit c => Some c
  | Uncaught e => if is_Exception e then Some 1 else None
  end.

(** The world when the process starts: no container yet, the two files
    as they are on disk, no events. *)
Definition boot (config backup : option string) : world :=
  {| container_id := None;
     config_file := config;
     backup_file := backup;
     history := [] |}.

Definition controller (a : Args) : Dock2Tauri :=
  Dock2Tauri_init (arg_image a) (arg_host_port a) (arg_container_port a)
                  (arg_build a) (arg_target a).

Definition main (E : Env) (a : Args) (w : world) : termination * world :=
  match run E (controller a) w with
  | (Return success, w') => (SysExit (if success then 0 else 1), w')
  | (Raise e, w') => (Uncaught e, w')
  end.

(** ** Vocabulary of the properties *)

(** The sanitisation of an image reference in the words of the
    specification: every [:] and every [/] becomes [-]. *)
Fixpoint sanitize (s : string) : string :=
  match s with
  | EmptyString => EmptyString
  | String c r =>
      String (if Ascii.eqb c ":" || Ascii.eqb c "/" then "-"%char else c)
             (sanitize r)
  end.

(** A port number a launch request may carry according to the
    specification. *)
Definition valid_port (p : Z) : bool := (1 <=? p) && (p <=? 65535).

(** Events that carry a port of the request to the outside: the
    [docker ps] and [docker run] commands, the readiness probe and the
    written configuration. *)
Definition port_event (e : event) : bool :=
  match e with
  | Run ("docker" :: "ps" :: _) => true
  | Run ("docker" :: "run" :: _) => true
  | UrlOpen _ => true
  | OpenWrite _ => true
  | _ => false
  end.

(** The failures of the error taxonomy, as the log lines that report
    them. *)
Definition dependency_missing (e : event) : bool :=
  match e with
  | Log LError msg =>
      String.eqb msg "Docker not found. Please install Docker first."
      || String.eqb msg "Docker daemon not running. Please start Docker."
  | _ => false
  end.

Definition launch_failure (e : event) : bool :=
  match e with
  | Log LError msg => String.eqb msg "Failed to launch container"
  | _ => false
  end.

Definition config_write_failure (e : event) : bool :=
  match e with
  | LogExn LError prefix _ => String.eqb prefix "Failed to update Tauri config: "
  | _ => false
  end.

Definition unexpected_error (e : event) : bool :=
  match e with
  | LogExn LError prefix _ => String.eqb prefix "Unexpected error: "
  | _ => false
  end.

Definition readiness_timeout (e : event) : bool :=
  match e with
  | Log LWarning msg =>
      String.eqb msg "Service might not be ready yet, but continuing..."
  | _ => false
  end.

Definition packaging_tool_missing (e : event) : bool :=
  match e with
  | Log LError msg =>
      String.eqb msg "Cargo not found. Please install Rust and Tauri CLI."
  | _ => false
  end.

(** The two places where the script reports a user interrupt. *)
Definition interrupt_reported (e : event) : bool :=
  match e with
  | Log LInfo msg =>
      String.eqb msg "Interrupted by user"
      || String.eqb msg "Application interrupted by user"
  | _ => false
  end.

(** The first line of [cleanup]. *)
Definition teardown_started (e : event) : bool :=
  match e with
  | Log LInfo msg => String.eqb msg "Cleaning up..."
  | _ => false
  end.

Definition is_urlopen (e : event) : bool :=
  match e with UrlOpen _ => true | _ => false end.

Definition is_sleep (e : event) : bool :=
  match e with Sleep _ => true | _ => false end.

(** Events that create, stop or remove a container. *)
Definition container_event (e : event) : bool :=
  match e with
  | Run ("docker" :: "run" :: _) => true
  | Run ("docker" :: "stop" :: _) => true
  | Run ("docker" :: "rm" :: _) => true
  | _ => false
  end.

(** Events that touch the files. *)
Definition file_event (e : event) : bool :=
  match e with
  | Copy2 | OpenWrite _ | Rename => true
  | _ => false
  end.

(** Events by which the configuration generator writes. *)
Definition config_written (e : event) : bool :=
  match e with
  | Copy2 | OpenWrite _ => true
  | _ => false
  end.

(** The line that reports a passed dependency check. *)
Definition dependencies_passed (e : event) : bool :=
  match e with
  | Log LSuccess msg => String.eqb msg "Dependencies check passed"
  | _ => false
  end.

(** The two refusals by which [run] executes [return False]. *)
Definition refusal (e : event) : bool :=
  dependency_missing e || launch_failure e.

(** The log lines after which the exit code is 1. *)
Definition fatal (e : event) : bool :=
  dependency_missing e || launch_failure e || unexpected_error e.

Fixpoint argv_eqb (a b : list string) : bool :=
  match a, b with
  | [], [] => true
  | x :: a', y :: b' => String.eqb x y && argv_eqb a' b'
  | _, _ => false
  end.

(** The event is the command [argv]. *)
Definition is_run (argv : list string) (e : event) : bool :=
  match e with
  | Run a => argv_eqb a argv
  | _ => false
  end.

(** [config["build"]["devUrl"]]. *)
Definition dev_url (config : json) : option json :=
  match Json.get "build" config with
  | Some build => Json.get "devUrl" build
  | None => None
  end.

Definition is_rename (e : event) : bool :=
  match e with Rename => true | _ => false end.

Definition is_command (e : event) : bool :=
  match e with Run _ => true | _ => false end.

(** The host never answers a command by the user's interrupt. *)
Definition never_interrupts (E : Env) : Prop :=
  forall n argv, on_run E n argv <> RunRaises KeyboardInterrupt.

(** The computation returned the boolean [b]. *)
Definition returned (b : bool) (r : result bool) : bool :=
  match r with
  | Return x => Bool.eqb x b
  | Raise _ => false
  end.

(** The configuration generator opened the file for writing. *)
Definition config_dumped (e : event) : bool :=
  match e with
  | OpenWrite _ => true
  | _ => false
  end.

(** The log lines by which the course of a run is read off its events:
    the three fatal ones and the passed dependency check. *)
Definition landmark (e : event) : bool :=
  fatal e || dependencies_passed e.

(** [occurred P w]: some event of the run that ended in [w] satisfies [P]. *)
Definition occurred (P : event -> bool) (w : world) : bool :=
  existsb P (events w).

(** How often an event satisfying [P] happened. *)
Definition times (P : event -> bool) (w : world) : nat :=
  List.length (List.filter P (history w)).

(** ** The ways out of the [try] block

    [run_try_ends E d w r w']: started in [w], the [try] block of [run]
    ends with [r] in [w'].  One constructor for each point where the
    block can end: a phase raises, a check makes it return [False], or
    the last phase is done. *)
Inductive run_try_ends (E : Env) (d : Dock2Tauri) (w : world) :
    result (option bool) -> world -> Prop :=
| ends_dependencies_raise e w1 :
    check_dependencies E w = (Raise e, w1) ->
    run_try_ends E d w (Raise e) w1
| ends_dependencies_false w1 :
    check_dependencies E w = (Return false, w1) ->
    run_try_ends E d w (Return (Some false)) w1
| ends_stop_raise e w1 w2 :
    check_dependencies E w = (Return true, w1) ->
    stop_existing_containers E d w1 = (Raise e, w2) ->
    run_try_ends E d w (Raise e) w2
| ends_launch_raise e w1 w2 w3 :
    check_dependencies E w = (Return true, w1) ->
    stop_existing_containers E d w1 = (Return tt, w2) ->
    launch_container E d w2 = (Raise e, w3) ->
    run_try_ends E d w (Raise e) w3
| ends_launch_false w1 w2 w3 :
    check_dependencies E w = (Return true, w1) ->
    stop_existing_containers E d w1 = (Return tt, w2) ->
    launch_container E d w2 = (Return false, w3) ->
    run_try_ends E d w (Return (Some false)) w3
| ends_wait_raise e w1 w2 w3 w4 :
    check_dependencies E w = (Return true, w1) ->
    stop_existing_containers E d w1 = (Return tt, w2) ->
    launch_container E d w2 = (Return true, w3) ->
    wait_for_service E d w3 = (Raise e, w4) ->
    run_try_ends E d w (Raise e) w4
| ends_update_raise e ready w1 w2 w3 w4 w5 :
    check_dependencies E w = (Return true, w1) ->
    stop_existing_containers E d w1 = (Return tt, w2) ->
    launch_container E d w2 = (Return true, w3) ->
    wait_for_service E d w3 = (Return ready, w4) ->
    update_tauri_config E d w4 = (Raise e, w5) ->
    run_try_ends E d w (Raise e) w5
| ends_tauri_raise e ready written w1 w2 w3 w4 w5 w6 :
    check_dependencies E w = (Return true, w1) ->
    stop_existing_containers E d w1 = (Return tt, w2) ->
    launch_container E d w2 = (Return true, w3) ->
    wait_for_service E d w3 = (Return ready, w4) ->
    update_tauri_config E d w4 = (Return written, w5) ->
    launch_tauri E d w5 = (Raise e, w6) ->
    run_try_ends E d w (Raise e) w6
| ends_done ready written launched w1 w2 w3 w4 w5 w6 :
    check_dependencies E w = (Return true, w1) ->
    stop_existing_containers E d w1 = (Return tt, w2) ->
    launch_container E d w2 = (Return true, w3) ->
    wait_for_service E d w3 = (Return ready, w4) ->
    update_tauri_config E d w4 = (Return written, w5) ->
    launch_tauri E d w5 = (Return launched, w6) ->
    run_try_ends E d w (Return None) w6.

(** The address the readiness poller probes. *)
Definition service_url (d : Dock2Tauri) : string :=
  "http://localhost:" ++ host_port d.

(** The world in which teardown starts: the one the guarded block of
    [run] leaves. *)
Definition before_cleanup (E : Env) (a : Args) (w : world) : world :=
  snd (run_guarded E (controller a) (snd (banner w))).

(** ** Scenario hosts *)

(** A host given by what it answers to commands, to the readiness probe
    and to the file-system calls; sleeping is never interrupted. *)
Definition host_with (answer : nat -> list string -> run_reply)
    (probe : http_reply) (cd : option string) (cp : copy_reply)
    (mv : option string) (wr : write_reply) : Env :=
  {| on_run := answer;
     on_urlopen := fun _ _ => probe;
     on_sleep := fun _ => None;
     on_chdir := fun _ => cd;
     on_copy2 := fun _ => cp;
     on_write := fun _ => wr;
     on_rename := fun _ => mv |}.

(** A host on which everything but the commands succeeds at once. *)
Definition host (answer : nat -> list string -> run_reply) : Env :=
  host_with answer (Response 200) None Copied None Written.

(** [argv] starts with the words [prefix]. *)
Fixpoint starts_with (prefix argv : list string) : bool :=
  match prefix, argv with
  | [], _ => true
  | p :: ps, x :: xs => String.eqb p x && starts_with ps xs
  | _ :: _, [] => false
  end.

(** Every command exits with 0; [docker run] prints a container id. *)
Definition all_well (_ : nat) (argv : list string) : run_reply :=
  if starts_with ["docker"; "run"] argv
  then Completed 0 ("abc123" ++ newline) EmptyString
  else Completed 0 EmptyString EmptyString.

Definition calm : Env := host all_well.

(** The docker daemon is down: [docker info] exits with 1. *)
Definition daemon_down (n : nat) (argv : list string) : run_reply :=
  if starts_with ["docker"; "info"] argv
  then Completed 1 EmptyString "Cannot connect to the Docker daemon"
  else all_well n argv.

(** The image cannot be pulled: [docker run] exits with 125. *)
Definition no_such_image (n : nat) (argv : list string) : run_reply :=
  if starts_with ["docker"; "run"] argv
  then Completed 125 EmptyString "pull access denied"
  else all_well n argv.

(** Cargo is not installed: [which cargo] exits with 1. *)
Definition no_cargo (n : nat) (argv : list string) : run_reply :=
  if starts_with ["which"; "cargo"] argv
  then Completed 1 EmptyString EmptyString
  else all_well n argv.

(** The user presses Ctrl-C while the packaging tool runs. *)
Definition interrupt_tauri (n : nat) (argv : list string) : run_reply :=
  if starts_with ["cargo"; "tauri"] argv
  then RunRaises KeyboardInterrupt
  else all_well n argv.

(** The user presses Ctrl-C while [docker run] starts the container. *)
Definition interrupt_launch (n : nat) (argv : list string) : run_reply :=
  if starts_with ["docker"; "run"] argv
  then RunRaises KeyboardInterrupt
  else all_well n argv.

(** The rename of the backup onto the configuration file is refused: the
    directory has become read-only, or the platform does not rename onto
    an existing file. *)
Definition restore_denied : Env :=
  host_with all_well (Response 200) None Copied (Some "Permission denied") Written.

(** Cargo is found by [which] but cannot be executed: starting the
    packaging tool raises [OSError]. *)
Definition broken_cargo (n : nat) (argv : list string) : run_reply :=
  if starts_with ["cargo"; "tauri"] argv
  then RunRaises (Error "OSError" "Exec format error")
  else all_well n argv.

(** The configuration file cannot be opened for writing. *)
Definition config_denied : Env :=
  host_with all_well (Response 200) None Copied None
            (WriteRaises "Permission denied" None).

(** The workload answers every probe with 204 No Content. *)
Definition no_content : Env :=
  host_with all_well (Response 204) None Copied None Written.

(** Nothing listens on the port and cargo is missing. *)
Definition deaf_and_bare : Env :=
  host_with no_cargo (UrlRaises (Error "URLError" "Connection refused"))
            None Copied None Written.

(** A request for host port 70000. *)
Definition far_port_args : Args :=
  {| arg_image := "nginx:alpine";
     arg_host_port := 70000;
     arg_container_port := 80;
     arg_build := false;
     arg_target := None;
     arg_debug := false |}.

(** A world just before teardown: a container runs, the generated
    configuration is in place and the original one is in the backup. *)
Definition before_teardown : world :=
  {| container_id := Some "abc123";
     config_file := Some "generated";
     backup_file := Some "original";
     history := [] |}.

(** ** Relations between the worlds of a computation *)

(** [respects R m]: running [m] takes every world to one related to it
    by [R]. *)
Definition respects (R : world -> world -> Prop) {A} (m : M A) : Prop :=
  forall w, R w (snd (m w)).

(** [emitted P w w']: [w'] has the events of [w] and, after them, only
    events that satisfy [P]. *)
Definition emitted (P : event -> bool) (w w' : world) : Prop :=
  exists new, history w' = (new ++ history w)%list /\ forallb P new = true.

(** Any event at all. *)
Definition any_event (_ : event) : bool := true.

(** [steady k P w w']: from [w] to [w'] the two files are unchanged, only
    events satisfying [P] were added and, when [k] is set, the
    [container_id] field is unchanged too. *)
Definition steady (k : bool) (P : event -> bool) (w w' : world) : Prop :=
  (k = true -> container_id w' = container_id w)
  /\ config_file w' = config_file w
  /\ backup_file w' = backup_file w
  /\ emitted P w w'.

(** No event that touches a file. *)
Definition no_file_event (e : event) : bool := negb (file_event e).

(** No landmark line. *)
Definition no_landmark (e : event) : bool := negb (landmark e).

(** Neither a container command nor a write of the configuration. *)
Definition no_side_effect (e : event) : bool :=
  negb (container_event e || config_written e).

(** No report of a user interrupt. *)
Definition no_interrupt_report (e : event) : bool := negb (interrupt_reported e).

(** ** Further vocabulary: hosts that answer, worlds after events *)

(** The host answers every command: [subprocess.run] never raises by
    itself. *)
Definition always_completes (E : Env) : Prop :=
  forall n argv, exists rc out err, on_run E n argv = Completed rc out err.

(** The host always answers [argv] by completing, with exit status zero
    ([zero = true]) or with another one ([zero = false]). *)
Definition exits_with (E : Env) (argv : list string) (zero : bool) : Prop :=
  forall n, exists rc out err,
    on_run E n argv = Completed rc out err /\ (rc =? 0) = zero.

(** The world [w] after the events [es], in the order they happened. *)
Definition after (es : list event) (w : world) : world :=
  {| container_id := container_id w;
     config_file := config_file w;
     backup_file := backup_file w;
     history := (rev es ++ history w)%list |}.

(** The world with its two files replaced. *)
Definition with_files (config backup : option string) (w : world) : world :=
  {| container_id := container_id w;
     config_file := config;
     backup_file := backup;
     history := history w |}.

(** The event is the logger line [msg] at level [l]. *)
Definition is_log (l : level) (msg : string) (e : event) : bool :=
  match e with
  | Log l' m =>
      match l, l' with
      | LInfo, LInfo | LSuccess, LSuccess | LError, LError
      | LWarning, LWarning => String.eqb m msg
      | _, _ => false
      end
  | _ => false
  end.

(** The three docker commands of [stop_existing_containers] and its
    [docker stop] for one container. *)
Definition ps_publish (d : Dock2Tauri) : list string :=
  ["docker"; "ps"; "-q"; "--filter"; "publish=" ++ host_port d].

Definition ps_name (d : Dock2Tauri) : list string :=
  ["docker"; "ps"; "-a"; "--filter"; "name=" ++ container_name d].

Definition docker_run (d : Dock2Tauri) : list string :=
  ["docker"; "run"; "-d";
   "-p"; host_port d ++ ":" ++ container_port d;
   "--name"; container_name d;
   "--restart"; "unless-stopped";
   image d].

(** The event is a [docker run]. *)
Definition is_docker_run (e : event) : bool :=
  match e with
  | Run ("docker" :: "run" :: _) => true
  | _ => false
  end.

(** The event starts the packaging tool. *)
Definition is_cargo_tauri (e : event) : bool :=
  match e with
  | Run ("cargo" :: "tauri" :: _) => true
  | _ => false
  end.

(** Every character of [s] satisfies [p]. *)
Fixpoint all_chars (p : ascii -> bool) (s : string) : bool :=
  match s with
  | EmptyString => true
  | String c r => p c && all_chars p r
  end.

(** The characters [update_tauri_config] drops from the product name. *)
Definition forbidden_in_product_name : string :=
  "/" ++ String Json.backslash (":*?" ++ String Json.quote "<>|").

(** [config[k]] when it is a string. *)
Definition string_field (k : string) (config : json) : option string :=
  match Json.get k config with
  | Some (JStr s) => Some s
  | _ => None
  end.

(** Two containers publish the port. *)
Definition two_squatters (n : nat) (argv : list string) : run_reply :=
  if starts_with ["docker"; "ps"; "-q"] argv
  then Completed 0 ("aaa111" ++ newline ++ "bbb222" ++ newline) EmptyString
  else all_well n argv.

(** The user presses Ctrl-C while [docker ps] runs. *)
Definition interrupt_ps (n : nat) (argv : list string) : run_reply :=
  if starts_with ["docker"; "ps"] argv
  then RunRaises KeyboardInterrupt
  else all_well n argv.

(** [docker stop] and [docker rm] exit with 1. *)
Definition grumpy_docker (n : nat) (argv : list string) : run_reply :=
  if starts_with ["docker"; "stop"] argv || starts_with ["docker"; "rm"] argv
  then Completed 1 EmptyString "No such container"
  else all_well n argv.

(** The docker binary is gone by teardown time: [docker stop] raises. *)
Definition docker_gone (n : nat) (argv : list string) : run_reply :=
  if starts_with ["docker"; "stop"] argv
  then RunRaises (Error "FileNotFoundError" "docker")
  else all_well n argv.

(** [docker run] exits with 0 and prints only a newline. *)
Definition silent_run (n : nat) (argv : list string) : run_reply :=
  if starts_with ["docker"; "run"] argv
  then Completed 0 newline EmptyString
  else all_well n argv.

(** Nothing listens on the port, and the user presses Ctrl-C during the
    first sleep of the poller. *)
Definition impatient : Env :=
  {| on_run := all_well;
     on_urlopen := fun _ _ => UrlRaises (Error "URLError" "Connection refused");
     on_sleep := fun _ => Some KeyboardInterrupt;
     on_chdir := fun _ => None;
     on_copy2 := fun _ => Copied;
     on_write := fun _ => Written;
     on_rename := fun _ => None |}.

(** Nothing listens on the port; everything else is well. *)
Definition deaf : Env :=
  host_with all_well (UrlRaises (Error "URLError" "Connection refused"))
            None Copied None Written.

(** The backup copy cannot be made. *)
Definition backup_denied : Env :=
  host_with all_well (Response 200) None (CopyRaises "Permission denied" None)
            None Written.

(** The copy to the backup path breaks off after four bytes: the file
    size limit or the free space is used up. *)
Definition backup_cut_short : Env :=
  host_with all_well (Response 200) None
            (CopyRaises "File too large" (Some "{ wh")) None Written.

(** The user presses Ctrl-C while the first readiness probe is under
    way (the probe is the nineteenth event of a run of the defaults);
    later probes are answered with 200, and cargo is found but cannot be
    executed. *)
Definition interrupted_probe : Env :=
  {| on_run := broken_cargo;
     on_urlopen := fun k _ =>
                     if (k <=? 18)%nat then UrlRaises KeyboardInterrupt
                     else Response 200;
     on_sleep := fun _ => None;
     on_chdir := fun _ => None;
     on_copy2 := fun _ => Copied;
     on_write := fun _ => Written;
     on_rename := fun _ => None |}.

(** The user presses Ctrl-C while the packaging tool runs, and the
    rename that restores the backup is refused. *)
Definition interrupt_then_restore_denied : Env :=
  host_with interrupt_tauri (Response 200) None Copied
            (Some "Permission denied") Written.

(** A controller that never started a container, with a backup file on
    disk. *)
Definition idle_with_backup : world :=
  {| container_id := None;
     config_file := Some "generated";
     backup_file := Some "original";
     history := [] |}.

(** Every command among the events [new], the newest first, that
    followed [b] earlier events was answered by completing. *)
Fixpoint all_completed (E : Env) (b : nat) (new : list event) : Prop :=
  match new with
  | [] => True
  | e :: r =>
      match e with
      | Run argv =>
          exists rc out err,
            on_run E (List.length r + b) argv = Completed rc out err
      | _ => True
      end
      /\ all_completed E b r
  end.

(** [m] only adds events, raises only what a command of its own was
    answered with, and stops at that command: when it returns, all its
    commands completed; when it raises [x], its last event is a command
    that was answered by raising [x] and all the earlier ones
    completed. *)
Definition stops_at_failed_command (E : Env) {A} (m : M A) : Prop :=
  forall w,
    exists new,
      history (snd (m w)) = (new ++ history w)%list
      /\ match fst (m w) with
         | Return _ => all_completed E (now w) new
         | Raise x =>
             exists argv r,
               new = Run argv :: r
               /\ all_completed E (now w) r
               /\ on_run E (List.length r + now w) argv = RunRaises x
         end.

(** Two containers publish the port and [docker stop] cannot be
    started. *)
Definition squatter_stop_fails (n : nat) (argv : list string) : run_reply :=
  if starts_with ["docker"; "stop"] argv
  then RunRaises (Error "OSError" "Cannot allocate memory")
  else two_squatters n argv.

(** How many of the events [new], the newest first, that followed [b]
    earlier events are probes that [urlopen] answered by raising. *)
Fixpoint failed_probes (E : Env) (b : nat) (new : list event) : nat :=
  match new with
  | [] => 0
  | e :: r =>
      (match e with
       | UrlOpen url =>
           match on_urlopen E (List.length r + b) url with
           | UrlRaises _ => 1
           | Response _ => 0
           end
       | _ => 0
       end + failed_probes E b r)%nat
  end.

(** The [src-tauri] directory cannot be entered. *)
Definition no_tauri_dir : Env :=
  host_with all_well (Response 200) (Some "No such file or directory")
            Copied None Written.

(** A world in which a container is known to the controller and the
    files are as a run found them. *)
Definition running (cid : string) : world :=
  {| container_id := Some cid;
     config_file := Some "mine";
     backup_file := None;
     history := [] |}.

(** Neither the launch of the container, nor the write of the
    configuration, nor the start of the packaging tool. *)
Definition no_phase_step (e : event) : bool :=
  negb (is_docker_run e || config_dumped e || is_cargo_tauri e).

(** The first log line of [launch_tauri]. *)
Definition tauri_opening (d : Dock2Tauri) : event :=
  if build_release d
  then Log LInfo "Building Tauri release bundles (cargo tauri build)..."
  else Log LInfo "Launching Tauri application (dev)...".

(** The event starts the packaging tool with a command line other than
    [argv]. *)
Definition packaging_other_than (argv : list string) (e : event) : bool :=
  is_cargo_tauri e && negb (is_run argv e).

(** The command line [--target x86_64-pc-windows-msvc], without
    [--build]. *)
Definition target_without_build : Args :=
  {| arg_image := "nginx:alpine";
     arg_host_port := 8088;
     arg_container_port := 80;
     arg_build := false;
     arg_target := Some "x86_64-pc-windows-msvc";
     arg_debug := false |}.

(** * Properties *)

(** ** Relations every step of a computation respects

    [respects R m]: running [m] takes a world to one related to it by
    [R].  For a reflexive and transitive [R] this passes through every
    control structure of the monad, so that a property of a whole phase
    follows from the same property of the calls it makes. *)

Section Respects.

Variable R : world -> world -> Prop.
Hypothesis R_refl : forall w, R w w.
Hypothesis R_trans : forall a b c, R a b -> R b c -> R a c.

Lemma respects_ret A (a : A) : respects R (ret a).
Proof. intro w. apply R_refl. Qed.

Lemma respects_raise A (e : exn) : respects R (@raise A e).
Proof. intro w. apply R_refl. Qed.

Lemma respects_get A (f : world -> A) : respects R (get f).
Proof. intro w. apply R_refl. Qed.

Lemma respects_bind A B (m : M A) (k : A -> M B) :
  respects R m -> (forall a, respects R (k a)) -> respects R (bind m k).
Proof.
  intros Hm Hk w. unfold bind. specialize (Hm w).
  destruct (m w) as [[a | e] w']; simpl in *.
  - eapply R_trans; [exact Hm | apply Hk].
  - exact Hm.
Qed.

Lemma respects_try_except A (body : M A) (handler : exn -> option (M A)) :
  respects R body ->
  (forall e, match handler e with Some h => respects R h | None => True end) ->
  respects R (try_except body handler).
Proof.
  intros Hb Hh w. unfold try_except. specialize (Hb w).
  destruct (body w) as [[a | e] w']; simpl in *; [exact Hb |].
  specialize (Hh e). destruct (handler e) as [h |]; simpl; [| exact Hb].
  eapply R_trans; [exact Hb | apply Hh].
Qed.

Lemma respects_try_finally A (body : M A) (final : M unit) :
  respects R body -> respects R final -> respects R (try_finally body final).
Proof.
  intros Hb Hf w. unfold try_finally. specialize (Hb w).
  destruct (body w) as [r w']; simpl in *.
  specialize (Hf w'). destruct (final w') as [[u | e] w'']; simpl in *;
    eapply R_trans; eassumption.
Qed.

Lemma respects_for_each A (xs : list A) (body : A -> M unit) :
  (forall x, respects R (body x)) -> respects R (for_each xs body).
Proof.
  intro Hb. induction xs as [| x r IH]; simpl.
  - apply respects_ret.
  - apply respects_bind; [apply Hb | intros _; exact IH].
Qed.

End Respects.

(** *** The events a computation adds *)


Lemma emitted_refl P w : emitted P w w.
Proof. exists []. split; reflexivity. Qed.

Lemma emitted_trans P a b c : emitted P a b -> emitted P b c -> emitted P a c.
Proof.
  intros [n1 [H1 F1]] [n2 [H2 F2]]. exists (n2 ++ n1)%list. split.
  - rewrite H2, H1. apply app_assoc.
  - rewrite forallb_app, F1, F2. reflexivity.
Qed.

Lemma emitted_one P e w (r : world) :
  P e = true -> history r = e :: history w -> emitted P w r.
Proof.
  intros He Hr. exists [e]. split; [exact Hr |]. simpl. rewrite He. reflexivity.
Qed.

Section Emitted.

Variable P : event -> bool.
Variable E : Env.

Lemma emit_emitted e : P e = true -> respects (emitted P) (emit e).
Proof. intros He w. eapply emitted_one; [exact He | reflexivity]. Qed.

Lemma set_container_id_emitted id : respects (emitted P) (set_container_id id).
Proof. intro w. exists []. split; reflexivity. Qed.

Lemma set_files_emitted c b : respects (emitted P) (set_files c b).
Proof. intro w. exists []. split; reflexivity. Qed.

Lemma subprocess_run_emitted argv check :
  P (Run argv) = true -> respects (emitted P) (subprocess_run E argv check).
Proof.
  intros He w. unfold subprocess_run.
  destruct (on_run E (now w) argv) as [rc out err | e];
    [destruct (check && negb (rc =? 0)) |];
    (eapply emitted_one; [exact He | reflexivity]).
Qed.

Lemma urlopen_emitted url :
  P (UrlOpen url) = true -> respects (emitted P) (urlopen E url).
Proof.
  intros He w. unfold urlopen.
  destruct (on_urlopen E (now w) url);
    (eapply emitted_one; [exact He | reflexivity]).
Qed.

Lemma sleep_emitted s :
  P (Sleep s) = true -> respects (emitted P) (sleep E s).
Proof.
  intros He w. unfold sleep.
  destruct (on_sleep E (now w));
    (eapply emitted_one; [exact He | reflexivity]).
Qed.

Lemma chdir_emitted : P Chdir = true -> respects (emitted P) (chdir E).
Proof.
  intros He w. unfold chdir.
  destruct (on_chdir E (now w));
    (eapply emitted_one; [exact He | reflexivity]).
Qed.

Lemma copy2_emitted : P Copy2 = true -> respects (emitted P) (copy2 E).
Proof.
  intros He w. unfold copy2.
  destruct (on_copy2 E (now w)) as [| msg [t |]];
    (eapply emitted_one; [exact He | reflexivity]).
Qed.

Lemma write_config_emitted text :
  P (OpenWrite text) = true -> respects (emitted P) (write_config E text).
Proof.
  intros He w. unfold write_config.
  destruct (on_write E (now w)) as [| msg [t |]];
    (eapply emitted_one; [exact He | reflexivity]).
Qed.

Lemma rename_emitted : P Rename = true -> respects (emitted P) (rename E).
Proof.
  intros He w. unfold rename.
  destruct (on_rename E (now w));
    (eapply emitted_one; [exact He | reflexivity]).
Qed.

End Emitted.

(** One step of the walk through a computation: the control structures
    by the lemmas on [respects], where [rel] proves that the relation is
    reflexive or transitive; the calls by [prim]. *)
Ltac respects_step rel prim :=
  match goal with
  | |- respects _ (bind _ _) => apply respects_bind; [solve [rel] | | intro]
  | |- respects _ (try_except _ _) =>
      apply respects_try_except;
      [solve [rel] |
       | let e := fresh "e" in intro e; destruct e; simpl; try exact I]
  | |- respects _ (try_finally _ _) =>
      apply respects_try_finally; [solve [rel] | |]
  | |- respects _ (for_each _ _) =>
      apply respects_for_each; [solve [rel] | solve [rel] | intro]
  | |- respects _ (ret _) => apply respects_ret; solve [rel]
  | |- respects _ (get _) => apply respects_get; solve [rel]
  | |- respects _ (if ?b then _ else _) => destruct b
  | |- respects _ (match ?x with _ => _ end) => destruct x
  | |- respects _ _ => prim
  end.

Ltac unfold_calls :=
  unfold _command_exists, Logger.info, Logger.success, Logger.error,
    Logger.warning, print in *.

Ltac emitted_rel :=
  first [ exact (@emitted_refl _) | exact (@emitted_trans _) ].

Ltac emitted_call :=
  first [ apply emit_emitted | apply set_container_id_emitted
        | apply subprocess_run_emitted | apply urlopen_emitted
        | apply sleep_emitted | apply chdir_emitted | apply copy2_emitted
        | apply write_config_emitted | apply rename_emitted ].

(** Walks through a phase; what is left are the conditions on the events
    it emits. *)
Ltac emitted_walk :=
  unfold_calls; repeat respects_step emitted_rel emitted_call.

(** ** Instance name and generated configuration *)

Lemma replace_sanitize img :
  PyStr.replace "/" "-" (PyStr.replace ":" "-" img) = sanitize img.
Proof.
  induction img as [| c r IH]; simpl; [reflexivity |].
  rewrite IH. f_equal.
  destruct (Ascii.eqb c ":") eqn:Hc; simpl; [reflexivity |].
  destruct (Ascii.eqb c "/"); reflexivity.
Qed.

(** The sanitised reference has no [:] and no [/] left. *)
Lemma sanitize_clean img :
  PyStr.mem ":" (sanitize img) = false /\ PyStr.mem "/" (sanitize img) = false.
Proof.
  induction img as [| c r [IH1 IH2]]; [split; reflexivity |].
  cbn [sanitize PyStr.mem]. rewrite IH1, IH2.
  destruct (Ascii.eqb c ":") eqn:H1; [split; reflexivity |].
  destruct (Ascii.eqb c "/") eqn:H2; [split; reflexivity |].
  cbn [orb]. rewrite (Ascii.eqb_sym ":" c), H1, (Ascii.eqb_sym "/" c), H2.
  split; reflexivity.
Qed.

(** C7.  The instance name is [dock2tauri-<sanitized image>-<host port>],
    where sanitising replaces every [:] and [/] by [-], and the
    configuration's [devUrl] is [http://localhost:<host port>]; for
    [nginx:alpine] on port 8088 these are
    [dock2tauri-nginx-alpine-8088] and [http://localhost:8088]. *)
Theorem instance_name_and_dev_url :
  forall img hp cp release target,
    let d := Dock2Tauri_init img hp cp release target in
    let a := Dock2Tauri_init "nginx:alpine" 8088 cp release target in
    container_name d = "dock2tauri-" ++ sanitize img ++ "-" ++ PyStr.str hp
    /\ dev_url (tauri_config d) = Some (JStr ("http://localhost:" ++ PyStr.str hp))
    /\ container_name a = "dock2tauri-nginx-alpine-8088"
    /\ dev_url (tauri_config a) = Some (JStr "http://localhost:8088").
Proof.
  intros img hp cp release target d a. repeat split.
  unfold d, Dock2Tauri_init, container_name.
  rewrite replace_sanitize. reflexivity.
Qed.

(** The text written for scenario A carries that [devUrl]. *)
Example scenario_A_text :
  PyStr.contains
    (Json.encode_string "devUrl" ++ ": " ++ Json.encode_string "http://localhost:8088")
    (tauri_config_text (controller default_args)) = true.
Proof. vm_compute. reflexivity. Qed.

(** ** The shape of a run *)


Lemma emitted_any P w w' : emitted P w w' -> emitted any_event w w'.
Proof.
  intros [new [H _]]. exists new. split; [exact H |].
  apply forallb_forall. reflexivity.
Qed.

Lemma emitted_events P w w' :
  emitted P w w' ->
  exists later, events w' = (events w ++ later)%list /\ forallb P later = true.
Proof.
  intros [new [H F]]. exists (rev new). split.
  - unfold events. rewrite H. apply rev_app_distr.
  - apply forallb_forall. intros x Hx. apply in_rev in Hx.
    rewrite forallb_forall in F. apply F. exact Hx.
Qed.

Lemma occurred_history P w : occurred P w = existsb P (history w).
Proof.
  unfold occurred, events. apply eq_true_iff_eq.
  rewrite !existsb_exists. split; intros [x [Hx Px]]; exists x; split;
    try exact Px; [apply in_rev; exact Hx | apply in_rev in Hx; exact Hx].
Qed.

(** What occurred stays occurred. *)
Lemma occurred_later P Q w w' :
  emitted Q w w' -> occurred P w = true -> occurred P w' = true.
Proof.
  intros [new [H _]]. rewrite !occurred_history, H, existsb_app.
  intros ->. apply orb_true_r.
Qed.

(** A computation that emits no [P] event leaves [occurred P] as it is. *)
Lemma occurred_quiet P w w' :
  emitted (fun e => negb (P e)) w w' -> occurred P w' = occurred P w.
Proof.
  intros [new [H F]]. rewrite !occurred_history, H, existsb_app.
  replace (existsb P new) with false; [reflexivity |].
  symmetry. apply not_true_is_false. intro Hex.
  apply existsb_exists in Hex. destruct Hex as [x [Hx Px]].
  rewrite forallb_forall in F. specialize (F x Hx). rewrite Px in F.
  discriminate.
Qed.

Lemma poll_emitted P E d n :
  P (UrlOpen ("http://localhost:" ++ host_port d)) = true ->
  P (Log LSuccess "Service is ready!") = true ->
  P (Print ".") = true ->
  P (Sleep 1) = true ->
  P (Print newline) = true ->
  P (Log LWarning "Service might not be ready yet, but continuing...") = true ->
  respects (emitted P) (poll E d n).
Proof.
  intros. induction n as [| n IH]; simpl; emitted_walk; assumption.
Qed.

(** Each phase only adds events. *)
Lemma check_dependencies_grows E : respects (emitted any_event) (check_dependencies E).
Proof. unfold check_dependencies. emitted_walk; reflexivity. Qed.

Lemma stop_existing_containers_grows E d :
  respects (emitted any_event) (stop_existing_containers E d).
Proof. unfold stop_existing_containers. emitted_walk; reflexivity. Qed.

Lemma launch_container_grows E d : respects (emitted any_event) (launch_container E d).
Proof. unfold launch_container. emitted_walk; reflexivity. Qed.

Lemma wait_for_service_grows E d : respects (emitted any_event) (wait_for_service E d).
Proof.
  unfold wait_for_service. emitted_walk; [reflexivity |].
  apply poll_emitted; reflexivity.
Qed.

Lemma update_tauri_config_grows E d :
  respects (emitted any_event) (update_tauri_config E d).
Proof. unfold update_tauri_config. emitted_walk; reflexivity. Qed.

Lemma launch_tauri_grows E d : respects (emitted any_event) (launch_tauri E d).
Proof. unfold launch_tauri. emitted_walk; reflexivity. Qed.

Lemma cleanup_steps_grows E : respects (emitted any_event) (cleanup_steps E).
Proof. unfold cleanup_steps. emitted_walk; reflexivity. Qed.

Lemma cleanup_grows E : respects (emitted any_event) (cleanup E).
Proof.
  unfold cleanup. emitted_walk; [reflexivity |]. apply cleanup_steps_grows.
Qed.

Lemma banner_grows : respects (emitted any_event) banner.
Proof. unfold banner. emitted_walk; reflexivity. Qed.

(** [run] is the banner, the guarded block, and [cleanup] in the
    [finally] position. *)
Lemma run_unfold E d w :
  run E d w =
  match run_guarded E d (snd (banner w)) with
  | (r, w2) =>
      match cleanup E w2 with
      | (Return _, w3) =>
          match r with
          | Return (Some b) => (Return b, w3)
          | Return None => (Return true, w3)
          | Raise e => (Raise e, w3)
          end
      | (Raise e, w3) => (Raise e, w3)
      end
  end.
Proof.
  unfold run, bind at 1. unfold banner at 1, print, bind, emit. simpl.
  unfold try_finally, banner, print, bind, emit. simpl.
  destruct (run_guarded E d _) as [r w2].
  destruct (cleanup E w2) as [[u | e] w3]; [| reflexivity].
  destruct r as [[b |] | e]; reflexivity.
Qed.

(** The two [except] clauses of [run] catch everything: the guarded
    block always ends by returning. *)
Lemma run_guarded_returns E d w : exists r, fst (run_guarded E d w) = Return r.
Proof.
  unfold run_guarded, try_except.
  destruct (run_try E d w) as [[r | e] w']; [exists r; reflexivity |].
  destruct e; simpl; eexists; reflexivity.
Qed.

(** [main] in terms of the guarded block and [cleanup]. *)
Lemma main_unfold E a w :
  main E a w =
  match run_guarded E (controller a) (snd (banner w)) with
  | (r, w2) =>
      match cleanup E w2 with
      | (Return _, w3) =>
          match r with
          | Return (Some false) => (SysExit 1, w3)
          | Return _ => (SysExit 0, w3)
          | Raise e => (Uncaught e, w3)
          end
      | (Raise e, w3) => (Uncaught e, w3)
      end
  end.
Proof.
  unfold main. rewrite run_unfold.
  destruct (run_guarded E _ _) as [r w2].
  destruct (cleanup E w2) as [[u | e] w3]; [| reflexivity].
  destruct r as [[[|] |] | e]; reflexivity.
Qed.

(** [cleanup] opens with its log line; all its other events follow. *)
Lemma cleanup_events E w :
  exists later,
    events (snd (cleanup E w)) = (events w ++ Log LInfo "Cleaning up..." :: later)%list.
Proof.
  unfold cleanup, Logger.info. unfold bind at 1. simpl.
  destruct (emitted_events (cleanup_steps_grows E
              (snd (emit (Log LInfo "Cleaning up...") w)))) as [later [H _]].
  exists later. simpl in H. rewrite H. unfold events. simpl.
  rewrite <- app_assoc. reflexivity.
Qed.

(** ** Teardown in the [finally] position *)

(** [main] ends in the world [cleanup] leaves. *)
Lemma main_world E a w :
  snd (main E a w) = snd (cleanup E (before_cleanup E a w)).
Proof.
  rewrite main_unfold. unfold before_cleanup.
  destruct (run_guarded E (controller a) (snd (banner w))) as [r w2]. simpl.
  destruct (cleanup E w2) as [[u | e] w3]; [| reflexivity].
  destruct r as [[[|] |] | e]; reflexivity.
Qed.

(** C5.  Teardown runs on every exit path of the controller.  Whatever
    the host answers (success, a failed dependency check, a failed
    launch, a failed configuration write, a failed packaging tool, an
    unexpected exception, a user interrupt at any call), the guarded
    block ends by returning, [cleanup] is then run on the world it left,
    the process ends in the world [cleanup] leaves, and the events of a
    run are those up to the end of the guarded block followed by the
    events of [cleanup]. *)
Theorem teardown_on_every_path :
  forall E a w,
    let guarded := run_guarded E (controller a) (snd (banner w)) in
    (exists r, fst guarded = Return r)
    /\ snd (main E a w) = snd (cleanup E (snd guarded))
    /\ exists later,
         events (snd (main E a w))
         = (events (snd guarded) ++ Log LInfo "Cleaning up..." :: later)%list.
Proof.
  intros E a w guarded.
  split; [apply run_guarded_returns |].
  split; [apply main_world |].
  rewrite main_world. apply cleanup_events.
Qed.

(** What [cleanup] can raise: the user's interrupt of [docker stop] or
    [docker rm], or the [OSError] of the rename that restores the
    backup. *)
Lemma cleanup_raises E w e :
  fst (cleanup E w) = Raise e ->
  (e = KeyboardInterrupt /\
   exists cid, container_id w = Some cid /\ PyStr.truthy cid = true)
  \/ (exists msg, e = Error "OSError" msg /\ backup_file w <> None).
Proof.
  unfold cleanup, cleanup_steps, Logger.info, Logger.success, rename,
    subprocess_run, try_except, bind, emit, get, ret, set_files, now.
  simpl.
  destruct (container_id w) as [cid |]; simpl.
  - destruct (PyStr.truthy cid) eqn:Ht; simpl.
    + destruct (on_run E _ _) as [rc1 o1 e1 | x1]; simpl.
      * destruct (on_run E _ _) as [rc2 o2 e2 | x2]; simpl.
        -- destruct (backup_file w); simpl; [| discriminate].
           destruct (on_rename E _); simpl; [| discriminate].
           intro H. inversion H. right. eexists. split; [reflexivity | discriminate].
        -- destruct x2; simpl.
           ++ intro H. inversion H. left. split; [reflexivity | eauto].
           ++ destruct (backup_file w); simpl; [| discriminate].
              destruct (on_rename E _); simpl; [| discriminate].
              intro H. inversion H. right. eexists. split; [reflexivity | discriminate].
           ++ destruct (backup_file w); simpl; [| discriminate].
              destruct (on_rename E _); simpl; [| discriminate].
              intro H. inversion H. right. eexists. split; [reflexivity | discriminate].
      * destruct x1; simpl.
        -- intro H. inversion H. left. split; [reflexivity | eauto].
        -- destruct (backup_file w); simpl; [| discriminate].
           destruct (on_rename E _); simpl; [| discriminate].
           intro H. inversion H. right. eexists. split; [reflexivity | discriminate].
        -- destruct (backup_file w); simpl; [| discriminate].
           destruct (on_rename E _); simpl; [| discriminate].
           intro H. inversion H. right. eexists. split; [reflexivity | discriminate].
    + destruct (backup_file w); simpl; [| discriminate].
      destruct (on_rename E _); simpl; [| discriminate].
      intro H. inversion H. right. eexists. split; [reflexivity | discriminate].
  - destruct (backup_file w); simpl; [| discriminate].
    destruct (on_rename E _); simpl; [| discriminate].
    intro H. inversion H. right. eexists. split; [reflexivity | discriminate].
Qed.

(** A failure to stop or remove the container that is an [Exception] is
    logged as a warning and goes no further. *)
Lemma cleanup_container_failure_is_logged E w cid msg cls :
  container_id w = Some cid -> PyStr.truthy cid = true ->
  backup_file w = None ->
  on_run E (S (now w)) ["docker"; "stop"; cid] = RunRaises (Error cls msg) ->
  fst (cleanup E w) = Return tt
  /\ occurred (fun e => match e with LogExn LWarning _ _ => true | _ => false end)
       (snd (cleanup E w)) = true.
Proof.
  intros Hid Ht Hb Hr.
  unfold cleanup, cleanup_steps, Logger.info, Logger.success, rename,
    subprocess_run, try_except, bind, emit, get, ret, set_files, now in *.
  simpl in *. rewrite Hid. simpl. rewrite Ht. simpl. rewrite Hr. simpl.
  rewrite Hb. simpl. split; [reflexivity |].
  rewrite occurred_history. simpl. reflexivity.
Qed.

(** C4, at the failing input: a container runs, a backup exists, and the
    rename that restores it is refused.  [cleanup] does not log the
    failure, it raises it, and the process ends with the uncaught
    exception, exit code 1, the generated configuration still in place. *)
Theorem teardown_escalates_restore_failure :
  fst (cleanup restore_denied before_teardown)
    = Raise (Error "OSError" "Permission denied")
  /\ fst (main restore_denied default_args (boot (Some "original") None))
    = Uncaught (Error "OSError" "Permission denied")
  /\ exit_code (fst (main restore_denied default_args (boot (Some "original") None)))
    = Some 1
  /\ backup_file (snd (main restore_denied default_args (boot (Some "original") None)))
    = Some "original"
  /\ config_file (snd (main restore_denied default_args (boot (Some "original") None)))
    = Some (tauri_config_text (controller default_args)).
Proof. vm_compute. repeat split. Qed.

(** ** Phases that leave the files alone *)


Lemma steady_refl k P w : steady k P w w.
Proof.
  split; [reflexivity |]. split; [reflexivity |]. split; [reflexivity |].
  apply emitted_refl.
Qed.

Lemma steady_trans k P a b c : steady k P a b -> steady k P b c -> steady k P a c.
Proof.
  intros [I1 [C1 [B1 E1]]] [I2 [C2 [B2 E2]]].
  split; [| split; [| split]].
  - intro Hk. rewrite (I2 Hk). apply I1, Hk.
  - congruence.
  - congruence.
  - eapply emitted_trans; eassumption.
Qed.

Lemma steady_emitted k P w w' : steady k P w w' -> emitted P w w'.
Proof. intros [_ [_ [_ H]]]. exact H. Qed.

Lemma steady_one k P e w (r : world) :
  P e = true ->
  container_id r = container_id w -> config_file r = config_file w ->
  backup_file r = backup_file w -> history r = e :: history w ->
  steady k P w r.
Proof.
  intros He Hi Hc Hb Hh.
  split; [intros _; exact Hi |]. split; [exact Hc |]. split; [exact Hb |].
  eapply emitted_one; eassumption.
Qed.

Section Steady.

Variable k : bool.
Variable P : event -> bool.
Variable E : Env.

Lemma emit_steady e : P e = true -> respects (steady k P) (emit e).
Proof. intros He w. eapply steady_one; try reflexivity. exact He. Qed.

Lemma subprocess_run_steady argv check :
  P (Run argv) = true -> respects (steady k P) (subprocess_run E argv check).
Proof.
  intros He w. unfold subprocess_run.
  destruct (on_run E (now w) argv) as [rc out err | e];
    [destruct (check && negb (rc =? 0)) |];
    (eapply steady_one; try reflexivity; exact He).
Qed.

Lemma urlopen_steady url :
  P (UrlOpen url) = true -> respects (steady k P) (urlopen E url).
Proof.
  intros He w. unfold urlopen.
  destruct (on_urlopen E (now w) url);
    (eapply steady_one; try reflexivity; exact He).
Qed.

Lemma sleep_steady s : P (Sleep s) = true -> respects (steady k P) (sleep E s).
Proof.
  intros He w. unfold sleep.
  destruct (on_sleep E (now w));
    (eapply steady_one; try reflexivity; exact He).
Qed.

Lemma chdir_steady : P Chdir = true -> respects (steady k P) (chdir E).
Proof.
  intros He w. unfold chdir.
  destruct (on_chdir E (now w));
    (eapply steady_one; try reflexivity; exact He).
Qed.

End Steady.

Lemma set_container_id_steady P id : respects (steady false P) (set_container_id id).
Proof.
  intro w. split; [discriminate |]. split; [reflexivity |].
  split; [reflexivity |]. exists []. split; reflexivity.
Qed.

Ltac steady_rel :=
  first [ exact (@steady_refl _ _) | exact (@steady_trans _ _) ].

Ltac steady_call :=
  first [ apply emit_steady | apply set_container_id_steady
        | apply subprocess_run_steady | apply urlopen_steady
        | apply sleep_steady | apply chdir_steady ].

Ltac steady_walk :=
  unfold_calls; repeat respects_step steady_rel steady_call.

Section SteadyPhases.

Variable P : event -> bool.
Hypothesis P_log : forall l m, P (Log l m) = true.
Hypothesis P_logexn : forall l p e, P (LogExn l p e) = true.
Hypothesis P_print : forall t, P (Print t) = true.
Hypothesis P_urlopen : forall u, P (UrlOpen u) = true.
Hypothesis P_sleep : forall s, P (Sleep s) = true.
Hypothesis P_chdir : P Chdir = true.

Variable E : Env.
Variable d : Dock2Tauri.

Lemma banner_steady : respects (steady true P) banner.
Proof. unfold banner. steady_walk; auto. Qed.

Lemma check_dependencies_steady :
  P (Run ["which"; "docker"]) = true ->
  P (Run ["which"; "cargo"]) = true ->
  P (Run ["docker"; "info"]) = true ->
  respects (steady true P) (check_dependencies E).
Proof. intros. unfold check_dependencies. steady_walk; auto. Qed.

Lemma stop_existing_containers_steady :
  (forall argv, P (Run ("docker" :: "ps" :: argv)) = true) ->
  (forall argv, P (Run ("docker" :: "stop" :: argv)) = true) ->
  (forall argv, P (Run ("docker" :: "rm" :: argv)) = true) ->
  respects (steady true P) (stop_existing_containers E d).
Proof. intros. unfold stop_existing_containers. steady_walk; auto. Qed.

Lemma launch_container_steady :
  (forall argv, P (Run ("docker" :: "run" :: argv)) = true) ->
  respects (steady false P) (launch_container E d).
Proof. intros. unfold launch_container. steady_walk; auto. Qed.

Lemma poll_steady n : respects (steady true P) (poll E d n).
Proof. induction n as [| n IH]; simpl; steady_walk; auto. Qed.

Lemma wait_for_service_steady : respects (steady true P) (wait_for_service E d).
Proof. unfold wait_for_service. steady_walk; auto. apply poll_steady. Qed.

Lemma launch_tauri_steady :
  P (Run ["which"; "cargo"]) = true ->
  (forall argv, P (Run ("cargo" :: "tauri" :: argv)) = true) ->
  respects (steady true P) (launch_tauri E d).
Proof.
  intros Hw Hc. unfold launch_tauri. steady_walk; auto.
  all: unfold tauri_cmd; destruct (build_release d); auto;
    destruct (build_target d) as [t |]; auto; destruct (PyStr.truthy t); auto.
Qed.

End SteadyPhases.

(** ** The ways out of the [try] block, one by one *)

(** [run_try] ends in one of the nine ways of [run_try_ends]. *)
Lemma run_try_path E d w :
  run_try_ends E d w (fst (run_try E d w)) (snd (run_try E d w)).
Proof.
  unfold run_try, bind.
  destruct (check_dependencies E w) as [[[|] | e] w1] eqn:H1; simpl;
    [| eapply ends_dependencies_false; eassumption
     | eapply ends_dependencies_raise; eassumption].
  destruct (stop_existing_containers E d w1) as [[[] | e] w2] eqn:H2; simpl;
    [| eapply ends_stop_raise; eassumption].
  destruct (launch_container E d w2) as [[[|] | e] w3] eqn:H3; simpl;
    [| eapply ends_launch_false; eassumption
     | eapply ends_launch_raise; eassumption].
  destruct (wait_for_service E d w3) as [[ready | e] w4] eqn:H4; simpl;
    [| eapply ends_wait_raise; eassumption].
  destruct (update_tauri_config E d w4) as [[written | e] w5] eqn:H5; simpl;
    [| eapply ends_update_raise; eassumption].
  destruct (launch_tauri E d w5) as [[launched | e] w6] eqn:H6; simpl;
    [eapply ends_done; eassumption | eapply ends_tauri_raise; eassumption].
Qed.

(** From an equation on what a computation did to what [respects] says
    about the world it left. *)
Lemma respects_run R A (m : M A) w r w' :
  respects R m -> m w = (r, w') -> R w w'.
Proof. intros H Heq. specialize (H w). rewrite Heq in H. exact H. Qed.

(** ** Backup and restore of the configuration file *)

Ltac unfold_monad :=
  unfold Logger.info, Logger.success, Logger.error, Logger.warning, print,
    rename, copy2, write_config, chdir, sleep, urlopen, subprocess_run,
    try_except, try_finally, bind, emit, get, ret, set_files,
    set_container_id, now in *.

(** Splits on every answer of the host that the goal still waits for. *)
Ltac ask_host :=
  repeat match goal with
         | |- context [match on_run ?E ?n ?a with _ => _ end] =>
             destruct (on_run E n a) as [? ? ? | []]; simpl
         | |- context [match on_rename ?E ?n with _ => _ end] =>
             destruct (on_rename E n); simpl
         | |- context [match on_copy2 ?E ?n with _ => _ end] =>
             destruct (on_copy2 E n) as [| ? []]; simpl
         | |- context [match on_write ?E ?n with _ => _ end] =>
             destruct (on_write E n) as [| ? []]; simpl
         | |- context [match on_chdir ?E ?n with _ => _ end] =>
             destruct (on_chdir E n); simpl
         | |- context [if ?b then _ else _] => destruct b eqn:?; simpl
         end.

(** What [update_tauri_config] does to the files: either the copy to the
    backup path raised, the configuration is as it was and the backup
    path holds what the failed copy left there, or the file was opened
    for writing, with the previous content, if any, in the backup slot. *)
Lemma update_tauri_config_backs_up E d w r w' :
  update_tauri_config E d w = (r, w') ->
  container_id w' = container_id w
  /\ ((occurred config_dumped w' = occurred config_dumped w
       /\ config_file w' = config_file w
       /\ (backup_file w' = backup_file w
           \/ (config_file w <> None /\ backup_file w' <> None))
       /\ exists e, r = Raise e)
      \/ (occurred config_dumped w' = true
          /\ (exists b, r = Return b)
          /\ backup_file w' = match config_file w with
                              | Some old => Some old
                              | None => backup_file w
                              end)).
Proof.
  rewrite !occurred_history.
  unfold update_tauri_config. unfold_monad. simpl.
  destruct (config_file w) as [old |]; simpl; ask_host;
    intro H; inversion H; subst; clear H; simpl;
    (split; [reflexivity |]);
    solve [ left; split; [reflexivity |]; split; [reflexivity |];
            split; [| eexists; reflexivity];
            solve [ left; reflexivity | right; split; discriminate ]
          | right; repeat split; eexists; reflexivity ].
Qed.

(** What [cleanup] does to the files: with no backup it leaves them
    alone; with a backup, once it returns, the backup is the
    configuration again and the slot is empty. *)
Lemma cleanup_restores E w r w' :
  cleanup E w = (r, w') ->
  container_id w' = container_id w
  /\ occurred config_dumped w' = occurred config_dumped w
  /\ match backup_file w with
     | None => config_file w' = config_file w /\ backup_file w' = None
     | Some old =>
         r = Return tt -> config_file w' = Some old /\ backup_file w' = None
     end.
Proof.
  rewrite !occurred_history.
  unfold cleanup, cleanup_steps. unfold_monad. simpl.
  destruct (container_id w) as [cid |]; simpl;
    [destruct (PyStr.truthy cid); simpl |];
    destruct (backup_file w) as [old |] eqn:Hb; simpl; ask_host;
    intro H; inversion H; subst; clear H; simpl;
    repeat split; try reflexivity; try discriminate; try assumption.
Qed.

Lemma emitted_weaken (P Q : event -> bool) w w' :
  (forall e, P e = true -> Q e = true) -> emitted P w w' -> emitted Q w w'.
Proof.
  intros HPQ [new [H F]]. exists new. split; [exact H |].
  rewrite forallb_forall in *. intros x Hx. apply HPQ, F, Hx.
Qed.


Lemma steady_files k w w' :
  steady k no_file_event w w' ->
  config_file w' = config_file w
  /\ backup_file w' = backup_file w
  /\ occurred config_dumped w' = occurred config_dumped w.
Proof.
  intros [_ [Hc [Hb He]]]. repeat split; try assumption.
  apply occurred_quiet. eapply emitted_weaken; [| exact He].
  intros [] H; try reflexivity; discriminate.
Qed.

Lemma banner_files w : steady true no_file_event w (snd (banner w)).
Proof. apply banner_steady; reflexivity. Qed.

Lemma check_dependencies_files E w r w' :
  check_dependencies E w = (r, w') -> steady true no_file_event w w'.
Proof. apply respects_run, check_dependencies_steady; reflexivity. Qed.

Lemma stop_existing_containers_files E d w r w' :
  stop_existing_containers E d w = (r, w') -> steady true no_file_event w w'.
Proof. apply respects_run, stop_existing_containers_steady; reflexivity. Qed.

Lemma launch_container_files E d w r w' :
  launch_container E d w = (r, w') -> steady false no_file_event w w'.
Proof. apply respects_run, launch_container_steady; reflexivity. Qed.

Lemma wait_for_service_files E d w r w' :
  wait_for_service E d w = (r, w') -> steady true no_file_event w w'.
Proof. apply respects_run, wait_for_service_steady; reflexivity. Qed.

Lemma launch_tauri_files E d w r w' :
  launch_tauri E d w = (r, w') -> steady true no_file_event w w'.
Proof. apply respects_run, launch_tauri_steady; reflexivity. Qed.

(** From the equation of a phase to what it left of the files. *)
Ltac phase_files :=
  repeat match goal with
         | H : check_dependencies _ _ = _ |- _ =>
             apply check_dependencies_files, steady_files in H
         | H : stop_existing_containers _ _ _ = _ |- _ =>
             apply stop_existing_containers_files, steady_files in H
         | H : launch_container _ _ _ = _ |- _ =>
             apply launch_container_files, steady_files in H
         | H : wait_for_service _ _ _ = _ |- _ =>
             apply wait_for_service_files, steady_files in H
         | H : launch_tauri _ _ _ = _ |- _ =>
             apply launch_tauri_files, steady_files in H
         | H : update_tauri_config _ _ _ = _ |- _ =>
             apply update_tauri_config_backs_up in H
         end.

(** The [try] block and the files: either it never opened the
    configuration for writing, the configuration is as before and so is
    the backup, unless a failed copy of an existing configuration left
    something at the backup path; or it did and the previous content, if
    any, is in the backup slot. *)
Lemma run_try_backs_up E d w r w' :
  run_try_ends E d w r w' ->
  (occurred config_dumped w' = occurred config_dumped w
   /\ config_file w' = config_file w
   /\ (backup_file w' = backup_file w
       \/ (config_file w <> None /\ backup_file w' <> None)))
  \/ (occurred config_dumped w' = true
      /\ backup_file w' = match config_file w with
                          | Some old => Some old
                          | None => backup_file w
                          end).
Proof.
  intro Hp. destruct Hp; phase_files;
    repeat match goal with
           | H : _ /\ _ |- _ => destruct H
           | H : _ \/ _ |- _ => destruct H
           | H : exists _, _ |- _ => destruct H
           end;
    solve [ left; split; [congruence |]; split; [congruence |];
            solve [ left; congruence | right; split; congruence ]
          | right; split; [congruence |];
            match goal with
            | H : backup_file _ = match config_file ?y with _ => _ end |- _ =>
                replace (config_file y) with (config_file w) in H by congruence;
                replace (backup_file y) with (backup_file w) in H by congruence
            end; congruence ].
Qed.

(** The guarded block is the [try] block followed, when it raised, by
    the log line of the handler. *)
Lemma run_guarded_cases E d w :
  match fst (run_try E d w) with
  | Return r => run_guarded E d w = (Return r, snd (run_try E d w))
  | Raise KeyboardInterrupt =>
      run_guarded E d w
      = (Return None, snd (emit (Log LInfo "Interrupted by user") (snd (run_try E d w))))
  | Raise e =>
      run_guarded E d w
      = (Return (Some false),
         snd (emit (LogExn LError "Unexpected error: " e) (snd (run_try E d w))))
  end.
Proof.
  unfold run_guarded, try_except.
  destruct (run_try E d w) as [[r | []] w']; reflexivity.
Qed.

(** The handlers of [run] leave the files and [container_id] alone. *)
Lemma run_guarded_files E d w :
  steady true no_file_event (snd (run_try E d w)) (snd (run_guarded E d w)).
Proof.
  pose proof (run_guarded_cases E d w) as H.
  destruct (fst (run_try E d w)) as [r | e]; [rewrite H; apply steady_refl |].
  destruct e; rewrite H;
    match goal with
    | |- steady _ _ ?w0 (snd (_, snd (emit ?ev ?w0))) =>
        apply (@steady_one true no_file_event ev w0); reflexivity
    end.
Qed.

Lemma boot_nothing_occurred P c b : occurred P (boot c b) = false.
Proof. reflexivity. Qed.

(** The files at the start of teardown, for a run started in [w]. *)
Lemma before_cleanup_files E a w :
  (occurred config_dumped (before_cleanup E a w) = occurred config_dumped w
   /\ config_file (before_cleanup E a w) = config_file w
   /\ (backup_file (before_cleanup E a w) = backup_file w
       \/ (config_file w <> None /\ backup_file (before_cleanup E a w) <> None)))
  \/ (occurred config_dumped (before_cleanup E a w) = true
      /\ backup_file (before_cleanup E a w)
         = match config_file w with
           | Some old => Some old
           | None => backup_file w
           end).
Proof.
  unfold before_cleanup.
  destruct (steady_files (banner_files w)) as [Bc [Bb Bo]].
  destruct (steady_files (run_guarded_files E (controller a) (snd (banner w))))
    as [Gc [Gb Go]].
  destruct (run_try_backs_up (run_try_path E (controller a) (snd (banner w))))
    as [[To [Tc Tb]] | [To Tb]].
  - left. split; [congruence |]. split; [congruence |].
    destruct Tb as [Tb | [Tn Tb]];
      [left; congruence | right; split; congruence].
  - right. split; [congruence |]. rewrite Gb, Tb, Bc, Bb. reflexivity.
Qed.

(** A process that ends through [sys.exit] has seen [cleanup] return. *)
Lemma main_sys_exit E a w0 code w :
  main E a w0 = (SysExit code, w) ->
  cleanup E (before_cleanup E a w0) = (Return tt, w).
Proof.
  rewrite main_unfold. unfold before_cleanup.
  destruct (run_guarded_returns E (controller a) (snd (banner w0))) as [r Hr].
  destruct (run_guarded E (controller a) (snd (banner w0))) as [r' w2].
  simpl in *. subst r'.
  destruct (cleanup E w2) as [[[] | e] w3]; [| discriminate].
  destruct r as [[|] |]; intro H; inversion H; reflexivity.
Qed.

(** C3, as stated, fails at a stale backup: no configuration file exists
    when the new one is written, yet teardown does not leave the written
    file untouched, it replaces it by the backup left from earlier. *)
Lemma stale_backup_replaces_new_config :
  config_file (boot None (Some "stale")) = None
  /\ config_file (before_cleanup calm default_args (boot None (Some "stale")))
     = Some (tauri_config_text (controller default_args))
  /\ main calm default_args (boot None (Some "stale"))
     = (SysExit 0, snd (main calm default_args (boot None (Some "stale"))))
  /\ config_file (snd (main calm default_args (boot None (Some "stale"))))
     = Some "stale"
  /\ config_file (snd (main calm default_args (boot None (Some "stale"))))
     <> config_file (before_cleanup calm default_args (boot None (Some "stale"))).
Proof.
  vm_compute. repeat split. discriminate.
Qed.

(** C3, amended.  For a run that ends through [sys.exit]: if a
    configuration file existed and a new one was written, its content
    was in the backup slot when teardown started and is, byte for byte,
    the configuration again afterwards, with the slot empty; if no
    backup exists when teardown starts, teardown leaves the
    configuration file untouched; and no backup exists then when
    neither a configuration file nor a backup existed at the start. *)
Theorem config_round_trip :
  forall E a c b code w,
    main E a (boot c b) = (SysExit code, w) ->
    (forall old, c = Some old -> occurred config_dumped w = true ->
       backup_file (before_cleanup E a (boot c b)) = Some old
       /\ config_file w = Some old /\ backup_file w = None)
    /\ (backup_file (before_cleanup E a (boot c b)) = None ->
        config_file w = config_file (before_cleanup E a (boot c b)))
    /\ (c = None -> b = None ->
        backup_file (before_cleanup E a (boot c b)) = None).
Proof.
  intros E a c b code w Hmain.
  apply main_sys_exit in Hmain.
  destruct (cleanup_restores _ _ Hmain) as [_ [Ho Hf]].
  pose proof (before_cleanup_files E a (boot c b)) as Hb.
  rewrite boot_nothing_occurred in Hb. simpl in Hb.
  split; [| split].
  - intros old -> Hw. rewrite Hw in Ho.
    destruct Hb as [[Hn _] | [_ Hs]]; [congruence |].
    rewrite Hs in Hf. split; [exact Hs |]. apply Hf. reflexivity.
  - intro Hn. rewrite Hn in Hf. apply Hf.
  - intros -> ->.
    destruct Hb as [[_ [_ [Hn | [Hn _]]]] | [_ Hn]];
      [exact Hn | contradiction | exact Hn].
Qed.

Lemma config_round_trip_witness :
  (backup_file (before_cleanup calm default_args (boot (Some "original") None))
   = Some "original"
   /\ config_file (snd (main calm default_args (boot (Some "original") None)))
      = Some "original"
   /\ backup_file (snd (main calm default_args (boot (Some "original") None)))
      = None)
  /\ config_file (snd (main calm default_args (boot None None)))
     = config_file (before_cleanup calm default_args (boot None None)).
Proof.
  split.
  - refine (proj1 (@config_round_trip calm default_args (Some "original") None 0
                     (snd (main calm default_args (boot (Some "original") None)))
                     _) "original" _ _);
      vm_compute; reflexivity.
  - refine (proj1 (proj2 (@config_round_trip calm default_args None None 0
                     (snd (main calm default_args (boot None None))) _)) _);
      vm_compute; reflexivity.
Defined.

(** ** Teardown twice *)

Lemma times_history P w : times P w = List.length (List.filter P (history w)).
Proof. reflexivity. Qed.

(** With no backup in the slot, [cleanup] leaves the files alone, renames
    nothing, and raises nothing but the user's interrupt of [docker stop]
    or [docker rm]. *)
Lemma cleanup_without_backup E w :
  backup_file w = None ->
  config_file (snd (cleanup E w)) = config_file w
  /\ backup_file (snd (cleanup E w)) = None
  /\ container_id (snd (cleanup E w)) = container_id w
  /\ times is_rename (snd (cleanup E w)) = times is_rename w
  /\ (fst (cleanup E w) = Return tt \/ fst (cleanup E w) = Raise KeyboardInterrupt)
  /\ (never_interrupts E -> fst (cleanup E w) = Return tt).
Proof.
  intro Hb. unfold never_interrupts, times.
  unfold cleanup, cleanup_steps. unfold_monad. simpl. rewrite Hb.
  destruct (container_id w) as [cid |]; simpl;
    [destruct (PyStr.truthy cid); simpl |].
  - destruct (on_run E _ ["docker"; "stop"; cid]) as [rc1 o1 e1 | x1] eqn:H1; simpl.
    + destruct (on_run E _ ["docker"; "rm"; cid]) as [rc2 o2 e2 | x2] eqn:H2; simpl.
      * repeat split; auto.
      * destruct x2; simpl; repeat split; auto;
          intro Hn; exfalso; eapply Hn; eassumption.
    + destruct x1; simpl; repeat split; auto;
        intro Hn; exfalso; eapply Hn; eassumption.
  - repeat split; auto.
  - repeat split; auto.
Qed.

(** With no container started, [cleanup] runs no command. *)
Lemma cleanup_without_container E w :
  container_id w = None ->
  times is_command (snd (cleanup E w)) = times is_command w.
Proof.
  intro Hc. unfold times, cleanup, cleanup_steps. unfold_monad. simpl.
  rewrite Hc. simpl.
  destruct (backup_file w); simpl; [| reflexivity].
  destruct (on_rename E _); reflexivity.
Qed.

(** X28.  What teardown keeps of re-entrance.  Where no container was
    started it runs no command; where no backup exists it leaves the
    files alone and renames nothing; where neither is there it does
    nothing but print its log line, and returns.  And once a first
    [cleanup] has returned, a second one in succession renames nothing,
    leaves the files and the [container_id] as the first left them, and
    either returns or is left by the user's interrupt. *)
Theorem teardown_idempotent :
  forall E w,
    (container_id w = None ->
     times is_command (snd (cleanup E w)) = times is_command w)
    /\ (backup_file w = None ->
        config_file (snd (cleanup E w)) = config_file w
        /\ backup_file (snd (cleanup E w)) = None
        /\ times is_rename (snd (cleanup E w)) = times is_rename w)
    /\ (container_id w = None -> backup_file w = None ->
        cleanup E w = (Return tt, snd (emit (Log LInfo "Cleaning up...") w)))
    /\ (forall w1,
          cleanup E w = (Return tt, w1) ->
          times is_rename (snd (cleanup E w1)) = times is_rename w1
          /\ config_file (snd (cleanup E w1)) = config_file w1
          /\ backup_file (snd (cleanup E w1)) = backup_file w1
          /\ container_id (snd (cleanup E w1)) = container_id w1
          /\ (fst (cleanup E w1) = Return tt
              \/ fst (cleanup E w1) = Raise KeyboardInterrupt)
          /\ (never_interrupts E -> fst (cleanup E w1) = Return tt)).
Proof.
  intros E w. split; [apply cleanup_without_container |].
  split; [| split].
  - intro Hb. destruct (cleanup_without_backup E w Hb) as [H1 [H2 [_ [H3 _]]]].
    repeat split; assumption.
  - intros Hc Hb. unfold cleanup, cleanup_steps. unfold_monad. simpl.
    rewrite Hc. simpl. rewrite Hb. reflexivity.
  - intros w1 H1.
    assert (Hb : backup_file w1 = None).
    { destruct (cleanup_restores _ _ H1) as [_ [_ Hf]].
      destruct (backup_file w); [apply Hf; reflexivity | apply Hf]. }
    destruct (cleanup_without_backup E w1 Hb) as [A [B [C [D [F G]]]]].
    repeat split; try assumption. congruence.
Qed.

Lemma calm_never_interrupts : never_interrupts calm.
Proof.
  intros n argv. simpl. unfold all_well.
  destruct (starts_with _ argv); discriminate.
Qed.

Lemma teardown_idempotent_witness :
  cleanup calm (boot None None)
    = (Return tt, snd (emit (Log LInfo "Cleaning up...") (boot None None)))
  /\ fst (cleanup calm (snd (cleanup calm before_teardown))) = Return tt
  /\ times is_rename (snd (cleanup calm (snd (cleanup calm before_teardown)))) = 1%nat.
Proof.
  destruct (teardown_idempotent calm (boot None None)) as [_ [_ [H _]]].
  destruct (teardown_idempotent calm before_teardown) as [_ [_ [_ H2]]].
  specialize (H2 (snd (cleanup calm before_teardown))
                 ltac:(vm_compute; reflexivity)).
  destruct H2 as [R [_ [_ [_ [_ G]]]]].
  split; [exact (H eq_refl eq_refl) |].
  split; [exact (G calm_never_interrupts) |].
  rewrite R. vm_compute; reflexivity.
Defined.

(** C9, at the failing input: the rename that restores the backup is
    refused.  With a container running, the first [cleanup] raises the
    [OSError], a second one in succession raises it again and has
    attempted the restore a second time; with no container ever
    started, [cleanup] is no no-op either, it raises; and the run that
    had gone well ends with exit code 1.  The rename is the call that
    [cleanup] left outside its [try]. *)
Theorem double_teardown_raises_twice :
  fst (cleanup restore_denied before_teardown)
    = Raise (Error "OSError" "Permission denied")
  /\ fst (cleanup restore_denied (snd (cleanup restore_denied before_teardown)))
     = Raise (Error "OSError" "Permission denied")
  /\ times is_rename
       (snd (cleanup restore_denied (snd (cleanup restore_denied before_teardown))))
     = 2%nat
  /\ fst (cleanup restore_denied idle_with_backup)
     = Raise (Error "OSError" "Permission denied")
  /\ exit_code (fst (main restore_denied default_args (boot (Some "original") None)))
     = Some 1.
Proof. vm_compute. repeat split. Qed.

(** ** The readiness poller *)

Section Poller.

Variable E : Env.
Variable d : Dock2Tauri.

(** One round of the loop, by what the probe and the sleep answer. *)
Lemma poll_round n w :
  match on_urlopen E (now w) (service_url d) with
  | Response status =>
      if status =? 200 then
        poll E d (S n) w
        = (Return true,
           snd (emit (Log LSuccess "Service is ready!") (snd (emit (UrlOpen (service_url d)) w))))
      else
        poll E d (S n) w = poll E d n (snd (emit (UrlOpen (service_url d)) w))
  | UrlRaises _ =>
      let w' := snd (emit (Sleep 1)
                  (snd (emit (Print ".") (snd (emit (UrlOpen (service_url d)) w))))) in
      match on_sleep E (S (S (now w))) with
      | None => poll E d (S n) w = poll E d n w'
      | Some x => poll E d (S n) w = (Raise x, w')
      end
  end.
Proof.
  cbn [poll].
  unfold bind, try_except, urlopen, print, sleep, Logger.success, ret.
  fold (service_url d).
  destruct (on_urlopen E (now w) (service_url d)) as [status | e]; cbn [fst snd].
  - destruct (status =? 200); reflexivity.
  - cbn [emit fst snd]. unfold now. cbn [history List.length].
    destruct (on_sleep E _); reflexivity.
Qed.

Lemma poll_ready n w :
  on_urlopen E (now w) (service_url d) = Response 200 ->
  poll E d (S n) w
  = (Return true,
     snd (emit (Log LSuccess "Service is ready!") (snd (emit (UrlOpen (service_url d)) w)))).
Proof. intro H. pose proof (poll_round n w) as R. rewrite H in R. exact R. Qed.

Lemma poll_other_status n w status :
  on_urlopen E (now w) (service_url d) = Response status -> status <> 200 ->
  poll E d (S n) w = poll E d n (snd (emit (UrlOpen (service_url d)) w)).
Proof.
  intros H Hs. pose proof (poll_round n w) as R. rewrite H in R.
  destruct (status =? 200) eqn:Heq; [apply Z.eqb_eq in Heq; contradiction |].
  exact R.
Qed.

Lemma poll_failed_attempt n w e :
  on_urlopen E (now w) (service_url d) = UrlRaises e ->
  on_sleep E (S (S (now w))) = None ->
  poll E d (S n) w
  = poll E d n
      (snd (emit (Sleep 1) (snd (emit (Print ".") (snd (emit (UrlOpen (service_url d)) w)))))).
Proof.
  intros H Hs. pose proof (poll_round n w) as R. rewrite H in R.
  cbn zeta in R. rewrite Hs in R. exact R.
Qed.

Lemma poll_zero w :
  poll E d 0 w
  = (Return false,
     snd (emit (Log LWarning "Service might not be ready yet, but continuing...")
            (snd (emit (Print newline) w)))).
Proof. reflexivity. Qed.

Lemma times_emit P e w :
  times P (snd (emit e w)) = ((if P e then 1 else 0) + times P w)%nat.
Proof. unfold times. simpl. destruct (P e); reflexivity. Qed.

Lemma occurred_emit P e w :
  occurred P (snd (emit e w)) = P e || occurred P w.
Proof. rewrite !occurred_history. reflexivity. Qed.

(** Never more than [n] probes in [n] rounds. *)
Lemma poll_attempts_bound n w :
  (times is_urlopen (snd (poll E d n w)) <= times is_urlopen w + n)%nat.
Proof.
  revert w. induction n as [| n IH]; intro w.
  - rewrite poll_zero. cbn [snd]. rewrite !times_emit. simpl. lia.
  - pose proof (poll_round n w) as R.
    destruct (on_urlopen E (now w) (service_url d)) as [status | e].
    + destruct (status =? 200); rewrite R.
      * cbn [snd]. rewrite !times_emit. simpl. lia.
      * etransitivity; [apply IH |]. rewrite times_emit. simpl. lia.
    + cbn zeta in R. destruct (on_sleep E _); rewrite R.
      * cbn [snd]. rewrite !times_emit. simpl. lia.
      * etransitivity; [apply IH |]. rewrite !times_emit. simpl. lia.
Qed.

(** When no probe sees a 200 and no sleep is interrupted, [n] rounds
    make exactly [n] probes and end with the timeout. *)
Lemma poll_timeout n w :
  (forall k u, on_urlopen E k u <> Response 200) ->
  (forall k, on_sleep E k = None) ->
  fst (poll E d n w) = Return false
  /\ times is_urlopen (snd (poll E d n w)) = (times is_urlopen w + n)%nat
  /\ occurred readiness_timeout (snd (poll E d n w)) = true.
Proof.
  intros Hno Hsl. revert w. induction n as [| n IH]; intro w.
  - rewrite poll_zero. cbn [fst snd]. rewrite !times_emit, !occurred_emit.
    simpl. repeat split. lia.
  - pose proof (poll_round n w) as R.
    destruct (on_urlopen E (now w) (service_url d)) as [status | e] eqn:Hr.
    + destruct (status =? 200) eqn:Heq.
      * apply Z.eqb_eq in Heq. subst. exfalso. eapply Hno. exact Hr.
      * rewrite R. destruct (IH (snd (emit (UrlOpen (service_url d)) w))) as [A [B C]].
        rewrite A, B, C, times_emit. simpl. repeat split. lia.
    + cbn zeta in R. rewrite Hsl in R. rewrite R.
      match goal with
      | |- context [poll E d n ?w1] => destruct (IH w1) as [A [B C]]
      end.
      rewrite A, B, C, !times_emit. simpl. repeat split. lia.
Qed.

Lemma wait_for_service_unfold w :
  wait_for_service E d w
  = poll E d 30 (snd (emit (Log LInfo "Waiting for service to be ready...") w)).
Proof. reflexivity. Qed.

(** [wait_for_service] makes at most 30 probes. *)
Lemma wait_for_service_bound w :
  (times is_urlopen (snd (wait_for_service E d w)) <= times is_urlopen w + 30)%nat.
Proof.
  rewrite wait_for_service_unfold.
  etransitivity; [apply poll_attempts_bound |]. rewrite times_emit. simpl. lia.
Qed.

(** [wait_for_service] times out after exactly 30 probes. *)
Lemma wait_for_service_timeout w :
  (forall k u, on_urlopen E k u <> Response 200) ->
  (forall k, on_sleep E k = None) ->
  fst (wait_for_service E d w) = Return false
  /\ times is_urlopen (snd (wait_for_service E d w)) = (times is_urlopen w + 30)%nat
  /\ occurred readiness_timeout (snd (wait_for_service E d w)) = true.
Proof.
  intros Hno Hsl. rewrite wait_for_service_unfold.
  destruct (poll_timeout 30 (snd (emit (Log LInfo "Waiting for service to be ready...") w))
              Hno Hsl) as [A [B C]].
  rewrite A, B, C, times_emit. simpl. repeat split.
Qed.

(** The caller goes on after the poller, timeout or not: the [try] block
    has no way out between a poller that returned and the configuration
    generator. *)
Lemma run_goes_on_after_wait w w1 w2 w3 w4 ready :
  check_dependencies E w = (Return true, w1) ->
  stop_existing_containers E d w1 = (Return tt, w2) ->
  launch_container E d w2 = (Return true, w3) ->
  wait_for_service E d w3 = (Return ready, w4) ->
  emitted any_event (snd (update_tauri_config E d w4)) (snd (run_try E d w))
  /\ fst (run_try E d w) <> Return (Some false).
Proof.
  intros H1 H2 H3 H4. unfold run_try, bind.
  rewrite H1. simpl. rewrite H2. simpl. rewrite H3. simpl. rewrite H4.
  destruct (update_tauri_config E d w4) as [[written | e] w5]; simpl.
  - pose proof (launch_tauri_grows E d w5) as G.
    destruct (launch_tauri E d w5) as [[launched | e] w6]; simpl in *;
      (split; [exact G | discriminate]).
  - split; [apply emitted_refl | discriminate].
Qed.

End Poller.

(** C6, at the failing input: the workload answers every probe with
    204 No Content.  [urlopen] returns, the status is not 200, nothing is
    raised, so the [sleep(1)] of the [except] branch is never reached:
    the poller makes its 30 probes without a single sleep between them
    and reports the timeout. *)
Theorem poller_does_not_pace_other_statuses :
  fst (wait_for_service no_content (controller default_args) (boot None None))
    = Return false
  /\ times is_urlopen
       (snd (wait_for_service no_content (controller default_args) (boot None None)))
     = 30%nat
  /\ times is_sleep
       (snd (wait_for_service no_content (controller default_args) (boot None None)))
     = 0%nat.
Proof. vm_compute. repeat split. Qed.

(** ** Reading the course of a run off its log *)


Lemma quiet_landmarks w w' :
  emitted no_landmark w w' ->
  occurred dependency_missing w' = occurred dependency_missing w
  /\ occurred dependencies_passed w' = occurred dependencies_passed w
  /\ occurred launch_failure w' = occurred launch_failure w
  /\ occurred unexpected_error w' = occurred unexpected_error w.
Proof.
  intro H. repeat split; apply occurred_quiet;
    (eapply emitted_weaken; [| exact H]);
    intros e He; unfold no_landmark, landmark, fatal in He;
    apply negb_true_iff in He; apply negb_true_iff;
    repeat (apply orb_false_iff in He; destruct He as [He ?]);
    assumption.
Qed.

Lemma banner_quiet w : emitted no_landmark w (snd (banner w)).
Proof. revert w. change (respects (emitted no_landmark) banner).
  unfold banner. emitted_walk; reflexivity. Qed.

Lemma stop_existing_containers_quiet E d w r w' :
  stop_existing_containers E d w = (r, w') -> emitted no_landmark w w'.
Proof.
  apply respects_run. unfold stop_existing_containers.
  emitted_walk; reflexivity.
Qed.

Lemma wait_for_service_quiet E d w r w' :
  wait_for_service E d w = (r, w') -> emitted no_landmark w w'.
Proof.
  apply respects_run. unfold wait_for_service. emitted_walk; [reflexivity |].
  apply poll_emitted; reflexivity.
Qed.

Lemma update_tauri_config_quiet E d w r w' :
  update_tauri_config E d w = (r, w') -> emitted no_landmark w w'.
Proof.
  apply respects_run. unfold update_tauri_config. emitted_walk; reflexivity.
Qed.

Lemma launch_tauri_quiet E d w r w' :
  launch_tauri E d w = (r, w') -> emitted no_landmark w w'.
Proof.
  apply respects_run. unfold launch_tauri. emitted_walk; reflexivity.
Qed.

Lemma cleanup_quiet E w : emitted no_landmark w (snd (cleanup E w)).
Proof.
  revert w. change (respects (emitted no_landmark) (cleanup E)).
  unfold cleanup, cleanup_steps. emitted_walk; reflexivity.
Qed.

(** [check_dependencies] logs a missing dependency exactly when it
    returns [False], and the passed check exactly when it returns
    [True]. *)
Lemma check_dependencies_marks E w r w' :
  check_dependencies E w = (r, w') ->
  occurred dependency_missing w' = occurred dependency_missing w || returned false r
  /\ occurred dependencies_passed w' = occurred dependencies_passed w || returned true r
  /\ occurred launch_failure w' = occurred launch_failure w
  /\ occurred unexpected_error w' = occurred unexpected_error w.
Proof.
  rewrite !occurred_history.
  unfold check_dependencies, _command_exists. unfold_monad. simpl.
  ask_host; intro H; inversion H; subst; clear H; simpl;
    rewrite ?orb_false_r, ?orb_true_r; repeat split; reflexivity.
Qed.

(** [launch_container] logs the failed launch exactly when it returns
    [False], and then it has not set [container_id]. *)
Lemma launch_container_marks E d w r w' :
  launch_container E d w = (r, w') ->
  occurred launch_failure w' = occurred launch_failure w || returned false r
  /\ occurred dependency_missing w' = occurred dependency_missing w
  /\ occurred dependencies_passed w' = occurred dependencies_passed w
  /\ occurred unexpected_error w' = occurred unexpected_error w
  /\ (r = Return false -> container_id w' = container_id w).
Proof.
  rewrite !occurred_history.
  unfold launch_container. unfold_monad. simpl.
  ask_host; intro H; inversion H; subst; clear H; simpl;
    rewrite ?orb_false_r, ?orb_true_r; repeat split; try reflexivity;
    discriminate.
Qed.

Lemma existsb_orb A (P Q : A -> bool) l :
  existsb (fun x => P x || Q x) l = existsb P l || existsb Q l.
Proof.
  induction l as [| x r IH]; simpl; [reflexivity |]. rewrite IH.
  destruct (P x), (Q x), (existsb P r), (existsb Q r); reflexivity.
Qed.

Lemma occurred_refusal w :
  occurred refusal w = occurred dependency_missing w || occurred launch_failure w.
Proof. unfold occurred, refusal. apply existsb_orb. Qed.

Lemma occurred_fatal w :
  occurred fatal w = occurred refusal w || occurred unexpected_error w.
Proof.
  unfold occurred.
  change fatal with (fun e => refusal e || unexpected_error e).
  apply existsb_orb.
Qed.

Lemma occurred_landmark w :
  occurred landmark w = occurred fatal w || occurred dependencies_passed w.
Proof. unfold occurred, landmark. apply existsb_orb. Qed.

Lemma steady_container P w w' :
  steady true P w w' -> container_id w' = container_id w.
Proof. intros [H _]. apply H. reflexivity. Qed.

(** Sequencing and handlers only add events to what was there. *)
Lemma bind_keeps A B (m : M A) (k : A -> M B) w :
  (forall a, respects (emitted any_event) (k a)) ->
  emitted any_event (snd (m w)) (snd (bind m k w)).
Proof.
  intro Hk. unfold bind. destruct (m w) as [[a | e] w1]; simpl.
  - apply Hk.
  - apply emitted_refl.
Qed.

Lemma try_except_keeps A (body : M A) (handler : exn -> option (M A)) w :
  (forall e, match handler e with
             | Some h => respects (emitted any_event) h
             | None => True
             end) ->
  emitted any_event (snd (body w)) (snd (try_except body handler w)).
Proof.
  intro Hh. unfold try_except. destruct (body w) as [[a | e] w1]; simpl.
  - apply emitted_refl.
  - specialize (Hh e). destruct (handler e); [apply Hh | apply emitted_refl].
Qed.

Lemma argv_eqb_refl a : argv_eqb a a = true.
Proof.
  induction a as [| x r IH]; simpl; [reflexivity |].
  rewrite String.eqb_refl, IH. reflexivity.
Qed.

Lemma subprocess_run_occurred E argv check w :
  occurred (is_run argv) (snd (subprocess_run E argv check w)) = true.
Proof.
  rewrite occurred_history. unfold subprocess_run.
  destruct (on_run E (now w) argv) as [rc out err | e];
    [destruct (check && negb (rc =? 0)) |];
    simpl; rewrite argv_eqb_refl; reflexivity.
Qed.

(** Whatever the host answers, [stop_existing_containers] asks docker for
    the containers that publish the host port of the request. *)
Lemma stop_existing_containers_queries_port E d w :
  occurred
    (is_run ["docker"; "ps"; "-q"; "--filter"; "publish=" ++ host_port d])
    (snd (stop_existing_containers E d w)) = true.
Proof.
  unfold stop_existing_containers, Logger.info.
  match goal with
  | |- context [bind (emit ?e) ?k] =>
      change (bind (emit e) k w) with (k tt (snd (emit e w)))
  end.
  cbv beta.
  eapply occurred_later.
  - apply try_except_keeps. intros [] ; simpl; try exact I;
      emitted_walk; reflexivity.
  - eapply occurred_later.
    + apply bind_keeps. intro result. emitted_walk; reflexivity.
    + apply subprocess_run_occurred.
Qed.

(** Turns the equation of each phase into what the phase did to the
    landmarks and to [container_id]; the equations themselves are kept. *)
Ltac phase_marks :=
  repeat match goal with
         | H : check_dependencies _ _ = _ |- _ =>
             pose proof (check_dependencies_marks _ _ H);
             pose proof (steady_container (check_dependencies_files _ _ H));
             revert H
         | H : stop_existing_containers _ _ _ = _ |- _ =>
             pose proof (quiet_landmarks (stop_existing_containers_quiet _ _ _ H));
             pose proof (steady_container (stop_existing_containers_files _ _ _ H));
             revert H
         | H : launch_container _ _ _ = _ |- _ =>
             pose proof (launch_container_marks _ _ _ H);
             revert H
         | H : wait_for_service _ _ _ = _ |- _ =>
             pose proof (quiet_landmarks (wait_for_service_quiet _ _ _ H));
             revert H
         | H : update_tauri_config _ _ _ = _ |- _ =>
             pose proof (quiet_landmarks (update_tauri_config_quiet _ _ _ H));
             revert H
         | H : launch_tauri _ _ _ = _ |- _ =>
             pose proof (quiet_landmarks (launch_tauri_quiet _ _ _ H));
             revert H
         end;
  intros;
  repeat match goal with
         | H : _ /\ _ |- _ => destruct H
         end;
  cbn [returned Bool.eqb] in *;
  rewrite ?orb_false_r, ?orb_true_r in *.

Lemma no_landmark_yet w :
  occurred landmark w = false ->
  occurred dependency_missing w = false
  /\ occurred launch_failure w = false
  /\ occurred unexpected_error w = false
  /\ occurred dependencies_passed w = false.
Proof.
  rewrite occurred_landmark, occurred_fatal, occurred_refusal.
  destruct (occurred dependency_missing w), (occurred launch_failure w),
    (occurred unexpected_error w), (occurred dependencies_passed w);
    simpl; intro H; try discriminate; repeat split.
Qed.

(** The course of the [try] block, read off the log: it logs no
    unexpected error itself; a missing dependency is logged only when
    the block ended at the dependency check; a failed launch is logged
    only with [container_id] still unset; the block returns [False]
    exactly when it logged one of these two refusals; and once the
    dependency check has passed, docker has been asked for the
    containers on the host port. *)
Lemma run_try_verdict E d w r w' :
  run_try_ends E d w r w' ->
  occurred landmark w = false ->
  occurred unexpected_error w' = false
  /\ (occurred dependency_missing w' = true ->
      check_dependencies E w = (Return false, w'))
  /\ (occurred launch_failure w' = true -> container_id w' = container_id w)
  /\ (r = Return (Some false) <-> occurred refusal w' = true)
  /\ (occurred dependencies_passed w' = true ->
      occurred
        (is_run ["docker"; "ps"; "-q"; "--filter"; "publish=" ++ host_port d])
        w' = true).
Proof.
  intros Hp Hw. apply no_landmark_yet in Hw. destruct Hw as [Ld [Ll [Lu Lp]]].
  rewrite occurred_refusal.
  destruct Hp as
    [ e w1 H1 | w1 H1 | e w1 w2 H1 H2 | e w1 w2 w3 H1 H2 H3
    | w1 w2 w3 H1 H2 H3 | e w1 w2 w3 w4 H1 H2 H3 H4
    | e ready w1 w2 w3 w4 w5 H1 H2 H3 H4 H5
    | e ready written w1 w2 w3 w4 w5 w6 H1 H2 H3 H4 H5 H6
    | ready written launched w1 w2 w3 w4 w5 w6 H1 H2 H3 H4 H5 H6 ].
  all: try (assert (Hq : occurred
              (is_run ["docker"; "ps"; "-q"; "--filter"; "publish=" ++ host_port d])
              w2 = true)
            by (pose proof (stop_existing_containers_queries_port E d w1) as Q;
                rewrite H2 in Q; exact Q)).
  all: try (eapply occurred_later in Hq;
            [| exact (respects_run _ (launch_container_grows E d) H3)]).
  all: try (eapply occurred_later in Hq;
            [| exact (respects_run _ (wait_for_service_grows E d) H4)]).
  all: try (eapply occurred_later in Hq;
            [| exact (respects_run _ (update_tauri_config_grows E d) H5)]).
  all: try (eapply occurred_later in Hq;
            [| exact (respects_run _ (launch_tauri_grows E d) H6)]).
  all: phase_marks.
  all: repeat match goal with
              | H : occurred ?X ?a = occurred ?X ?b |- _ => rewrite H in *; clear H
              | H : occurred ?X ?a = occurred ?X ?b |- _ => clear H
              | H : occurred ?X ?a = true |- _ =>
                  progress (rewrite H in * )
              end.
  all: rewrite ?Ld, ?Ll, ?Lu, ?Lp in *; cbn [orb] in *.
  all: repeat split; intros;
    try assumption; try discriminate; try reflexivity; try congruence.
  match goal with
  | H : Return false = Return false -> _ |- _ => rewrite H by reflexivity
  end.
  congruence.
Qed.

(** The same reading for the guarded block of a run started by [main]:
    it returns [False] exactly when a fatal line was logged. *)
Lemma guarded_verdict E a c b :
  let w1 := snd (banner (boot c b)) in
  let wg := before_cleanup E a (boot c b) in
  (fst (run_guarded E (controller a) w1) = Return (Some false)
   <-> occurred fatal wg = true)
  /\ (occurred refusal wg = true -> container_id wg = None)
  /\ (occurred dependency_missing wg = true ->
      check_dependencies E w1 = (Return false, wg))
  /\ (occurred dependencies_passed wg = true ->
      occurred
        (is_run ["docker"; "ps"; "-q"; "--filter";
                 "publish=" ++ PyStr.str (arg_host_port a)]) wg = true).
Proof.
  intros w1 wg.
  assert (L1 : occurred landmark w1 = false).
  { destruct (quiet_landmarks (banner_quiet (boot c b))) as [A [B [C D]]].
    rewrite occurred_landmark, occurred_fatal, occurred_refusal.
    fold w1 in A, B, C, D. rewrite A, B, C, D. reflexivity. }
  assert (C1 : container_id w1 = None)
    by (apply (steady_container (banner_files (boot c b)))).
  destruct (run_try_verdict (run_try_path E (controller a) w1) L1)
    as [Vu [Vd [Vl [Vr Vp]]]].
  pose proof (run_guarded_cases E (controller a) w1) as G.
  rewrite !occurred_fatal. unfold wg, before_cleanup. fold w1.
  rewrite occurred_refusal in *.
  destruct (fst (run_try E (controller a) w1)) as [r | e] eqn:Hr.
  - rewrite G. cbn [fst snd]. rewrite Vu, orb_false_r.
    split; [| split; [| split]].
    + split; intro H.
      * apply Vr. congruence.
      * apply Vr in H. congruence.
    + intro H. apply orb_true_iff in H. destruct H as [H | H].
      * rewrite (steady_container (check_dependencies_files _ _ (Vd H))).
        exact C1.
      * rewrite (Vl H). exact C1.
    + exact Vd.
    + exact Vp.
  - assert (Hn : occurred dependency_missing (snd (run_try E (controller a) w1))
                 || occurred launch_failure (snd (run_try E (controller a) w1))
                 = false).
    { apply not_true_is_false. intro H. apply Vr in H. discriminate. }
    apply orb_false_iff in Hn. destruct Hn as [Hd Hl].
    destruct e; rewrite G; cbn [fst snd]; rewrite !occurred_emit;
      cbn [dependency_missing launch_failure unexpected_error
           dependencies_passed is_run orb String.eqb];
      rewrite ?Hd, ?Hl, ?Vu; cbn [orb];
      (split; [split; intro H; try discriminate; reflexivity
              | split; [intro H; discriminate
                       | split; [intro H; discriminate | exact Vp]]]).
Qed.

(** ** Exit codes and aborted runs *)


Lemma quiet_side_effects w w' :
  emitted no_side_effect w w' ->
  occurred container_event w' = occurred container_event w
  /\ occurred config_written w' = occurred config_written w.
Proof.
  intro H. split; apply occurred_quiet;
    (eapply emitted_weaken; [| exact H]);
    intros e He; unfold no_side_effect in He;
    apply negb_true_iff in He; apply negb_true_iff;
    apply orb_false_iff in He; destruct He; assumption.
Qed.

(** With no container started, [cleanup] runs no container command,
    writes no configuration, and can only raise an [Exception]. *)
Lemma cleanup_without_container_effects E w :
  container_id w = None ->
  emitted no_side_effect w (snd (cleanup E w))
  /\ (forall e, fst (cleanup E w) = Raise e -> is_Exception e = true).
Proof.
  intro Hc. split.
  - unfold cleanup, cleanup_steps. unfold_monad. simpl. rewrite Hc. simpl.
    destruct (backup_file w); simpl; [destruct (on_rename E _); simpl |].
    + exists [Rename; Log LInfo "Cleaning up..."]. split; reflexivity.
    + exists [Log LSuccess "Tauri configuration restored"; Rename;
              Log LInfo "Cleaning up..."]. split; reflexivity.
    + exists [Log LInfo "Cleaning up..."]. split; reflexivity.
  - intros e He. apply cleanup_raises in He.
    destruct He as [[_ [cid [Hcid _]]] | [msg [-> _]]]; [congruence | reflexivity].
Qed.

(** The exit code, from how the guarded block and [cleanup] ended. *)
Lemma main_exit E a w0 :
  let g := fst (run_guarded E (controller a) (snd (banner w0))) in
  let t := fst (cleanup E (before_cleanup E a w0)) in
  fst (main E a w0)
  = match t with
    | Raise e => Uncaught e
    | Return _ =>
        match g with
        | Return (Some false) => SysExit 1
        | Return _ => SysExit 0
        | Raise e => Uncaught e
        end
    end.
Proof.
  intros g t. subst g t. rewrite main_unfold. unfold before_cleanup.
  destruct (run_guarded E (controller a) (snd (banner w0))) as [r w2].
  cbn [fst snd].
  destruct (cleanup E w2) as [[u | e] w3]; [| reflexivity].
  destruct r as [[[|] |] | e]; reflexivity.
Qed.

(** What the log of the finished run says is what the log said when
    teardown started: [cleanup] adds no landmark. *)
Lemma main_landmarks E a w0 :
  occurred dependency_missing (snd (main E a w0))
    = occurred dependency_missing (before_cleanup E a w0)
  /\ occurred dependencies_passed (snd (main E a w0))
    = occurred dependencies_passed (before_cleanup E a w0)
  /\ occurred launch_failure (snd (main E a w0))
    = occurred launch_failure (before_cleanup E a w0)
  /\ occurred unexpected_error (snd (main E a w0))
    = occurred unexpected_error (before_cleanup E a w0).
Proof. rewrite main_world. apply quiet_landmarks, cleanup_quiet. Qed.

(** C8, as stated, fails at a backup file left on disk by an earlier
    run: the docker daemon is down, the dependency check fails, and the
    aborted run still goes through teardown, which finds the backup and
    renames it over the configuration file. *)
Lemma aborted_run_restores_stale_backup :
  occurred dependency_missing
    (snd (main (host daemon_down) default_args (boot (Some "mine") (Some "stale"))))
  = true
  /\ fst (main (host daemon_down) default_args (boot (Some "mine") (Some "stale")))
     = SysExit 1
  /\ occurred file_event
       (snd (main (host daemon_down) default_args (boot (Some "mine") (Some "stale"))))
     = true
  /\ config_file
       (snd (main (host daemon_down) default_args (boot (Some "mine") (Some "stale"))))
     = Some "stale"
  /\ config_file
       (snd (main (host daemon_down) default_args (boot (Some "mine") (Some "stale"))))
     <> config_file (boot (Some "mine") (Some "stale")).
Proof. vm_compute. repeat split. discriminate. Qed.

(** C8, amended.  If the dependency check fails (a missing dependency is
    logged), the run aborts: no container is created, stopped or
    removed, the configuration is neither copied to the backup path nor
    written, and the exit code is 1.  Teardown still runs: with no
    backup file on disk the two files are exactly as they were; with
    one, left there by an earlier run, a teardown that returns has
    renamed it over the configuration. *)
Theorem dependency_failure_aborts :
  forall E a c b,
    occurred dependency_missing (snd (main E a (boot c b))) = true ->
    occurred container_event (snd (main E a (boot c b))) = false
    /\ occurred config_written (snd (main E a (boot c b))) = false
    /\ exit_code (fst (main E a (boot c b))) = Some 1
    /\ (b = None ->
        config_file (snd (main E a (boot c b))) = c
        /\ backup_file (snd (main E a (boot c b))) = None)
    /\ (forall old code,
          b = Some old ->
          fst (main E a (boot c b)) = SysExit code ->
          config_file (snd (main E a (boot c b))) = Some old
          /\ backup_file (snd (main E a (boot c b))) = None).
Proof.
  intros E a c b Hd.
  destruct (main_landmarks E a (boot c b)) as [Md _]. rewrite Md in Hd.
  destruct (guarded_verdict E a c b) as [Vf [Vc [Vd _]]].
  specialize (Vd Hd).
  assert (Hc : container_id (before_cleanup E a (boot c b)) = None).
  { apply Vc. rewrite occurred_refusal, Hd. reflexivity. }
  assert (Hg : fst (run_guarded E (controller a) (snd (banner (boot c b))))
               = Return (Some false)).
  { apply Vf. rewrite occurred_fatal, occurred_refusal, Hd. reflexivity. }
  destruct (cleanup_without_container_effects E _ Hc) as [Ce Cr].
  assert (Hs : emitted no_side_effect (boot c b) (snd (main E a (boot c b)))).
  { rewrite main_world.
    eapply emitted_trans; [| exact Ce].
    eapply emitted_trans.
    - apply (steady_emitted (k := true)).
      apply (@banner_steady no_side_effect); reflexivity.
    - apply (steady_emitted (k := true)).
      eapply respects_run; [| exact Vd].
      apply check_dependencies_steady; reflexivity. }
  destruct (quiet_side_effects Hs) as [S1 S2].
  split; [rewrite S1; reflexivity |].
  split; [rewrite S2; reflexivity |].
  split.
  - rewrite main_exit. cbv zeta. rewrite Hg.
    destruct (fst (cleanup E (before_cleanup E a (boot c b)))) as [u | e] eqn:Ht;
      [reflexivity |].
    simpl. rewrite (Cr e eq_refl). reflexivity.
  - split.
    + intros ->.
      destruct (steady_files (check_dependencies_files _ _ Vd)) as [F1 [F2 _]].
      destruct (steady_files (banner_files (boot c None))) as [B1 [B2 _]].
      assert (Hb : backup_file (before_cleanup E a (boot c None)) = None)
        by (rewrite F2, B2; reflexivity).
      destruct (cleanup_without_backup E _ Hb) as [K1 [K2 _]].
      rewrite main_world, K1, K2, F1, B1. split; reflexivity.
    + intros old code ->.
      destruct (steady_files (check_dependencies_files _ _ Vd)) as [_ [F2 _]].
      destruct (steady_files (banner_files (boot c (Some old)))) as [_ [B2 _]].
      assert (Hb : backup_file (before_cleanup E a (boot c (Some old))) = Some old)
        by (rewrite F2, B2; reflexivity).
      destruct (main E a (boot c (Some old))) as [t wf] eqn:Hm.
      cbn [fst snd]. intros ->.
      apply main_sys_exit in Hm.
      destruct (cleanup_restores _ _ Hm) as [_ [_ Hf]].
      rewrite Hb in Hf. apply Hf. reflexivity.
Qed.

Lemma dependency_failure_aborts_witness :
  occurred container_event
    (snd (main (host daemon_down) default_args (boot (Some "mine") None))) = false
  /\ exit_code (fst (main (host daemon_down) default_args (boot (Some "mine") None)))
     = Some 1
  /\ config_file (snd (main (host daemon_down) default_args (boot (Some "mine") None)))
     = Some "mine".
Proof.
  destruct (@dependency_failure_aborts (host daemon_down) default_args
              (Some "mine") None ltac:(vm_compute; reflexivity))
    as [A [_ [B [C _]]]].
  destruct (C eq_refl) as [C1 _].
  exact (conj A (conj B C1)).
Defined.

(** C1, as stated, fails where an exception escapes a phase: cargo is
    on the path but cannot be executed, [subprocess.run] raises
    [OSError], which [launch_tauri] does not catch; the catch-all handler
    of [run] returns [False] and the exit code is 1, though the
    dependency check passed, the container started and the configuration
    was written. *)
Lemma unexpected_error_exits_one :
  fst (main (host broken_cargo) default_args (boot None None)) = SysExit 1
  /\ occurred dependency_missing
       (snd (main (host broken_cargo) default_args (boot None None))) = false
  /\ occurred launch_failure
       (snd (main (host broken_cargo) default_args (boot None None))) = false
  /\ occurred config_write_failure
       (snd (main (host broken_cargo) default_args (boot None None))) = false
  /\ occurred unexpected_error
       (snd (main (host broken_cargo) default_args (boot None None))) = true.
Proof. vm_compute. repeat split. Qed.

(** A failed write of the configuration, for the record: it is logged,
    [run] does not look at what [update_tauri_config] returns, as it
    does for the dependency check and the launch, and goes on to the
    packaging tool; the exit code is 0. *)
Example config_write_failure_goes_on :
  fst (main config_denied default_args (boot None None)) = SysExit 0
  /\ occurred config_write_failure
       (snd (main config_denied default_args (boot None None))) = true
  /\ occurred (is_run ["cargo"; "tauri"; "dev"])
       (snd (main config_denied default_args (boot None None))) = true.
Proof. vm_compute. repeat split. Qed.

(** C1, amended.  A logged refusal (failed dependency check, failed
    container start) gives exit code 1 whatever teardown does.  When the
    process ends through [sys.exit], the code is 0 or 1; and for a run
    in which no write of the configuration failed, it is 1 exactly when
    a fatal line was logged: one of the two refusals or an unexpected
    exception caught by [run]; there a readiness timeout or a missing
    packaging tool does not change it.  What the code is after a failed
    write of the configuration is not part of the statement. *)
Theorem exit_code_policy :
  forall E a c b,
    (occurred refusal (snd (main E a (boot c b))) = true ->
     exit_code (fst (main E a (boot c b))) = Some 1)
    /\ (forall code,
          fst (main E a (boot c b)) = SysExit code ->
          (code = 0 \/ code = 1)
          /\ (occurred config_write_failure (snd (main E a (boot c b))) = false ->
              (code = 1 <-> occurred fatal (snd (main E a (boot c b))) = true))).
Proof.
  intros E a c b.
  destruct (main_landmarks E a (boot c b)) as [Md [_ [Ml Mu]]].
  destruct (guarded_verdict E a c b) as [Vf [Vc _]].
  rewrite occurred_fatal, occurred_refusal, Md, Ml, Mu.
  rewrite occurred_fatal, occurred_refusal in Vf. rewrite occurred_refusal in Vc.
  rewrite main_exit. cbv zeta.
  split.
  - intro Hr.
    assert (Hg : fst (run_guarded E (controller a) (snd (banner (boot c b))))
                 = Return (Some false)) by (apply Vf; rewrite Hr; reflexivity).
    destruct (cleanup_without_container_effects E _ (Vc Hr)) as [_ Cr].
    rewrite Hg.
    destruct (fst (cleanup E (before_cleanup E a (boot c b)))) as [u | e];
      [reflexivity |].
    simpl. rewrite (Cr e eq_refl). reflexivity.
  - intros code.
    destruct (fst (cleanup E (before_cleanup E a (boot c b)))) as [u | e];
      [| discriminate].
    destruct (run_guarded_returns E (controller a) (snd (banner (boot c b))))
      as [r Hr].
    rewrite Hr in *.
    destruct r as [[|] |]; intro H; inversion H; subst; clear H.
    + split; [left; reflexivity | intros _].
      split; [discriminate |]. intro F. apply Vf in F. discriminate.
    + split; [right; reflexivity | intros _].
      split; [| reflexivity]. intros _. apply Vf. reflexivity.
    + split; [left; reflexivity | intros _].
      split; [discriminate |]. intro F. apply Vf in F. discriminate.
Qed.

Lemma exit_code_policy_witness :
  exit_code (fst (main (host daemon_down) default_args (boot None None))) = Some 1
  /\ exit_code (fst (main (host no_such_image) default_args (boot None None))) = Some 1
  /\ (0 = 1 <->
      occurred fatal (snd (main deaf_and_bare default_args (boot None None))) = true)
  /\ occurred readiness_timeout
       (snd (main deaf_and_bare default_args (boot None None))) = true
  /\ occurred packaging_tool_missing
       (snd (main deaf_and_bare default_args (boot None None))) = true.
Proof.
  split; [| split; [| split]].
  - apply (proj1 (@exit_code_policy (host daemon_down) default_args None None)).
    vm_compute; reflexivity.
  - apply (proj1 (@exit_code_policy (host no_such_image) default_args None None)).
    vm_compute; reflexivity.
  - apply (proj2 (proj2 (@exit_code_policy deaf_and_bare default_args None None) 0
                    ltac:(vm_compute; reflexivity))).
    vm_compute; reflexivity.
  - vm_compute. split; reflexivity.
Defined.

(** ** Ports *)

(** C2, as stated, fails: nothing checks the range of a port.  A request
    for host port 70000 is not rejected; the port reaches [docker ps],
    [docker run] and the written configuration. *)
Lemma port_70000_is_used :
  valid_port (arg_host_port far_port_args) = false
  /\ occurred
       (is_run ["docker"; "ps"; "-q"; "--filter"; "publish=70000"])
       (snd (main calm far_port_args (boot None None))) = true
  /\ occurred
       (is_run ["docker"; "run"; "-d"; "-p"; "70000:80";
                "--name"; "dock2tauri-nginx-alpine-70000";
                "--restart"; "unless-stopped"; "nginx:alpine"])
       (snd (main calm far_port_args (boot None None))) = true
  /\ dev_url (tauri_config (controller far_port_args))
     = Some (JStr "http://localhost:70000")
  /\ occurred port_event (snd (main calm far_port_args (boot None None))) = true.
Proof. vm_compute. repeat split. Qed.

(** C2, amended.  The ports are taken as the integers the command line
    gave, whatever their value: the controller stores their decimal
    text, and once the dependency check has passed, docker is asked for
    the containers that publish the host port. *)
Theorem ports_reach_docker_unchecked :
  forall E a c b,
    host_port (controller a) = PyStr.str (arg_host_port a)
    /\ container_port (controller a) = PyStr.str (arg_container_port a)
    /\ (occurred dependencies_passed (snd (main E a (boot c b))) = true ->
        occurred
          (is_run ["docker"; "ps"; "-q"; "--filter";
                   "publish=" ++ PyStr.str (arg_host_port a)])
          (snd (main E a (boot c b))) = true).
Proof.
  intros E a c b. split; [reflexivity |]. split; [reflexivity |].
  intro Hp.
  destruct (main_landmarks E a (boot c b)) as [_ [Mp _]]. rewrite Mp in Hp.
  destruct (guarded_verdict E a c b) as [_ [_ [_ Vp]]].
  rewrite main_world.
  eapply occurred_later; [apply cleanup_grows | apply Vp, Hp].
Qed.

Lemma ports_reach_docker_unchecked_witness :
  occurred
    (is_run ["docker"; "ps"; "-q"; "--filter";
             "publish=" ++ PyStr.str (arg_host_port far_port_args)])
    (snd (main calm far_port_args (boot None None))) = true.
Proof.
  apply (proj2 (proj2 (@ports_reach_docker_unchecked calm far_port_args None None))).
  vm_compute; reflexivity.
Defined.

(** ** User interrupts *)


Lemma banner_silent w : emitted no_interrupt_report w (snd (banner w)).
Proof.
  revert w. change (respects (emitted no_interrupt_report) banner).
  unfold banner. emitted_walk; reflexivity.
Qed.

Lemma check_dependencies_silent E w r w' :
  check_dependencies E w = (r, w') -> emitted no_interrupt_report w w'.
Proof.
  apply respects_run. unfold check_dependencies. emitted_walk; reflexivity.
Qed.

Lemma stop_existing_containers_silent E d w r w' :
  stop_existing_containers E d w = (r, w') -> emitted no_interrupt_report w w'.
Proof.
  apply respects_run. unfold stop_existing_containers.
  emitted_walk; reflexivity.
Qed.

Lemma launch_container_silent E d w r w' :
  launch_container E d w = (r, w') -> emitted no_interrupt_report w w'.
Proof.
  apply respects_run. unfold launch_container. emitted_walk; reflexivity.
Qed.

Lemma wait_for_service_silent E d w r w' :
  wait_for_service E d w = (r, w') -> emitted no_interrupt_report w w'.
Proof.
  apply respects_run. unfold wait_for_service. emitted_walk; [reflexivity |].
  apply poll_emitted; reflexivity.
Qed.

Lemma update_tauri_config_silent E d w r w' :
  update_tauri_config E d w = (r, w') -> emitted no_interrupt_report w w'.
Proof.
  apply respects_run. unfold update_tauri_config. emitted_walk; reflexivity.
Qed.

Lemma cleanup_silent E w : emitted no_interrupt_report w (snd (cleanup E w)).
Proof.
  revert w. change (respects (emitted no_interrupt_report) (cleanup E)).
  unfold cleanup, cleanup_steps. emitted_walk; reflexivity.
Qed.

Lemma silent w w' :
  emitted no_interrupt_report w w' ->
  occurred interrupt_reported w' = occurred interrupt_reported w.
Proof. apply occurred_quiet. Qed.

(** [launch_tauri] reports an interrupt only to return [True]: the
    interrupt of the packaging tool never leaves it. *)
Lemma launch_tauri_interrupted E d w r w' :
  launch_tauri E d w = (r, w') ->
  occurred interrupt_reported w = false ->
  occurred interrupt_reported w' = true ->
  r = Return true.
Proof.
  rewrite !occurred_history.
  unfold launch_tauri, _command_exists. unfold_monad. simpl.
  destruct (build_release d); simpl; ask_host;
    intro H; inversion H; subst; clear H; simpl;
    intros H0 H1; try reflexivity; congruence.
Qed.

Lemma launch_tauri_keeps_interrupt E d w :
  fst (launch_tauri E d w) <> Raise KeyboardInterrupt.
Proof.
  unfold launch_tauri, _command_exists. unfold_monad. simpl.
  destruct (build_release d); simpl; ask_host; discriminate.
Qed.

(** When the [try] block has reported an interrupt, it has run to its
    end. *)
Lemma run_try_interrupt E d w r w' :
  run_try_ends E d w r w' ->
  occurred interrupt_reported w = false ->
  occurred interrupt_reported w' = true ->
  r = Return None.
Proof.
  intros Hp Hw Hw'.
  destruct Hp;
    repeat match goal with
           | H : check_dependencies _ _ = _ |- _ =>
               apply check_dependencies_silent, silent in H
           | H : stop_existing_containers _ _ _ = _ |- _ =>
               apply stop_existing_containers_silent, silent in H
           | H : launch_container _ _ _ = _ |- _ =>
               apply launch_container_silent, silent in H
           | H : wait_for_service _ _ _ = _ |- _ =>
               apply wait_for_service_silent, silent in H
           | H : update_tauri_config _ _ _ = _ |- _ =>
               apply update_tauri_config_silent, silent in H
           end;
    try reflexivity; try congruence.
  match goal with
  | H : launch_tauri _ _ _ = _ |- _ =>
      apply launch_tauri_interrupted in H; [discriminate | congruence | exact Hw']
  end.
Qed.

(** X29.  Where a user interrupt does count as success.  For a run that
    ends through [sys.exit], that is, once [cleanup] has run and
    returned: an interrupt that leaves the [try] block of [run], from
    whichever phase, is reported by [run]; and whenever an interrupt was
    reported, by [run] or by [launch_tauri] while the packaging tool was
    running, the exit code is 0. *)
Theorem interrupt_exits_zero :
  forall E a c b code w,
    main E a (boot c b) = (SysExit code, w) ->
    (fst (run_try E (controller a) (snd (banner (boot c b))))
       = Raise KeyboardInterrupt ->
     occurred interrupt_reported w = true)
    /\ (occurred interrupt_reported w = true -> code = 0).
Proof.
  intros E a c b code w Hm.
  assert (Hw : w = snd (main E a (boot c b))) by (rewrite Hm; reflexivity).
  assert (Hc : fst (main E a (boot c b)) = SysExit code)
    by (rewrite Hm; reflexivity).
  rewrite main_exit in Hc. cbv zeta in Hc.
  rewrite main_world in Hw.
  pose proof (silent (cleanup_silent E (before_cleanup E a (boot c b)))) as Hs.
  rewrite <- Hw in Hs. rewrite Hs. clear Hs Hw Hm.
  unfold before_cleanup in *.
  pose proof (run_guarded_cases E (controller a) (snd (banner (boot c b)))) as G.
  pose proof (run_try_path E (controller a) (snd (banner (boot c b)))) as P.
  assert (B : occurred interrupt_reported (snd (banner (boot c b))) = false)
    by (rewrite (silent (banner_silent (boot c b))); reflexivity).
  destruct (fst (cleanup E _)) as [u | x]; [| discriminate].
  destruct (fst (run_try E (controller a) (snd (banner (boot c b)))))
    as [r | e] eqn:Hr.
  - rewrite G in *. cbn [fst snd] in *. split; [discriminate |].
    intro Hi. pose proof (run_try_interrupt P B Hi) as Hn.
    inversion Hn; subst. inversion Hc. reflexivity.
  - destruct e; rewrite G in *; cbn [fst snd] in *.
    + split; [intros _; rewrite occurred_emit; reflexivity |].
      intros _. inversion Hc. reflexivity.
    + split; [discriminate |]. rewrite occurred_emit. cbn [interrupt_reported orb].
      intro Hi. pose proof (run_try_interrupt P B Hi). discriminate.
    + split; [discriminate |]. rewrite occurred_emit. cbn [interrupt_reported orb].
      intro Hi. pose proof (run_try_interrupt P B Hi). discriminate.
Qed.

Lemma interrupt_exits_zero_witness :
  occurred interrupt_reported
    (snd (main (host interrupt_launch) default_args (boot (Some "mine") None))) = true
  /\ fst (main (host interrupt_launch) default_args (boot (Some "mine") None))
     = SysExit 0
  /\ fst (main (host interrupt_tauri) default_args (boot (Some "mine") None))
     = SysExit 0.
Proof.
  split; [| split].
  - apply (proj1 (@interrupt_exits_zero (host interrupt_launch) default_args
             (Some "mine") None 0
             (snd (main (host interrupt_launch) default_args (boot (Some "mine") None)))
             ltac:(vm_compute; reflexivity)));
      vm_compute; reflexivity.
  - vm_compute; reflexivity.
  - assert (H : 0 = 0); [| vm_compute; reflexivity].
    apply (proj2 (@interrupt_exits_zero (host interrupt_tauri) default_args
             (Some "mine") None 0
             (snd (main (host interrupt_tauri) default_args (boot (Some "mine") None)))
             ltac:(vm_compute; reflexivity)));
      vm_compute; reflexivity.
Defined.

(** C10, at the failing inputs.  An interrupt that arrives while
    [urlopen] probes the service is swallowed by the bare [except] of
    the poller: nothing reports it, the run goes on to the packaging
    tool, and when that cannot be started the exit code is 1.  And an
    interrupt of the packaging tool, reported as the normal end of the
    application, is followed by exit code 1 when the rename of teardown
    is refused. *)
Theorem interrupt_can_exit_one :
  nth_error (events (snd (main interrupted_probe default_args (boot None None)))) 18
    = Some (UrlOpen "http://localhost:8088")
  /\ on_urlopen interrupted_probe 18 "http://localhost:8088"
     = UrlRaises KeyboardInterrupt
  /\ occurred interrupt_reported
       (snd (main interrupted_probe default_args (boot None None))) = false
  /\ occurred is_cargo_tauri
       (snd (main interrupted_probe default_args (boot None None))) = true
  /\ fst (main interrupted_probe default_args (boot None None)) = SysExit 1
  /\ occurred interrupt_reported
       (snd (main interrupt_then_restore_denied default_args
               (boot (Some "original") None))) = true
  /\ fst (main interrupt_then_restore_denied default_args
            (boot (Some "original") None))
     = Uncaught (Error "OSError" "Permission denied")
  /\ exit_code (fst (main interrupt_then_restore_denied default_args
                       (boot (Some "original") None)))
     = Some 1.
Proof. vm_compute. repeat split. Qed.

(** * Further properties of the phases *)

(** ** The dependency check *)

Lemma after_history es w : history (after es w) = (rev es ++ history w)%list.
Proof. reflexivity. Qed.

(** Rewrites the answer of the host to the command [argv], known for
    every moment by [H], at the call the goal waits for. *)
Ltac answer H argv :=
  match goal with
  | |- context [on_run ?E ?n argv] =>
      let rc := fresh "rc" in
      let out := fresh "out" in
      let err := fresh "err" in
      let Hr := fresh "Hr" in
      let Hz := fresh "Hz" in
      destruct (H n) as (rc & out & err & Hr & Hz);
      rewrite Hr; simpl; try rewrite Hz; simpl
  end.

(** X1.  With docker on the path, the verdict of the dependency check is
    whether [docker info] exits with 0.  Cargo has no say: when it is
    missing, a warning is logged and the verdict is the same. *)
Theorem dependency_verdict_is_docker_info :
  forall E w cargo info,
    exits_with E ["which"; "docker"] true ->
    exits_with E ["which"; "cargo"] cargo ->
    exits_with E ["docker"; "info"] info ->
    fst (check_dependencies E w) = Return info
    /\ occurred (is_log LWarning "Rust/Cargo not found. Some features may not work.")
         (snd (check_dependencies E w))
       = negb cargo
         || occurred (is_log LWarning "Rust/Cargo not found. Some features may not work.") w.
Proof.
  intros E w cargo info Hd Hc Hi.
  rewrite !occurred_history.
  unfold check_dependencies, _command_exists. unfold_monad. simpl.
  answer Hd ["which"; "docker"].
  answer Hc ["which"; "cargo"].
  destruct cargo; simpl.
  - answer Hi ["docker"; "info"]. destruct info; simpl; split; reflexivity.
  - answer Hi ["docker"; "info"]. destruct info; simpl; split; reflexivity.
Qed.

Lemma no_cargo_exits which zero :
  (starts_with ["which"; "cargo"] which = negb zero) ->
  starts_with ["docker"; "run"] which = false ->
  exits_with (host no_cargo) which zero.
Proof.
  intros H1 H2 n. simpl. unfold no_cargo, all_well. rewrite H1, H2.
  destruct zero; simpl; do 3 eexists; split; reflexivity.
Qed.

Lemma dependency_verdict_is_docker_info_witness :
  fst (check_dependencies (host no_cargo) (boot None None)) = Return true.
Proof.
  apply (@dependency_verdict_is_docker_info (host no_cargo) (boot None None)
           false true).
  - apply no_cargo_exits; reflexivity.
  - apply no_cargo_exits; reflexivity.
  - apply no_cargo_exits; reflexivity.
Defined.

(** X2.  Without docker on the path the check stops at once: it runs no
    other command, neither [which cargo] nor [docker info], logs the
    error and returns [False]. *)
Theorem dependency_check_stops_without_docker :
  forall E w,
    exits_with E ["which"; "docker"] false ->
    check_dependencies E w
    = (Return false,
       after [Log LInfo "Checking dependencies...";
              Run ["which"; "docker"];
              Log LError "Docker not found. Please install Docker first."] w).
Proof.
  intros E w Hd.
  unfold check_dependencies, _command_exists. unfold_monad. simpl.
  answer Hd ["which"; "docker"]. reflexivity.
Qed.

Lemma dependency_check_stops_without_docker_witness :
  times is_command
    (snd (check_dependencies
            (host (fun n argv =>
                     if starts_with ["which"; "docker"] argv
                     then Completed 1 EmptyString EmptyString
                     else all_well n argv))
            (boot None None))) = 1%nat.
Proof.
  rewrite dependency_check_stops_without_docker; [reflexivity |].
  intro n. do 3 eexists. split; reflexivity.
Defined.

(** ** Reclaiming the port *)

Lemma bind_emit A (e : event) (k : unit -> M A) w :
  bind (emit e) k w = k tt (snd (emit e w)).
Proof. reflexivity. Qed.

(** A [try] whose handler takes every [Exception] and does not raise
    lets nothing but the user's interrupt through. *)
Lemma try_except_Exception A (body : M A) (h : exn -> M A) w e :
  (forall x w', exists a, fst (h x w') = Return a) ->
  fst (try_except body (fun x => if is_Exception x then Some (h x) else None) w)
    = Raise e ->
  e = KeyboardInterrupt.
Proof.
  intros Hh. unfold try_except.
  destruct (body w) as [[a | x] w']; simpl; [discriminate |].
  destruct x; simpl.
  - intro H. inversion H. reflexivity.
  - destruct (Hh (CalledProcessError cmd returncode0 stdout0 stderr0) w') as [a Ha].
    rewrite Ha. discriminate.
  - destruct (Hh (Error cls msg) w') as [a Ha]. rewrite Ha. discriminate.
Qed.

Section FailedCommands.

Variable E : Env.

Lemma all_completed_app n2 n1 b :
  all_completed E (List.length n1 + b) n2 -> all_completed E b n1 ->
  all_completed E b (n2 ++ n1).
Proof.
  intros H2 H1. induction n2 as [| e r IH]; [exact H1 |].
  cbn [app all_completed] in *. destruct H2 as [He Hr].
  split; [| apply IH, Hr].
  rewrite length_app, <- Nat.add_assoc. exact He.
Qed.

(** Where an event sits in a history that is split in two ways. *)
Lemma app_split_tail A (post new old pre : list A) e :
  (new ++ old = post ++ e :: pre)%list ->
  (List.length old <= List.length pre)%nat ->
  exists r, new = (post ++ e :: r)%list /\ pre = (r ++ old)%list.
Proof.
  revert new. induction post as [| p post IH]; intros new H L.
  - destruct new as [| a n'].
    + simpl in H. subst old. simpl in L. lia.
    + simpl in H. inversion H. subst. exists n'. split; reflexivity.
  - destruct new as [| a n'].
    + simpl in H. subst old. rewrite length_cons, length_app, length_cons in L. lia.
    + simpl in H. inversion H. subst a.
      destruct (IH n' H2 L) as [r [Hn Hp]].
      exists r. split; [rewrite Hn; reflexivity | exact Hp].
Qed.

Lemma all_completed_middle b post argv r :
  all_completed E b (post ++ Run argv :: r) ->
  exists rc out err, on_run E (List.length r + b) argv = Completed rc out err.
Proof.
  induction post as [| p post IH]; cbn [app all_completed].
  - intros [H _]. exact H.
  - intros [_ H]. apply IH, H.
Qed.

(** A command among completed ones was not answered by raising. *)
Lemma all_completed_at new old post argv pre x :
  all_completed E (List.length old) new ->
  (new ++ old = post ++ Run argv :: pre)%list ->
  (List.length old <= List.length pre)%nat ->
  on_run E (List.length pre) argv = RunRaises x ->
  False.
Proof.
  intros Hc Hs L Hx.
  destruct (app_split_tail _ _ _ _ _ Hs L) as [r [Hn Hp]].
  subst new pre. apply all_completed_middle in Hc.
  destruct Hc as (rc & out & err & Hc).
  rewrite length_app in Hx. rewrite Hx in Hc. discriminate.
Qed.

Lemma ret_stops A (a : A) : stops_at_failed_command E (ret a).
Proof. intro w. exists []. split; [reflexivity | exact I]. Qed.

Lemma log_stops l msg : stops_at_failed_command E (emit (Log l msg)).
Proof. intro w. exists [Log l msg]. split; [reflexivity | split; exact I]. Qed.

Lemma subprocess_run_stops argv :
  stops_at_failed_command E (subprocess_run E argv false).
Proof.
  intro w. exists [Run argv]. unfold subprocess_run.
  destruct (on_run E (now w) argv) as [rc out err | x] eqn:Hr;
    cbn [andb fst snd]; (split; [reflexivity |]).
  - split; [| exact I]. exists rc, out, err. exact Hr.
  - exists argv, []. split; [reflexivity |]. split; [exact I | exact Hr].
Qed.

Lemma bind_stops A B (m : M A) (k : A -> M B) :
  stops_at_failed_command E m ->
  (forall a, stops_at_failed_command E (k a)) ->
  stops_at_failed_command E (bind m k).
Proof.
  intros Hm Hk w. unfold bind.
  destruct (Hm w) as [n1 [H1 C1]].
  destruct (m w) as [[a | x] w1]; cbn [fst snd] in *.
  - destruct (Hk a w1) as [n2 [H2 C2]].
    exists (n2 ++ n1)%list. split; [rewrite H2, H1, app_assoc; reflexivity |].
    assert (Hn : now w1 = (List.length n1 + now w)%nat)
      by (unfold now; rewrite H1, length_app; reflexivity).
    rewrite Hn in C2.
    destruct (fst (k a w1)) as [b | y].
    + apply all_completed_app; assumption.
    + destruct C2 as (argv & r & -> & Cr & Cx).
      exists argv, (r ++ n1)%list. split; [reflexivity |].
      split; [apply all_completed_app; assumption |].
      rewrite length_app, <- Nat.add_assoc. exact Cx.
  - exists n1. split; [exact H1 | exact C1].
Qed.

Lemma for_each_stops_at_failure A (xs : list A) (body : A -> M unit) :
  (forall x, stops_at_failed_command E (body x)) ->
  stops_at_failed_command E (for_each xs body).
Proof.
  intro Hb. induction xs as [| x r IH]; cbn [for_each].
  - apply ret_stops.
  - apply bind_stops; [apply Hb | intros _; exact IH].
Qed.

End FailedCommands.

(** X3.  Reclaiming the port is best effort.  Whatever docker does, the
    only thing that can leave [stop_existing_containers] is the user's
    interrupt; and when a command of the call was answered by raising
    an [Exception], the warning that carries this exception is all
    that follows it, and the call returns. *)
Theorem port_reclaim_is_best_effort :
  forall E d w,
    (forall e, fst (stop_existing_containers E d w) = Raise e ->
               e = KeyboardInterrupt)
    /\ (forall post argv pre x,
          history (snd (stop_existing_containers E d w))
            = (post ++ Run argv :: pre)%list ->
          (now w <= List.length pre)%nat ->
          on_run E (List.length pre) argv = RunRaises x ->
          is_Exception x = true ->
          fst (stop_existing_containers E d w) = Return tt
          /\ post = [LogExn LWarning "Error during cleanup: " x]).
Proof.
  intros E d w. split.
  - intro e. unfold stop_existing_containers, Logger.info.
    rewrite bind_emit. apply try_except_Exception.
    intros x w'. exists tt. reflexivity.
  - intros post argv pre x. unfold stop_existing_containers, Logger.info.
    rewrite bind_emit.
    match goal with
    | |- context [try_except ?b ?h (snd (emit ?ev w))] =>
        assert (Hb : stops_at_failed_command E b);
        [| set (body := b) in *; set (w1 := snd (emit ev w)) in * ]
    end.
    { unfold Logger.success.
      repeat first
        [ apply bind_stops; [| intro]
        | apply subprocess_run_stops
        | apply for_each_stops_at_failure; intro
        | apply log_stops
        | apply ret_stops
        | match goal with
          | |- stops_at_failed_command _ (if ?c then _ else _) => destruct c
          end ]. }
    destruct (Hb w1) as [new [Hh Hc]].
    assert (Hn : now w1 = (1 + now w)%nat) by reflexivity.
    assert (H1 : history w1
                 = ([Log LInfo ("Stopping existing containers on port "
                                ++ host_port d ++ "...")] ++ history w)%list)
      by reflexivity.
    unfold try_except.
    destruct (body w1) as [[a | y] w2]; cbn [fst snd] in *.
    + intros Hs L Hx _. exfalso.
      rewrite Hh, H1, app_assoc in Hs.
      refine (@all_completed_at E _ _ _ _ _ _ _ Hs L Hx).
      apply all_completed_app; [exact Hc | split; exact I].
    + destruct Hc as (argv0 & r & -> & Cr & Cx).
      assert (Hr : all_completed E (List.length (history w))
                     (r ++ [Log LInfo ("Stopping existing containers on port "
                                       ++ host_port d ++ "...")]))
        by (apply all_completed_app; [exact Cr | split; exact I]).
      destruct (is_Exception y) eqn:Hy; cbn [emit fst snd history].
      * rewrite Hh. intros Hs L Hx Hex.
        destruct post as [| p [| q post]]; cbn [app] in Hs.
        -- discriminate.
        -- injection Hs as Hp Ha Hpre.
           assert (Hl : List.length pre = (List.length r + now w1)%nat)
             by (rewrite <- Hpre, length_app; reflexivity).
           rewrite Hl, <- Ha, Cx in Hx.
           injection Hx as Hx. rewrite <- Hp, Hx. split; reflexivity.
        -- exfalso. injection Hs as _ _ Hs.
           refine (@all_completed_at E _ _ _ _ _ _ Hr _ L Hx).
           rewrite <- app_assoc. exact Hs.
      * rewrite Hh. intros Hs L Hx Hex.
        destruct post as [| q post]; cbn [app] in Hs.
        -- injection Hs as Ha Hpre.
           assert (Hl : List.length pre = (List.length r + now w1)%nat)
             by (rewrite <- Hpre, length_app; reflexivity).
           rewrite Hl, <- Ha, Cx in Hx.
           injection Hx as Hx. rewrite <- Hx, Hy in Hex. discriminate.
        -- exfalso. injection Hs as _ Hs.
           refine (@all_completed_at E _ _ _ _ _ _ Hr _ L Hx).
           rewrite <- app_assoc. exact Hs.
Qed.

Lemma port_reclaim_is_best_effort_witness :
  KeyboardInterrupt = KeyboardInterrupt
  /\ fst (stop_existing_containers (host squatter_stop_fails)
            (controller default_args) (boot None None)) = Return tt.
Proof.
  split.
  - apply (proj1 (port_reclaim_is_best_effort (host interrupt_ps)
                    (controller default_args) (boot None None))
             KeyboardInterrupt).
    vm_compute; reflexivity.
  - apply (proj2 (port_reclaim_is_best_effort (host squatter_stop_fails)
                    (controller default_args) (boot None None))
             [LogExn LWarning "Error during cleanup: "
                (Error "OSError" "Cannot allocate memory")]
             ["docker"; "stop"; "aaa111"]
             [Run (ps_publish (controller default_args));
              Log LInfo "Stopping existing containers on port 8088..."]
             (Error "OSError" "Cannot allocate memory")).
    + vm_compute; reflexivity.
    + vm_compute. lia.
    + vm_compute; reflexivity.
    + reflexivity.
Defined.

(** X4.  Reclaiming a port that nobody holds is a no-op: when
    [docker ps -q] prints nothing but blanks and the name does not occur
    in the output of [docker ps -a], the two queries are the only
    commands run, whatever their exit status, and the function
    returns. *)
Theorem port_reclaim_without_occupant :
  forall E d w rc1 out1 err1 rc2 out2 err2,
    on_run E (S (now w)) (ps_publish d) = Completed rc1 out1 err1 ->
    PyStr.strip out1 = EmptyString ->
    on_run E (S (S (now w))) (ps_name d) = Completed rc2 out2 err2 ->
    PyStr.contains (container_name d) out2 = false ->
    stop_existing_containers E d w
    = (Return tt,
       after [Log LInfo ("Stopping existing containers on port "
                         ++ host_port d ++ "...");
              Run (ps_publish d);
              Run (ps_name d)] w).
Proof.
  intros E d w rc1 out1 err1 rc2 out2 err2 H1 Hs H2 Hc.
  unfold stop_existing_containers, Logger.info, Logger.success.
  rewrite bind_emit. unfold try_except, bind, subprocess_run.
  unfold ps_publish, ps_name, now in *. cbn [emit snd history List.length].
  rewrite H1. cbn [andb fst snd stdout returncode stderr].
  rewrite Hs. cbn [PyStr.truthy ret fst snd emit history List.length].
  rewrite H2. cbn [andb fst snd stdout].
  rewrite Hc. reflexivity.
Qed.

Lemma port_reclaim_without_occupant_witness :
  times is_command
    (snd (stop_existing_containers calm (controller default_args) (boot None None)))
  = 2%nat.
Proof.
  rewrite (@port_reclaim_without_occupant calm (controller default_args)
             (boot None None) 0 EmptyString EmptyString 0 EmptyString EmptyString
             eq_refl eq_refl eq_refl eq_refl).
  reflexivity.
Defined.

Lemma subprocess_run_completes E argv w :
  always_completes E ->
  exists p, fst (subprocess_run E argv false w) = Return p.
Proof.
  intro H. unfold subprocess_run.
  destruct (H (now w) argv) as (rc & out & err & Hr). rewrite Hr.
  simpl. eexists. reflexivity.
Qed.

Lemma for_each_grows A (xs : list A) (body : A -> M unit) :
  (forall x, respects (emitted any_event) (body x)) ->
  respects (emitted any_event) (for_each xs body).
Proof.
  apply respects_for_each; [exact (@emitted_refl _) | exact (@emitted_trans _)].
Qed.

(** The loop over the listed containers stops each of them. *)
Lemma for_each_stops E ids :
  always_completes E ->
  forall w id,
    In id ids ->
    occurred (is_run ["docker"; "stop"; id])
      (snd (for_each ids
              (fun c => subprocess_run E ["docker"; "stop"; c] false ;; ret tt) w))
    = true
    /\ fst (for_each ids
              (fun c => subprocess_run E ["docker"; "stop"; c] false ;; ret tt) w)
       = Return tt.
Proof.
  intro Hc.
  assert (G : forall c,
             respects (emitted any_event)
               (subprocess_run E ["docker"; "stop"; c] false ;; ret tt))
    by (intro c; emitted_walk; reflexivity).
  assert (R : forall l w,
             fst (for_each l
                    (fun c => subprocess_run E ["docker"; "stop"; c] false ;; ret tt) w)
             = Return tt).
  { induction l as [| x r IH]; intro w; [reflexivity |].
    cbn [for_each]. unfold bind at 1. unfold bind at 1.
    destruct (@subprocess_run_completes E ["docker"; "stop"; x] w Hc) as [p Hp].
    destruct (subprocess_run E ["docker"; "stop"; x] false w) as [r0 w0].
    simpl in Hp. subst r0. cbn [ret]. apply IH. }
  induction ids as [| x r IH]; intros w id Hin; [destruct Hin |].
  split; [| apply R].
  cbn [for_each]. destruct Hin as [-> | Hin].
  - eapply occurred_later.
    + apply bind_keeps. intros _. apply for_each_grows. exact G.
    + eapply occurred_later.
      * apply bind_keeps. intros p. emitted_walk.
      * apply subprocess_run_occurred.
  - unfold bind at 1. unfold bind at 1.
    destruct (@subprocess_run_completes E ["docker"; "stop"; x] w Hc) as [p Hp].
    destruct (subprocess_run E ["docker"; "stop"; x] false w) as [r0 w0].
    simpl in Hp. subst r0. cbn [ret]. apply IH. exact Hin.
Qed.

(** X5.  On a host that answers every command, each container that
    [docker ps -q] lists on the port is stopped: for every line of the
    stripped output there is a [docker stop] of that very id. *)
Theorem port_reclaim_stops_every_occupant :
  forall E d w rc out err id,
    always_completes E ->
    on_run E (S (now w)) (ps_publish d) = Completed rc out err ->
    PyStr.truthy (PyStr.strip out) = true ->
    In id (PyStr.split (ascii_of_nat 10) (PyStr.strip out)) ->
    occurred (is_run ["docker"; "stop"; id])
      (snd (stop_existing_containers E d w)) = true.
Proof.
  intros E d w rc out err id Hc H1 Ht Hin.
  unfold stop_existing_containers, Logger.info, Logger.success.
  rewrite bind_emit.
  eapply occurred_later.
  { apply try_except_keeps. intros []; simpl; try exact I;
      emitted_walk; reflexivity. }
  unfold bind at 1. unfold subprocess_run at 1.
  unfold ps_publish, now in *. cbn [emit snd history List.length].
  rewrite H1. cbn [andb fst snd stdout].
  rewrite Ht.
  eapply occurred_later.
  { apply bind_keeps. intros _. emitted_walk; reflexivity. }
  eapply occurred_later.
  { apply bind_keeps. intros _. emitted_walk; reflexivity. }
  apply for_each_stops; assumption.
Qed.

Lemma two_squatters_completes : always_completes (host two_squatters).
Proof.
  intros n argv. simpl. unfold two_squatters, all_well.
  destruct (starts_with _ argv); [do 3 eexists; reflexivity |].
  destruct (starts_with _ argv); do 3 eexists; reflexivity.
Qed.

Lemma port_reclaim_stops_every_occupant_witness :
  occurred (is_run ["docker"; "stop"; "bbb222"])
    (snd (stop_existing_containers (host two_squatters) (controller default_args)
            (boot None None))) = true.
Proof.
  apply (@port_reclaim_stops_every_occupant (host two_squatters)
           (controller default_args) (boot None None)
           0 ("aaa111" ++ newline ++ "bbb222" ++ newline) EmptyString "bbb222"
           two_squatters_completes).
  - vm_compute; reflexivity.
  - vm_compute; reflexivity.
  - vm_compute. right. left. reflexivity.
Defined.

(** ** Launching the container *)

(** What [launch_container] does, by the answer to [docker run]. *)
Lemma launch_container_cases E d w :
  match on_run E (4 + now w) (docker_run d) with
  | Completed rc out err =>
      if rc =? 0 then
        fst (launch_container E d w) = Return true
        /\ container_id (snd (launch_container E d w)) = Some (PyStr.strip out)
      else
        launch_container E d w
        = (Return false,
           after [Log LInfo "Launching Docker container...";
                  Log LInfo ("Image: " ++ image d);
                  Log LInfo ("Host Port: " ++ host_port d);
                  Log LInfo ("Container Port: " ++ container_port d);
                  Run (docker_run d);
                  Log LError "Failed to launch container";
                  Log LError ("Error: " ++ err)] w)
  | RunRaises e =>
      fst (launch_container E d w) <> Return true
      /\ container_id (snd (launch_container E d w)) = container_id w
  end.
Proof.
  unfold launch_container, Logger.info, Logger.success, Logger.error.
  rewrite !bind_emit. unfold try_except, bind, subprocess_run.
  unfold docker_run, now. cbn [emit snd history List.length plus].
  destruct (on_run E _ _) as [rc out err | e]; cbn [andb].
  - destruct (rc =? 0); cbn [negb fst snd]; [split; reflexivity | reflexivity].
  - destruct e; cbn [fst snd]; split; try reflexivity; discriminate.
Qed.

(** X6.  [launch_container] sets [container_id] only when it returns
    [True], and then to the stripped output of a [docker run] that
    exited with 0; in every other case, a failed or an interrupted
    launch included, the field is left as it was. *)
Theorem container_id_set_only_on_success :
  forall E d w,
    (fst (launch_container E d w) = Return true ->
     exists out err,
       on_run E (4 + now w) (docker_run d) = Completed 0 out err
       /\ container_id (snd (launch_container E d w)) = Some (PyStr.strip out))
    /\ (fst (launch_container E d w) <> Return true ->
        container_id (snd (launch_container E d w)) = container_id w).
Proof.
  intros E d w. pose proof (launch_container_cases E d w) as C.
  destruct (on_run E (4 + now w) (docker_run d)) as [rc out err | e].
  - destruct (rc =? 0) eqn:Hz.
    + apply Z.eqb_eq in Hz. subst rc. destruct C as [C1 C2]. split.
      * intros _. exists out, err. split; [reflexivity | exact C2].
      * intro H. contradiction.
    + rewrite C. split; [discriminate | reflexivity].
  - destruct C as [C1 C2]. split; [intro H; contradiction | intros _; exact C2].
Qed.

Lemma container_id_set_only_on_success_witness :
  container_id (snd (launch_container calm (controller default_args) (boot None None)))
    = Some "abc123"
  /\ container_id
       (snd (launch_container (host interrupt_launch) (controller default_args)
               (running "old")))
     = Some "old".
Proof.
  split.
  - destruct (proj1 (@container_id_set_only_on_success calm
                       (controller default_args) (boot None None))
                ltac:(vm_compute; reflexivity)) as (out & err & Hr & Hc).
    rewrite Hc. vm_compute in Hr. inversion Hr. vm_compute. reflexivity.
  - apply (proj2 (@container_id_set_only_on_success (host interrupt_launch)
                    (controller default_args) (running "old"))).
    vm_compute. discriminate.
Defined.

(** X7.  When [docker run] exits with a status other than 0, the launch
    is refused with docker's standard error in the log, word for word,
    and nothing else is done. *)
Theorem failed_launch_reports_stderr :
  forall E d w rc out err,
    on_run E (4 + now w) (docker_run d) = Completed rc out err ->
    rc <> 0 ->
    launch_container E d w
    = (Return false,
       after [Log LInfo "Launching Docker container...";
              Log LInfo ("Image: " ++ image d);
              Log LInfo ("Host Port: " ++ host_port d);
              Log LInfo ("Container Port: " ++ container_port d);
              Run (docker_run d);
              Log LError "Failed to launch container";
              Log LError ("Error: " ++ err)] w).
Proof.
  intros E d w rc out err Hr Hz.
  pose proof (launch_container_cases E d w) as C. rewrite Hr in C.
  destruct (rc =? 0) eqn:Hq; [apply Z.eqb_eq in Hq; contradiction | exact C].
Qed.

Lemma failed_launch_reports_stderr_witness :
  occurred (is_log LError "Error: pull access denied")
    (snd (launch_container (host no_such_image) (controller default_args)
            (boot None None))) = true.
Proof.
  rewrite (@failed_launch_reports_stderr (host no_such_image)
             (controller default_args) (boot None None)
             125 EmptyString "pull access denied" eq_refl);
    [vm_compute; reflexivity | discriminate].
Defined.

(** ** Teardown, step by step *)

(** X8.  [cleanup] does not look at docker's exit status: when
    [docker stop] and [docker rm] complete, with whatever status, both
    are run for the recorded id, in this order, the success line is
    logged, and [cleanup] goes on to the backup: with none it returns;
    with one it renames it over the configuration and logs that, or
    raises the [OSError] of a refused rename. *)
Theorem cleanup_ignores_exit_status :
  forall E w cid rc1 out1 err1 rc2 out2 err2,
    container_id w = Some cid ->
    PyStr.truthy cid = true ->
    on_run E (S (now w)) ["docker"; "stop"; cid] = Completed rc1 out1 err1 ->
    on_run E (S (S (now w))) ["docker"; "rm"; cid] = Completed rc2 out2 err2 ->
    cleanup E w
    = match backup_file w with
      | None =>
          (Return tt,
           after [Log LInfo "Cleaning up...";
                  Run ["docker"; "stop"; cid];
                  Run ["docker"; "rm"; cid];
                  Log LSuccess "Container stopped and removed"] w)
      | Some old =>
          match on_rename E (4 + now w) with
          | None =>
              (Return tt,
               with_files (Some old) None
                 (after [Log LInfo "Cleaning up...";
                         Run ["docker"; "stop"; cid];
                         Run ["docker"; "rm"; cid];
                         Log LSuccess "Container stopped and removed";
                         Rename;
                         Log LSuccess "Tauri configuration restored"] w))
          | Some msg =>
              (Raise (Error "OSError" msg),
               after [Log LInfo "Cleaning up...";
                      Run ["docker"; "stop"; cid];
                      Run ["docker"; "rm"; cid];
                      Log LSuccess "Container stopped and removed";
                      Rename] w)
          end
      end.
Proof.
  intros E w cid rc1 out1 err1 rc2 out2 err2 Hi Ht H1 H2.
  unfold cleanup, cleanup_steps. unfold_monad. simpl.
  rewrite Hi. simpl. rewrite Ht. simpl. rewrite H1. simpl. rewrite H2. simpl.
  destruct (backup_file w) as [old |] eqn:Hb; simpl.
  - destruct (on_rename E _) as [msg |]; unfold with_files, after; simpl;
      rewrite ?Hi, ?Hb; reflexivity.
  - unfold after. simpl. rewrite Hi, Hb. reflexivity.
Qed.

Lemma cleanup_ignores_exit_status_witness :
  (occurred (is_log LSuccess "Container stopped and removed")
     (snd (cleanup (host grumpy_docker) before_teardown)) = true
   /\ config_file (snd (cleanup (host grumpy_docker) before_teardown))
      = Some "original")
  /\ fst (cleanup (host grumpy_docker) (running "abc123")) = Return tt.
Proof.
  split.
  - rewrite (@cleanup_ignores_exit_status (host grumpy_docker) before_teardown
               "abc123" 1 EmptyString "No such container"
               1 EmptyString "No such container"
               ltac:(vm_compute; reflexivity) ltac:(vm_compute; reflexivity)
               ltac:(vm_compute; reflexivity) ltac:(vm_compute; reflexivity)).
    split; reflexivity.
  - rewrite (@cleanup_ignores_exit_status (host grumpy_docker) (running "abc123")
               "abc123" 1 EmptyString "No such container"
               1 EmptyString "No such container"
               ltac:(vm_compute; reflexivity) ltac:(vm_compute; reflexivity)
               ltac:(vm_compute; reflexivity) ltac:(vm_compute; reflexivity)).
    reflexivity.
Defined.

(** X9.  A launch that succeeded but printed no id leaves a container
    that teardown never stops: [docker run] exits with 0, its output is
    blank, [launch_container] returns [True] with an empty id, and
    [cleanup], in any later world with that id, runs no command. *)
Theorem blank_id_is_never_stopped :
  forall E d w out err w',
    on_run E (4 + now w) (docker_run d) = Completed 0 out err ->
    PyStr.strip out = EmptyString ->
    container_id w' = container_id (snd (launch_container E d w)) ->
    fst (launch_container E d w) = Return true
    /\ times is_command (snd (cleanup E w')) = times is_command w'.
Proof.
  intros E d w out err w' Hr Hs Hw.
  pose proof (launch_container_cases E d w) as C. rewrite Hr in C.
  cbn [Z.eqb] in C. destruct C as [C1 C2]. split; [exact C1 |].
  rewrite C2, Hs in Hw.
  unfold times, cleanup, cleanup_steps. unfold_monad. simpl.
  rewrite Hw. simpl.
  destruct (backup_file w'); simpl; [| reflexivity].
  destruct (on_rename E _); reflexivity.
Qed.

Lemma blank_id_is_never_stopped_witness :
  times is_command
    (snd (cleanup (host silent_run)
            (snd (launch_container (host silent_run) (controller default_args)
                    (boot None None)))))
  = 1%nat.
Proof.
  rewrite (proj2 (@blank_id_is_never_stopped (host silent_run)
                    (controller default_args) (boot None None)
                    newline EmptyString
                    (snd (launch_container (host silent_run)
                            (controller default_args) (boot None None)))
                    eq_refl eq_refl eq_refl)).
  vm_compute. reflexivity.
Defined.

(** X10.  When [docker stop] raises an [Exception], [cleanup] skips
    [docker rm], logs a warning, and still restores the configuration
    backup. *)
Theorem cleanup_restores_after_stop_failure :
  forall E w cid cls msg old,
    container_id w = Some cid ->
    PyStr.truthy cid = true ->
    backup_file w = Some old ->
    on_run E (S (now w)) ["docker"; "stop"; cid] = RunRaises (Error cls msg) ->
    on_rename E (3 + now w) = None ->
    cleanup E w
    = (Return tt,
       with_files (Some old) None
         (after [Log LInfo "Cleaning up...";
                 Run ["docker"; "stop"; cid];
                 LogExn LWarning "Error during container cleanup: " (Error cls msg);
                 Rename;
                 Log LSuccess "Tauri configuration restored"] w)).
Proof.
  intros E w cid cls msg old Hi Ht Hb H1 H2.
  unfold cleanup, cleanup_steps. unfold_monad. simpl in *.
  rewrite Hi. simpl. rewrite Ht. simpl. rewrite H1. simpl.
  rewrite Hb. simpl. unfold now in H2. rewrite H2. simpl.
  unfold with_files, after. simpl. rewrite Hi. reflexivity.
Qed.

Lemma cleanup_restores_after_stop_failure_witness :
  config_file (snd (cleanup (host docker_gone) before_teardown)) = Some "original"
  /\ times is_command (snd (cleanup (host docker_gone) before_teardown)) = 1%nat.
Proof.
  rewrite (@cleanup_restores_after_stop_failure (host docker_gone) before_teardown
             "abc123" "FileNotFoundError" "docker" "original"
             eq_refl eq_refl eq_refl eq_refl eq_refl).
  split; reflexivity.
Defined.

(** ** Writing the configuration *)

(** X11.  When the copy of an existing configuration to the backup
    path fails, [update_tauri_config] raises before it opens the
    configuration: the configuration keeps its content and nothing is
    written to it, while the backup path holds what the failed copy
    left there, or what it held before when the copy did not touch
    it. *)
Theorem failed_backup_leaves_config_alone :
  forall E d w old msg left,
    config_file w = Some old ->
    on_copy2 E (S (now w)) = CopyRaises msg left ->
    update_tauri_config E d w
    = (Raise (Error "OSError" msg),
       with_files (Some old)
         (match left with
          | Some t => Some t
          | None => backup_file w
          end)
         (after [Log LInfo "Updating Tauri configuration..."; Copy2] w)).
Proof.
  intros E d w old msg left Hc Hr.
  unfold update_tauri_config. unfold_monad. simpl in *.
  rewrite Hc. simpl. rewrite Hr. unfold after, with_files.
  destruct left as [t |]; simpl; rewrite ?Hc; reflexivity.
Qed.

Lemma failed_backup_leaves_config_alone_witness :
  (config_file (snd (update_tauri_config backup_cut_short (controller default_args)
                       (boot (Some "{ whole }") None))) = Some "{ whole }"
   /\ backup_file (snd (update_tauri_config backup_cut_short
                          (controller default_args)
                          (boot (Some "{ whole }") None))) = Some "{ wh")
  /\ backup_file (snd (update_tauri_config backup_denied (controller default_args)
                         (boot (Some "mine") (Some "older")))) = Some "older".
Proof.
  split.
  - rewrite (@failed_backup_leaves_config_alone backup_cut_short
               (controller default_args) (boot (Some "{ whole }") None)
               "{ whole }" "File too large" (Some "{ wh")
               ltac:(vm_compute; reflexivity) ltac:(vm_compute; reflexivity)).
    split; reflexivity.
  - rewrite (@failed_backup_leaves_config_alone backup_denied
               (controller default_args) (boot (Some "mine") (Some "older"))
               "mine" "Permission denied" None
               ltac:(vm_compute; reflexivity) ltac:(vm_compute; reflexivity)).
    reflexivity.
Defined.

(** What a copy that broke off leads to, for the record: the [OSError]
    is caught by [run], and teardown renames the part that was copied
    over the configuration, which the run had left intact. *)
Example cut_short_backup_replaces_config :
  fst (main backup_cut_short default_args (boot (Some "{ whole }") None))
    = SysExit 1
  /\ config_file (before_cleanup backup_cut_short default_args
                    (boot (Some "{ whole }") None)) = Some "{ whole }"
  /\ config_file (snd (main backup_cut_short default_args
                         (boot (Some "{ whole }") None))) = Some "{ wh".
Proof. vm_compute. repeat split. Qed.

(** X12.  What [update_tauri_config] returns tells what is on disk: after
    [True] the configuration file holds exactly the generated document
    and the backup slot the content the file had before, if it had any;
    after [False] the failure is in the log.  A failed write is never
    raised. *)
Theorem config_update_result :
  forall E d w,
    (fst (update_tauri_config E d w) = Return true ->
     config_file (snd (update_tauri_config E d w)) = Some (tauri_config_text d)
     /\ backup_file (snd (update_tauri_config E d w))
        = match config_file w with
          | Some old => Some old
          | None => backup_file w
          end)
    /\ (fst (update_tauri_config E d w) = Return false ->
        occurred config_write_failure (snd (update_tauri_config E d w)) = true)
    /\ (config_file w = None ->
        exists b, fst (update_tauri_config E d w) = Return b).
Proof.
  intros E d w. rewrite !occurred_history.
  unfold update_tauri_config. unfold_monad. simpl.
  destruct (config_file w) as [old |]; simpl; ask_host;
    repeat split; intros; try discriminate; try reflexivity;
    eexists; reflexivity.
Qed.

Lemma config_update_result_witness :
  config_file (snd (update_tauri_config calm (controller default_args)
                      (boot (Some "mine") None)))
    = Some (tauri_config_text (controller default_args))
  /\ occurred config_write_failure
       (snd (update_tauri_config config_denied (controller default_args)
               (boot None None))) = true.
Proof.
  split.
  - apply (proj1 (@config_update_result calm (controller default_args)
                    (boot (Some "mine") None))).
    vm_compute; reflexivity.
  - apply (proj1 (proj2 (@config_update_result config_denied
                           (controller default_args) (boot None None)))).
    vm_compute; reflexivity.
Defined.

(** ** Names and identifiers *)

Lemma filter_all_chars keep s : all_chars keep (PyStr.filter keep s) = true.
Proof.
  induction s as [| c r IH]; simpl; [reflexivity |].
  destruct (keep c) eqn:Hk; simpl; [rewrite Hk, IH; reflexivity | exact IH].
Qed.

(** X13.  Whatever the image reference, the generated product name is
    [Dock2Tauri - ] followed by text without slash, backslash, colon,
    star, question mark, double quote, angle bracket or bar, and the
    identifier is [com.dock2tauri.] followed by alphanumeric characters
    only. *)
Theorem generated_names_are_clean :
  forall d,
    exists product ident,
      string_field "productName" (tauri_config d) = Some ("Dock2Tauri - " ++ product)
      /\ all_chars (fun c => negb (PyStr.mem c forbidden_in_product_name)) product
         = true
      /\ string_field "identifier" (tauri_config d) = Some ("com.dock2tauri." ++ ident)
      /\ all_chars PyStr.isalnum ident = true.
Proof.
  intro d.
  exists (PyStr.filter (fun c => negb (PyStr.mem c forbidden_in_product_name))
            (PyStr.before ":" (image d))),
         (PyStr.filter PyStr.isalnum (image d)).
  split; [reflexivity |]. split; [apply filter_all_chars |].
  split; [reflexivity | apply filter_all_chars].
Qed.

Lemma replace_length a b s :
  String.length (PyStr.replace a b s) = String.length s.
Proof. induction s as [| c r IH]; simpl; [reflexivity | rewrite IH; reflexivity]. Qed.

Lemma replace_removes a b s :
  Ascii.eqb b a = false -> PyStr.mem a (PyStr.replace a b s) = false.
Proof.
  intro Hab. induction s as [| c r IH]; simpl; [reflexivity |].
  rewrite IH, orb_false_r.
  destruct (Ascii.eqb c a) eqn:Hc.
  - rewrite Ascii.eqb_sym. exact Hab.
  - rewrite Ascii.eqb_sym. exact Hc.
Qed.

Lemma replace_keeps_out a b x s :
  Ascii.eqb b x = false ->
  PyStr.mem x s = false -> PyStr.mem x (PyStr.replace a b s) = false.
Proof.
  intro Hb. induction s as [| c r IH]; simpl; [reflexivity |].
  intro H. apply orb_false_iff in H. destruct H as [H1 H2].
  rewrite (IH H2), orb_false_r.
  destruct (Ascii.eqb c a); [rewrite Ascii.eqb_sym; exact Hb | exact H1].
Qed.

(** X14.  The container name is [dock2tauri-], a part as long as the
    image reference that contains neither [:] nor [/], a dash, and the
    host port in decimal. *)
Theorem container_name_shape :
  forall img hp cp release target,
    exists part,
      container_name (Dock2Tauri_init img hp cp release target)
      = "dock2tauri-" ++ part ++ "-" ++ PyStr.str hp
      /\ String.length part = String.length img
      /\ PyStr.mem ":" part = false
      /\ PyStr.mem "/" part = false.
Proof.
  intros img hp cp release target.
  exists (PyStr.replace "/" "-" (PyStr.replace ":" "-" img)).
  split; [reflexivity |]. split; [rewrite !replace_length; reflexivity |].
  split.
  - apply replace_keeps_out; [reflexivity |]. apply replace_removes. reflexivity.
  - apply replace_removes. reflexivity.
Qed.

(** ** The readiness poller, further *)

(** X15.  Whatever the workload and the user do, [wait_for_service]
    makes at most 30 probes. *)
Theorem poller_makes_at_most_30_probes :
  forall E d w,
    (times is_urlopen (snd (wait_for_service E d w)) <= times is_urlopen w + 30)%nat.
Proof. intros E d w. apply wait_for_service_bound. Qed.

(** X16.  When no probe is answered by a 200 and no sleep is
    interrupted, [wait_for_service] makes exactly 30 probes, logs the
    warning and returns [False]. *)
Theorem poller_times_out_after_30_probes :
  forall E d w,
    (forall k u, on_urlopen E k u <> Response 200) ->
    (forall k, on_sleep E k = None) ->
    fst (wait_for_service E d w) = Return false
    /\ times is_urlopen (snd (wait_for_service E d w))
       = (times is_urlopen w + 30)%nat
    /\ occurred readiness_timeout (snd (wait_for_service E d w)) = true.
Proof. intros E d w. apply wait_for_service_timeout. Qed.

Lemma poller_times_out_after_30_probes_witness :
  fst (wait_for_service deaf (controller default_args) (boot None None))
    = Return false
  /\ times is_urlopen
       (snd (wait_for_service deaf (controller default_args) (boot None None)))
     = 30%nat.
Proof.
  destruct (@poller_times_out_after_30_probes deaf (controller default_args)
              (boot None None)) as [A [B _]].
  - intros k u. simpl. discriminate.
  - intro k. reflexivity.
  - split; [exact A | exact B].
Defined.

Section PollerFurther.

Variable E : Env.
Variable d : Dock2Tauri.

Lemma failed_probes_app n2 n1 b :
  failed_probes E b (n2 ++ n1)
  = (failed_probes E (List.length n1 + b) n2 + failed_probes E b n1)%nat.
Proof.
  induction n2 as [| e r IH]; [reflexivity |].
  cbn [app failed_probes]. rewrite IH, length_app, <- Nat.add_assoc.
  apply Nat.add_assoc.
Qed.

Lemma poll_sleeps_once_per_failed_probe n w :
  exists new,
    history (snd (poll E d n w)) = (new ++ history w)%list
    /\ List.length (List.filter is_sleep new) = failed_probes E (now w) new.
Proof.
  revert w. induction n as [| n IH]; intro w.
  - rewrite poll_zero.
    exists [Log LWarning "Service might not be ready yet, but continuing...";
            Print newline].
    split; reflexivity.
  - pose proof (poll_round E d n w) as R.
    destruct (on_urlopen E (now w) (service_url d)) as [status | e] eqn:Hr.
    + destruct (status =? 200); rewrite R.
      * exists [Log LSuccess "Service is ready!"; UrlOpen (service_url d)].
        split; [reflexivity |].
        cbn [failed_probes List.length Nat.add List.filter is_sleep].
        rewrite Hr. reflexivity.
      * destruct (IH (snd (emit (UrlOpen (service_url d)) w))) as [new [H C]].
        exists (new ++ [UrlOpen (service_url d)])%list. split.
        -- rewrite H, <- app_assoc. reflexivity.
        -- rewrite failed_probes_app, filter_app, length_app, C.
           cbn [failed_probes List.length Nat.add List.filter is_sleep].
           rewrite Hr. reflexivity.
    + cbn zeta in R.
      destruct (on_sleep E (S (S (now w)))) as [x |]; rewrite R.
      * exists [Sleep 1; Print "."; UrlOpen (service_url d)].
        split; [reflexivity |].
        cbn [failed_probes List.length Nat.add List.filter is_sleep].
        rewrite Hr. reflexivity.
      * match goal with
        | |- context [poll E d n ?w1] => destruct (IH w1) as [new [H C]]
        end.
        exists (new ++ [Sleep 1; Print "."; UrlOpen (service_url d)])%list. split.
        -- rewrite H, <- app_assoc. reflexivity.
        -- rewrite failed_probes_app, filter_app, length_app, C.
           cbn [failed_probes List.length Nat.add List.filter is_sleep].
           rewrite Hr. reflexivity.
Qed.

Lemma poll_raises_from_sleep n w e :
  fst (poll E d n w) = Raise e -> exists k, on_sleep E k = Some e.
Proof.
  revert w. induction n as [| n IH]; intro w.
  - rewrite poll_zero. discriminate.
  - pose proof (poll_round E d n w) as R.
    destruct (on_urlopen E (now w) (service_url d)) as [status | x].
    + destruct (status =? 200); rewrite R; [discriminate | apply IH].
    + cbn zeta in R. destruct (on_sleep E (S (S (now w)))) as [y |] eqn:Hs;
        rewrite R.
      * intro H. inversion H. subst. eexists. exact Hs.
      * apply IH.
Qed.

Lemma poll_ready_after_200 n w :
  fst (poll E d n w) = Return true ->
  (exists k, on_urlopen E k (service_url d) = Response 200)
  /\ occurred (is_log LSuccess "Service is ready!") (snd (poll E d n w)) = true.
Proof.
  revert w. induction n as [| n IH]; intro w.
  - rewrite poll_zero. discriminate.
  - pose proof (poll_round E d n w) as R.
    destruct (on_urlopen E (now w) (service_url d)) as [status | x] eqn:Hr.
    + destruct (status =? 200) eqn:Hz; rewrite R.
      * intros _. apply Z.eqb_eq in Hz. subst. split; [eexists; exact Hr |].
        cbn [snd]. rewrite occurred_emit. reflexivity.
      * apply IH.
    + cbn zeta in R. destruct (on_sleep E (S (S (now w)))); rewrite R;
        [discriminate | apply IH].
Qed.

End PollerFurther.

(** X17.  The poller sleeps once after each probe that raised and at no
    other time: of the events a call of [wait_for_service] adds, as many
    are sleeps as are probes that [urlopen] answered by raising.  A
    probe answered with a status, 200 or not, is followed by no sleep. *)
Theorem poller_sleeps_once_per_failed_probe :
  forall E d w,
    exists new,
      history (snd (wait_for_service E d w)) = (new ++ history w)%list
      /\ List.length (List.filter is_sleep new) = failed_probes E (now w) new.
Proof.
  intros E d w. rewrite wait_for_service_unfold.
  destruct (poll_sleeps_once_per_failed_probe E d 30
              (snd (emit (Log LInfo "Waiting for service to be ready...") w)))
    as [new [H C]].
  exists (new ++ [Log LInfo "Waiting for service to be ready..."])%list. split.
  - rewrite H, <- app_assoc. reflexivity.
  - rewrite failed_probes_app, filter_app, length_app, C. reflexivity.
Qed.

(** X18.  The bare [except] of the poller swallows whatever [urlopen]
    raises, the user's interrupt included: an exception that leaves
    [wait_for_service] was raised by [time.sleep]. *)
Theorem poller_raises_only_from_sleep :
  forall E d w e,
    fst (wait_for_service E d w) = Raise e -> exists k, on_sleep E k = Some e.
Proof.
  intros E d w e. rewrite wait_for_service_unfold. apply poll_raises_from_sleep.
Qed.

Lemma poller_raises_only_from_sleep_witness :
  fst (wait_for_service impatient (controller default_args) (boot None None))
    = Raise KeyboardInterrupt
  /\ exists k, on_sleep impatient k = Some KeyboardInterrupt.
Proof.
  split; [vm_compute; reflexivity |].
  apply (@poller_raises_only_from_sleep impatient (controller default_args)
           (boot None None) KeyboardInterrupt).
  vm_compute; reflexivity.
Defined.

(** X19.  [wait_for_service] returns [True] only when a probe was
    answered with status 200, and then the readiness line is in the
    log. *)
Theorem poller_ready_only_after_200 :
  forall E d w,
    fst (wait_for_service E d w) = Return true ->
    (exists k, on_urlopen E k (service_url d) = Response 200)
    /\ occurred (is_log LSuccess "Service is ready!")
         (snd (wait_for_service E d w)) = true.
Proof.
  intros E d w. rewrite wait_for_service_unfold. apply poll_ready_after_200.
Qed.

Lemma poller_ready_only_after_200_witness :
  occurred (is_log LSuccess "Service is ready!")
    (snd (wait_for_service calm (controller default_args) (boot None None))) = true.
Proof.
  apply (@poller_ready_only_after_200 calm (controller default_args)
           (boot None None)).
  vm_compute; reflexivity.
Defined.

(** ** Starting the packaging tool *)

(** X20.  When the [src-tauri] directory cannot be entered,
    [launch_tauri] lets the [OSError] escape and has run no command: not
    even the look-up of cargo. *)
Theorem tauri_dir_failure_escapes :
  forall E d w msg,
    on_chdir E (S (now w)) = Some msg ->
    fst (launch_tauri E d w) = Raise (Error "OSError" msg)
    /\ times is_command (snd (launch_tauri E d w)) = times is_command w.
Proof.
  intros E d w msg H.
  unfold launch_tauri, Logger.info.
  destruct (build_release d); rewrite bind_emit;
    unfold try_except, bind, chdir, now in *;
    cbn [emit snd fst history List.length]; rewrite H; cbn [fst snd];
    split; reflexivity.
Qed.

Lemma tauri_dir_failure_escapes_witness :
  fst (launch_tauri no_tauri_dir (controller default_args) (running "abc"))
  = Raise (Error "OSError" "No such file or directory").
Proof.
  apply (@tauri_dir_failure_escapes no_tauri_dir (controller default_args)
           (running "abc") "No such file or directory").
  reflexivity.
Defined.

(** X21.  With cargo on the path, what [launch_tauri] returns is whether
    the packaging tool exited with status 0. *)
Theorem tauri_result_is_exit_status :
  forall E d w out err rc out' err',
    on_chdir E (S (now w)) = None ->
    on_run E (S (S (now w))) ["which"; "cargo"] = Completed 0 out err ->
    on_run E (S (S (S (now w)))) (tauri_cmd d) = Completed rc out' err' ->
    fst (launch_tauri E d w) = Return (rc =? 0)
    /\ occurred (is_run (tauri_cmd d)) (snd (launch_tauri E d w)) = true.
Proof.
  intros E d w out err rc out' err' Hd Hc Ht.
  unfold launch_tauri, Logger.info, _command_exists.
  rewrite !occurred_history.
  destruct (build_release d); rewrite bind_emit;
    unfold try_except, bind, chdir, subprocess_run, now in *;
    cbn [emit snd fst history List.length]; rewrite Hd;
    cbn [emit snd fst history List.length]; rewrite Hc;
    cbn [emit snd fst history List.length andb ret returncode Z.eqb];
    rewrite Ht; cbn [andb negb];
    destruct (rc =? 0); cbn [negb emit ret fst snd history existsb is_run];
    rewrite argv_eqb_refl; (split; [reflexivity |]);
    rewrite ?Bool.orb_true_r; reflexivity.
Qed.

Lemma tauri_result_is_exit_status_witness :
  fst (launch_tauri calm (controller default_args) (running "abc")) = Return true.
Proof.
  apply (@tauri_result_is_exit_status calm (controller default_args)
           (running "abc") EmptyString EmptyString 0 EmptyString EmptyString);
    vm_compute; reflexivity.
Defined.

(** X22.  Without cargo on the path, [launch_tauri] starts nothing: it
    says where the container can be reached, prints [container_id] as
    Python prints it, and returns [False]. *)
Theorem tauri_without_cargo :
  forall E d w rc out err,
    on_chdir E (S (now w)) = None ->
    on_run E (S (S (now w))) ["which"; "cargo"] = Completed rc out err ->
    rc <> 0 ->
    launch_tauri E d w
    = (Return false,
       after [tauri_opening d;
              Chdir;
              Run ["which"; "cargo"];
              Log LError "Cargo not found. Please install Rust and Tauri CLI.";
              Log LInfo ("Container is running at: http://localhost:" ++ host_port d);
              Log LInfo ("Container ID: " ++ str_opt (container_id w))] w).
Proof.
  intros E d w rc out err Hd Hc Hrc.
  apply Z.eqb_neq in Hrc.
  unfold launch_tauri, tauri_opening, Logger.info, Logger.error, _command_exists.
  destruct (build_release d); rewrite bind_emit;
    unfold try_except, bind, chdir, subprocess_run, get, now in *;
    cbn [emit snd fst history List.length]; rewrite Hd;
    cbn [emit snd fst history List.length]; rewrite Hc;
    cbn [emit snd fst history List.length andb ret returncode];
    rewrite Hrc; reflexivity.
Qed.

Lemma tauri_without_cargo_witness :
  fst (launch_tauri (host no_cargo) (controller default_args) (boot None None))
  = Return false.
Proof.
  rewrite (@tauri_without_cargo (host no_cargo) (controller default_args)
             (boot None None) 1 EmptyString EmptyString);
    [reflexivity | reflexivity | vm_compute; reflexivity | discriminate].
Defined.

Lemma launch_tauri_keeps_called_process_error E d w argv rc out err :
  fst (launch_tauri E d w) <> Raise (CalledProcessError argv rc out err).
Proof.
  unfold launch_tauri, _command_exists. unfold_monad. simpl.
  destruct (build_release d); simpl; ask_host; discriminate.
Qed.

(** X23.  The two handlers of [launch_tauri] let neither a
    [KeyboardInterrupt] nor a [CalledProcessError] out: an exception
    that leaves it is of another class. *)
Theorem tauri_handlers_absorb :
  forall E d w e,
    fst (launch_tauri E d w) = Raise e ->
    exists cls msg, e = Error cls msg.
Proof.
  intros E d w e H. destruct e as [| argv rc out err | cls msg].
  - exfalso. exact (launch_tauri_keeps_interrupt E d w H).
  - exfalso. exact (launch_tauri_keeps_called_process_error E d w H).
  - exists cls, msg. reflexivity.
Qed.

Lemma tauri_handlers_absorb_witness :
  exists cls msg, Error "OSError" "No such file or directory" = Error cls msg.
Proof.
  apply (@tauri_handlers_absorb no_tauri_dir (controller default_args)
           (running "abc")).
  vm_compute; reflexivity.
Defined.

(** X24.  An interrupt of the packaging tool counts as the normal end of
    the application: [launch_tauri] logs it and returns [True]. *)
Theorem tauri_interrupt_is_success :
  forall E d w out err,
    on_chdir E (S (now w)) = None ->
    on_run E (S (S (now w))) ["which"; "cargo"] = Completed 0 out err ->
    on_run E (S (S (S (now w)))) (tauri_cmd d) = RunRaises KeyboardInterrupt ->
    launch_tauri E d w
    = (Return true,
       after [tauri_opening d;
              Chdir;
              Run ["which"; "cargo"];
              Run (tauri_cmd d);
              Log LInfo "Application interrupted by user"] w).
Proof.
  intros E d w out err Hd Hc Ht.
  unfold launch_tauri, tauri_opening, Logger.info, _command_exists.
  destruct (build_release d); rewrite bind_emit;
    unfold try_except, bind, chdir, subprocess_run, now in *;
    cbn [emit snd fst history List.length]; rewrite Hd;
    cbn [emit snd fst history List.length]; rewrite Hc;
    cbn [emit snd fst history List.length andb ret returncode Z.eqb];
    rewrite Ht; reflexivity.
Qed.

Lemma tauri_interrupt_is_success_witness :
  fst (launch_tauri (host interrupt_tauri) (controller default_args)
         (running "abc"))
  = Return true.
Proof.
  rewrite (@tauri_interrupt_is_success (host interrupt_tauri)
             (controller default_args) (running "abc") EmptyString EmptyString);
    [reflexivity | reflexivity | vm_compute; reflexivity | vm_compute; reflexivity].
Defined.

(** ** The order of the phases *)

Lemma phase_steps_quiet w w' :
  emitted no_phase_step w w' ->
  occurred is_docker_run w' = occurred is_docker_run w
  /\ occurred config_dumped w' = occurred config_dumped w
  /\ occurred is_cargo_tauri w' = occurred is_cargo_tauri w.
Proof.
  intro H. repeat split; apply occurred_quiet;
    (eapply emitted_weaken; [| exact H]);
    intros e He; unfold no_phase_step in He;
    apply negb_true_iff in He; apply negb_true_iff;
    repeat (apply orb_false_iff in He; destruct He as [He ?]);
    assumption.
Qed.

Lemma banner_idle : respects (emitted no_phase_step) banner.
Proof. unfold banner. emitted_walk; reflexivity. Qed.

Lemma check_dependencies_idle E :
  respects (emitted no_phase_step) (check_dependencies E).
Proof. unfold check_dependencies. emitted_walk; reflexivity. Qed.

Lemma stop_existing_containers_idle E d :
  respects (emitted no_phase_step) (stop_existing_containers E d).
Proof. unfold stop_existing_containers. emitted_walk; reflexivity. Qed.

Lemma wait_for_service_idle E d :
  respects (emitted no_phase_step) (wait_for_service E d).
Proof.
  unfold wait_for_service. emitted_walk; [reflexivity |].
  apply poll_emitted; reflexivity.
Qed.

Lemma cleanup_idle E : respects (emitted no_phase_step) (cleanup E).
Proof. unfold cleanup, cleanup_steps. emitted_walk; reflexivity. Qed.

Lemma launch_container_launches_only E d :
  respects (emitted (fun e => negb (config_dumped e || is_cargo_tauri e)))
    (launch_container E d).
Proof. unfold launch_container. emitted_walk; reflexivity. Qed.

Lemma update_tauri_config_writes_only E d :
  respects (emitted (fun e => negb (is_docker_run e || is_cargo_tauri e)))
    (update_tauri_config E d).
Proof. unfold update_tauri_config. emitted_walk; reflexivity. Qed.

Lemma launch_tauri_packages_only E d :
  respects (emitted (fun e => negb (is_docker_run e || config_dumped e)))
    (launch_tauri E d).
Proof.
  unfold launch_tauri, tauri_cmd. emitted_walk; try reflexivity.
  destruct (build_release d); [| reflexivity].
  destruct (build_target d) as [t |]; [| reflexivity].
  destruct (PyStr.truthy t); reflexivity.
Qed.

Lemma occurred_quiet2 P Q w w' :
  emitted (fun e => negb (P e || Q e)) w w' ->
  occurred P w' = occurred P w /\ occurred Q w' = occurred Q w.
Proof.
  intro H. split; apply occurred_quiet;
    (eapply emitted_weaken; [| exact H]);
    intros e He; apply negb_true_iff in He; apply negb_true_iff;
    apply orb_false_iff in He; destruct He; assumption.
Qed.

(** [launch_container] starts with [docker run], whatever comes of it. *)
Lemma launch_container_runs_docker E d w :
  occurred is_docker_run (snd (launch_container E d w)) = true.
Proof.
  rewrite occurred_history.
  unfold launch_container. unfold_monad. simpl.
  ask_host; simpl; rewrite ?orb_true_r; reflexivity.
Qed.

(** When [update_tauri_config] returns, it has opened the configuration
    for writing. *)
Lemma update_tauri_config_dumps E d w b w' :
  update_tauri_config E d w = (Return b, w') ->
  occurred config_dumped w' = true.
Proof.
  rewrite occurred_history.
  unfold update_tauri_config. unfold_monad. simpl.
  ask_host; intro H; inversion H; subst; clear H; simpl;
    rewrite ?orb_true_r; reflexivity.
Qed.

(** Turns the equation of each phase into what the phase did to the
    three steps and to the passed dependency check. *)
Ltac phase_order :=
  repeat match goal with
         | H : check_dependencies _ _ = _ |- _ =>
             pose proof (phase_steps_quiet
                           (respects_run _ (check_dependencies_idle _) H))
               as [? [? ?]];
             pose proof (check_dependencies_marks _ _ H) as [_ [? _]];
             clear H
         | H : stop_existing_containers _ _ _ = _ |- _ =>
             pose proof (phase_steps_quiet
                           (respects_run _ (stop_existing_containers_idle _ _) H))
               as [? [? ?]];
             pose proof (quiet_landmarks (stop_existing_containers_quiet _ _ _ H))
               as [_ [? _]];
             clear H
         | H : launch_container ?E ?d ?w = _ |- _ =>
             pose proof (occurred_quiet2 config_dumped is_cargo_tauri
                           (respects_run _ (launch_container_launches_only _ _) H))
               as [? ?];
             pose proof (launch_container_marks _ _ _ H) as [_ [_ [? _]]];
             let D := fresh "D" in
             pose proof (launch_container_runs_docker E d w) as D;
             rewrite H in D; cbn [snd] in D;
             clear H
         | H : wait_for_service _ _ _ = _ |- _ =>
             pose proof (phase_steps_quiet
                           (respects_run _ (wait_for_service_idle _ _) H))
               as [? [? ?]];
             pose proof (quiet_landmarks (wait_for_service_quiet _ _ _ H))
               as [_ [? _]];
             clear H
         | H : update_tauri_config _ _ _ = (Return _, _) |- _ =>
             pose proof (update_tauri_config_dumps _ _ _ H);
             pose proof (occurred_quiet2 is_docker_run is_cargo_tauri
                           (respects_run _ (update_tauri_config_writes_only _ _) H))
               as [? ?];
             pose proof (quiet_landmarks (update_tauri_config_quiet _ _ _ H))
               as [_ [? _]];
             clear H
         | H : update_tauri_config _ _ _ = (Raise _, _) |- _ =>
             pose proof (occurred_quiet2 is_docker_run is_cargo_tauri
                           (respects_run _ (update_tauri_config_writes_only _ _) H))
               as [? ?];
             pose proof (quiet_landmarks (update_tauri_config_quiet _ _ _ H))
               as [_ [? _]];
             clear H
         | H : launch_tauri _ _ _ = _ |- _ =>
             pose proof (occurred_quiet2 is_docker_run config_dumped
                           (respects_run _ (launch_tauri_packages_only _ _) H))
               as [? ?];
             pose proof (quiet_landmarks (launch_tauri_quiet _ _ _ H))
               as [_ [? _]];
             clear H
         end.

(** Within the [try] block: the packaging tool is started only after the
    configuration was opened for writing, that only after [docker run],
    and that only after the dependency check passed. *)
Lemma run_try_order E d w r w' :
  run_try_ends E d w r w' ->
  occurred is_docker_run w = false ->
  occurred config_dumped w = false ->
  occurred is_cargo_tauri w = false ->
  (occurred is_cargo_tauri w' = true -> occurred config_dumped w' = true)
  /\ (occurred config_dumped w' = true -> occurred is_docker_run w' = true)
  /\ (occurred is_docker_run w' = true -> occurred dependencies_passed w' = true).
Proof.
  intros Hp HD HC HT.
  destruct Hp; phase_order;
    repeat match goal with
           | H : occurred ?X ?a = _ |- _ => rewrite H in *; clear H
           end;
    cbn [returned Bool.eqb orb] in *; rewrite ?orb_true_r in *;
    repeat split; intros; congruence.
Qed.

Lemma run_world E d w :
  snd (run E d w) = snd (cleanup E (snd (run_guarded E d (snd (banner w))))).
Proof.
  rewrite run_unfold.
  destruct (run_guarded E d (snd (banner w))) as [r w2]. simpl.
  destruct (cleanup E w2) as [[u | e] w3]; [| reflexivity].
  destruct r as [[b |] | e]; reflexivity.
Qed.

(** The handlers of [run] and the teardown start none of the three
    steps. *)
Lemma run_try_to_end_idle E d w :
  emitted no_phase_step (snd (run_try E d (snd (banner w)))) (snd (run E d w)).
Proof.
  rewrite run_world.
  eapply emitted_trans; [| apply cleanup_idle].
  pose proof (run_guarded_cases E d (snd (banner w))) as H.
  destruct (fst (run_try E d (snd (banner w)))) as [r | e];
    [rewrite H; apply emitted_refl |].
  destruct e; rewrite H; cbn [snd]; apply emit_emitted; reflexivity.
Qed.

(** X25.  No step of a run without the one before it, whatever the
    host answers: a run that starts the packaging tool has opened the
    configuration for writing, a run that opens the configuration has
    issued [docker run], and a run that issues [docker run] has logged
    the passed dependency check. *)
Theorem steps_happen_in_order :
  forall E d w,
    occurred is_docker_run w = false ->
    occurred config_dumped w = false ->
    occurred is_cargo_tauri w = false ->
    (occurred is_cargo_tauri (snd (run E d w)) = true ->
     occurred config_dumped (snd (run E d w)) = true)
    /\ (occurred config_dumped (snd (run E d w)) = true ->
        occurred is_docker_run (snd (run E d w)) = true)
    /\ (occurred is_docker_run (snd (run E d w)) = true ->
        occurred dependencies_passed (snd (run E d w)) = true).
Proof.
  intros E d w HD HC HT.
  destruct (phase_steps_quiet (banner_idle w)) as [BD [BC BT]].
  rewrite HD in BD. rewrite HC in BC. rewrite HT in BT.
  destruct (run_try_order (run_try_path E d (snd (banner w))) BD BC BT)
    as [A [B C]].
  pose proof (run_try_to_end_idle E d w) as G.
  destruct (phase_steps_quiet G) as [GD [GC GT]].
  rewrite GD, GC, GT. repeat split; try assumption.
  intro H. eapply occurred_later; [exact G |]. apply C, H.
Qed.

Lemma steps_happen_in_order_witness :
  occurred dependencies_passed
    (snd (run calm (controller default_args) (boot None None))) = true.
Proof.
  apply (@steps_happen_in_order calm (controller default_args) (boot None None)
           ltac:(vm_compute; reflexivity) ltac:(vm_compute; reflexivity)
           ltac:(vm_compute; reflexivity)).
  apply (@steps_happen_in_order calm (controller default_args) (boot None None)
           ltac:(vm_compute; reflexivity) ltac:(vm_compute; reflexivity)
           ltac:(vm_compute; reflexivity)).
  apply (@steps_happen_in_order calm (controller default_args) (boot None None)
           ltac:(vm_compute; reflexivity) ltac:(vm_compute; reflexivity)
           ltac:(vm_compute; reflexivity)).
  vm_compute; reflexivity.
Defined.

(** X26.  Nothing that goes wrong before teardown leaves [run]: an
    exception that leaves it was raised by [cleanup], and it is the
    user's interrupt of [docker stop] or [docker rm] or the [OSError]
    of the rename that restores the backup. *)
Theorem run_raises_only_from_cleanup :
  forall E d w e,
    fst (run E d w) = Raise e ->
    fst (cleanup E (snd (run_guarded E d (snd (banner w))))) = Raise e
    /\ (e = KeyboardInterrupt \/ exists msg, e = Error "OSError" msg).
Proof.
  intros E d w e. rewrite run_unfold.
  destruct (run_guarded_returns E d (snd (banner w))) as [r Hr].
  destruct (run_guarded E d (snd (banner w))) as [r' w2]. simpl in Hr. subst r'.
  cbn [snd].
  destruct (cleanup E w2) as [[u | x] w3] eqn:Hc.
  - destruct r; discriminate.
  - cbn [fst]. intro H. inversion H. subst x. split; [reflexivity |].
    pose proof (@cleanup_raises E w2 e) as R. rewrite Hc in R.
    destruct (R eq_refl) as [[-> _] | [msg [-> _]]];
      [left; reflexivity | right; exists msg; reflexivity].
Qed.

Lemma run_raises_only_from_cleanup_witness :
  fst (cleanup restore_denied
         (snd (run_guarded restore_denied (controller default_args)
                 (snd (banner (boot (Some "original") None))))))
  = Raise (Error "OSError" "Permission denied").
Proof.
  apply (@run_raises_only_from_cleanup restore_denied (controller default_args)
           (boot (Some "original") None) (Error "OSError" "Permission denied")).
  vm_compute; reflexivity.
Defined.

(** ** The build target *)

Lemma run_dev_only E d :
  build_release d = false ->
  respects
    (emitted (fun e => negb (packaging_other_than ["cargo"; "tauri"; "dev"] e)))
    (run E d).
Proof.
  intro Hb.
  unfold run, banner, run_guarded, run_try, cleanup, cleanup_steps,
    check_dependencies, stop_existing_containers, launch_container,
    wait_for_service, update_tauri_config, launch_tauri, tauri_cmd.
  rewrite Hb.
  emitted_walk; try reflexivity.
  apply poll_emitted; reflexivity.
Qed.

(** X27.  Without [--build] the [--target] option is ignored: whatever
    its value and whatever the host answers, the only way the run
    starts the packaging tool is [cargo tauri dev]. *)
Theorem target_ignored_without_build :
  forall E a w,
    arg_build a = false ->
    occurred (packaging_other_than ["cargo"; "tauri"; "dev"]) (snd (main E a w))
    = occurred (packaging_other_than ["cargo"; "tauri"; "dev"]) w.
Proof.
  intros E a w Hb. apply occurred_quiet.
  replace (snd (main E a w)) with (snd (run E (controller a) w))
    by (unfold main; destruct (run E (controller a) w) as [[b | e] w'];
        reflexivity).
  apply run_dev_only. exact Hb.
Qed.

Lemma target_ignored_without_build_witness :
  occurred (packaging_other_than ["cargo"; "tauri"; "dev"])
    (snd (main calm target_without_build (boot None None)))
  = false.
Proof.
  rewrite (@target_ignored_without_build calm target_without_build
             (boot None None) eq_refl).
  reflexivity.
Defined.
